(** * Soledad: the encrypting U1DB backend ([leap_backend.py])

    A shallow embedding of the document envelope codec
    ([encrypt_doc_json], [decrypt_doc_json]), of [LeapDocument], and of the
    two methods of [LeapSyncTarget] that make up one sync exchange
    ([_parse_sync_stream], [sync_exchange]), followed by the ordered
    delivery algorithm of the decrypter pool. *)

From Stdlib Require Import ZArith Ascii String List Bool Lia DecimalString.
From stdpp Require Import base option list strings gmap.

Local Open Scope string_scope.
Local Open Scope list_scope.
Local Set Warnings "-register-all,-clear-no-such-hyp".

(** ** Python values *)

(** The values the module handles: the JSON values of a sync stream
    (numbers are the integers of generations; floats are left out), with
    the two string types of Python 2 ([str] and [unicode]), which the
    [isinstance(_, str)] assertions of [decrypt_doc_json] tell apart.
    Dictionaries keep their items in a list; their keys are strings (JSON
    objects and keyword dictionaries have no other keys). *)
Inductive pyval : Type :=
| PNone
| PBool (b : bool)
| PInt (n : Z)
| PStr (s : string)
| PUnicode (s : string)
| PList (l : list pyval)
| PDict (d : list (string * pyval)).

#[global] Instance pyval_eq_dec : EqDecision pyval.
Proof.
  unfold EqDecision, Decision. fix IH 1.
  decide equality.
  - apply bool_dec.
  - apply Z.eq_dec.
  - apply string_dec.
  - apply string_dec.
  - apply (List.list_eq_dec IH).
  - apply List.list_eq_dec. decide equality. apply string_dec.
Defined.

(** ** Exceptions *)

Inductive exn : Type :=
| NoDefaultKey (arg : pyval)
| NoSoledadCryptoInstance (arg : pyval)
| DocumentNotEncrypted (arg : pyval)
| UnknownEncryptionSchemes (arg : pyval)
| BrokenSyncStream
| RemoteSyncError (payload : pyval)
| InvalidJSON
| NameError (name : string)
| AssertionError
| ValueError
| KeyError (key : string)
| TypeError.

Inductive result (A : Type) : Type :=
| Return (a : A)
| Raise (e : exn).
Arguments Return {A} a.
Arguments Raise {A} e.

Definition rbind {A B} (r : result A) (k : A -> result B) : result B :=
  match r with
  | Return a => k a
  | Raise e => Raise e
  end.

#[global] Instance result_ret : MRet result := @Return.
#[global] Instance result_bind : MBind result := fun A B k r => rbind r k.

(** ** Module namespace *)

(** The exception classes bound to a global name of the module: the four
    classes it defines (lines 42-66) and the one it imports from
    [u1db.errors] (line 35). A [raise Name(arg)] statement first looks
    [Name] up; a name that is bound nowhere makes the statement raise
    [NameError] instead. (The module raises no builtin exception by name,
    so the builtin names are not listed.) *)
Definition global_exception (name : string) : option (pyval -> exn) :=
  if String.eqb name "NoDefaultKey" then Some NoDefaultKey
  else if String.eqb name "NoSoledadCryptoInstance"
       then Some NoSoledadCryptoInstance
  else if String.eqb name "DocumentNotEncrypted" then Some DocumentNotEncrypted
  else if String.eqb name "UnknownEncryptionSchemes"
       then Some UnknownEncryptionSchemes
  else if String.eqb name "BrokenSyncStream" then Some (fun _ => BrokenSyncStream)
  else None.

Definition raise_global {A} (name : string) (arg : pyval) : result A :=
  match global_exception name with
  | Some cls => Raise (cls arg)
  | None => Raise (NameError name)
  end.

(** [class EncryptionSchemes] (lines 73-80). *)
Module EncryptionSchemes.
Definition NONE : string := "none".
Definition SYMKEY : string := "symkey".
Definition PUBKEY : string := "pubkey".
End EncryptionSchemes.

(** ** Python operators used by the module *)

(** [v == lit] for an ASCII [str] literal [lit]: a [str] or a [unicode]
    with the same characters is equal to it, nothing else is. *)
Definition py_eq_str (v : pyval) (lit : string) : bool :=
  match v with
  | PStr s | PUnicode s => String.eqb s lit
  | _ => false
  end.

(** [isinstance(v, str)]. *)
Definition isinstance_str (v : pyval) : bool :=
  match v with
  | PStr _ => true
  | _ => false
  end.

(** [isinstance(v, dict)]. *)
Definition isinstance_dict (v : pyval) : bool :=
  match v with
  | PDict _ => true
  | _ => false
  end.

Fixpoint dict_get (d : list (string * pyval)) (key : string) : option pyval :=
  match d with
  | [] => None
  | (k, v) :: d' => if String.eqb k key then Some v else dict_get d' key
  end.

(** [v[key]] for a string literal [key]: a dictionary without the key raises
    [KeyError]; every other value of [pyval] raises [TypeError] (a list, a
    string wants integer indices, the others are not subscriptable). *)
Definition getitem (v : pyval) (key : string) : result pyval :=
  match v with
  | PDict d =>
      match dict_get d key with
      | Some x => Return x
      | None => Raise (KeyError key)
      end
  | _ => Raise TypeError
  end.

(** [leap_assert(condition)] of [leap.common.check] (imported at line 39,
    not among the sources): logs the failure, then asserts the condition. *)
Definition leap_assert (condition : bool) : result unit :=
  if condition then Return tt else Raise AssertionError.

(** ** Collaborators *)

(** The [crypto] object ([leap.soledad.crypto.SoledadCrypto]) through the
    four methods the module calls. *)
Record SoledadCrypto : Type := {
  encrypt_sym : pyval -> pyval -> pyval;
  decrypt_sym : pyval -> pyval -> pyval;
  is_encrypted_sym : pyval -> bool;
  passphrase_hash : pyval -> pyval
}.

(** The same object with another [decrypt_sym] method. *)
Definition with_decrypt_sym (crypto : SoledadCrypto)
    (decrypt : pyval -> pyval -> pyval) : SoledadCrypto :=
  {| encrypt_sym := encrypt_sym crypto; decrypt_sym := decrypt;
     is_encrypted_sym := is_encrypted_sym crypto;
     passphrase_hash := passphrase_hash crypto |}.

(** The library functions the module relies on: [json.loads] on the
    characters of a string ([None] stands for [ValueError]), [json.dumps],
    and the builtin [str]. *)
Class PyRuntime : Type := {
  json_loads : string -> option pyval;
  json_dumps : pyval -> string;
  py_str : pyval -> string
}.

Section Codec.
Context `{RT : PyRuntime}.

(** [json.loads(v)]: only strings are accepted. *)
Definition py_json_loads (v : pyval) : result pyval :=
  match v with
  | PStr s | PUnicode s =>
      match json_loads s with
      | Some x => Return x
      | None => Raise ValueError
      end
  | _ => Raise TypeError
  end.

(** The dictionary serialised by [encrypt_doc_json] (lines 114-117). *)
Definition envelope (ciphertext : pyval) : pyval :=
  PDict [("_encrypted_json", ciphertext);
         ("_encryption_scheme", PStr EncryptionSchemes.SYMKEY)].

(** [encrypt_doc_json] (lines 87-117). *)
Definition encrypt_doc_json (crypto : SoledadCrypto) (doc_id doc_json : pyval)
  : result pyval :=
  let ciphertext :=
    encrypt_sym crypto doc_json (passphrase_hash crypto doc_id) in
  if negb (is_encrypted_sym crypto ciphertext)
  then raise_global "DocumentNotEncrypted" (PStr "Failed encrypting document.")
  else Return (PStr (json_dumps (envelope ciphertext))).

Definition not_encrypted_msg : string :=
  "Unable to identify document encryption for incoming "
  +:+ "document, although it is marked as being encrypted with a "
  +:+ "symmetric key.".

(** [decrypt_doc_json] (lines 120-167). *)
Definition decrypt_doc_json (crypto : SoledadCrypto) (doc_id doc_json : pyval)
  : result pyval :=
  leap_assert (isinstance_str doc_id);;
  leap_assert (negb (py_eq_str doc_id ""));;
  leap_assert (isinstance_str doc_json);;
  leap_assert (negb (py_eq_str doc_json ""));;
  content ← py_json_loads doc_json;
  ciphertext ← getitem content "_encrypted_json";
  enc_scheme ← getitem content "_encryption_scheme";
  if py_eq_str enc_scheme EncryptionSchemes.SYMKEY then
    if negb (is_encrypted_sym crypto ciphertext)
    then raise_global "DocumentNotEncrypted" (PStr not_encrypted_msg)
    else Return (decrypt_sym crypto ciphertext (passphrase_hash crypto doc_id))
  else raise_global "UnknownEncryptionScheme" enc_scheme.

End Codec.

(** ** Strings and lines *)

Definition LF : ascii := "010"%char.
Definition CR : ascii := "013"%char.
Definition CRLF : string := String CR (String LF "").

(** [str.splitlines()] on a Python 2 [str]: lines end at a line feed, at a
    carriage return or at the pair of them; the line ends are dropped and
    no empty last line is produced. [cur] is the line being read. *)
Fixpoint splitlines_from (cur s : string) : list string :=
  match s with
  | "" => if String.eqb cur "" then [] else [cur]
  | String c rest =>
      if Ascii.eqb c LF then cur :: splitlines_from "" rest
      else if Ascii.eqb c CR then
        match rest with
        | String c' rest' =>
            if Ascii.eqb c' LF then cur :: splitlines_from "" rest'
            else cur :: splitlines_from "" rest
        | "" => cur :: splitlines_from "" rest
        end
      else splitlines_from (cur +:+ String c "") rest
  end.

Definition splitlines (s : string) : list string := splitlines_from "" s.

(** [check_and_strip_comma] of [u1db.remote.utils] (imported at line 32,
    not among the sources): a line that ends in a comma is returned without
    it, together with [True]; any other line as it is, with [False]. *)
Fixpoint check_and_strip_comma (line : string) : string * bool :=
  match line with
  | "" => ("", false)
  | String c "" => if Ascii.eqb c ","%char then ("", true) else (line, false)
  | String c rest =>
      let (r, b) := check_and_strip_comma rest in (String c r, b)
  end.

(** The comma grammar of the data lines (section 4.4): there is a line,
    every line but the last ends in a comma, and the last does not. *)
Fixpoint commas_ok (lines : list string) : bool :=
  match lines with
  | [] => false
  | [l] => negb (snd (check_and_strip_comma l))
  | l :: rest => snd (check_and_strip_comma l) && commas_ok rest
  end.

(** [needle in hay] on two strings. *)
Fixpoint str_contains (needle hay : string) : bool :=
  if String.prefix needle hay then true
  else match hay with
       | "" => false
       | String _ hay' => str_contains needle hay'
       end.

(** [lit in v] for a string literal [lit]: key membership on a dictionary,
    element membership on a list, substring test on a string; the other
    values are not iterable. *)
Definition py_contains (lit : string) (v : pyval) : result bool :=
  match v with
  | PDict d => Return (bool_decide (is_Some (dict_get d lit)))
  | PList l => Return (existsb (fun x => py_eq_str x lit) l)
  | PStr s | PUnicode s => Return (str_contains lit s)
  | _ => Raise TypeError
  end.

(** Truth value of a Python value. *)
Definition py_truthy (v : pyval) : bool :=
  match v with
  | PNone => false
  | PBool b => b
  | PInt n => negb (Z.eqb n 0)
  | PStr s | PUnicode s => negb (String.eqb s "")
  | PList l => match l with [] => false | _ => true end
  | PDict d => match d with [] => false | _ => true end
  end.

Definition is_none (v : pyval) : bool :=
  match v with
  | PNone => true
  | _ => false
  end.

(** ** Documents *)

(** [u1db.Document], the base class of [LeapDocument] (imported at line
    31, not among the sources): the JSON text [_json] and the parsed
    [_content] are two caches of the same body, at most one of which is
    set; both [None] is a tombstone (section 3 of the specification: a
    document with null content). *)
Record Document : Type := {
  doc_id : pyval;
  _rev : pyval;
  _json : pyval;
  _content : pyval;
  has_conflicts : bool
}.

(** [LeapDocument] (lines 170-248) adds the [_syncable] flag. *)
Record LeapDocument : Type := {
  leap_base : Document;
  _syncable : bool
}.

(** What [sync_exchange] is handed: [isinstance(doc, LeapDocument)] tells a
    plain [Document] from a [LeapDocument]. *)
Inductive any_doc : Type :=
| PlainDoc (d : Document)
| LeapDoc (d : LeapDocument).

Definition base_of (d : any_doc) : Document :=
  match d with
  | PlainDoc b => b
  | LeapDoc l => leap_base l
  end.

Section Documents.
Context `{RT : PyRuntime}.

(** The check [u1db] makes on a JSON body: it parses, and to an object. *)
Definition check_json (json : pyval) : result unit :=
  match json with
  | PNone => Return tt
  | PStr s | PUnicode s =>
      match json_loads s with
      | Some (PDict _) => Return tt
      | _ => Raise InvalidJSON
      end
  | _ => Raise TypeError
  end.

(** [Document.__init__(doc_id, rev, json, has_conflicts)]. *)
Definition Document_init (doc_id rev json : pyval) (has_conflicts : bool)
  : result Document :=
  check_json json;;
  Return {| doc_id := doc_id; _rev := rev; _json := json;
            _content := PNone; has_conflicts := has_conflicts |}.

(** [LeapDocument.__init__] (lines 178-195). *)
Definition LeapDocument_init (doc_id rev json : pyval)
    (has_conflicts syncable : bool) : result LeapDocument :=
  d ← Document_init doc_id rev json has_conflicts;
  Return {| leap_base := d; _syncable := syncable |}.

(** The [content] property: the first read parses [_json] and moves the
    body to [_content]. *)
Definition get_content (d : Document) : result (pyval * Document) :=
  d1 ← (if is_none (_json d) then Return d
        else c ← py_json_loads (_json d);
             Return {| doc_id := doc_id d; _rev := _rev d; _json := PNone;
                       _content := c; has_conflicts := has_conflicts d |});
  Return (_content d1, d1).

(** [Document.get_json()]. *)
Definition get_json (d : Document) : pyval :=
  if negb (is_none (_json d)) then _json d
  else if negb (is_none (_content d)) then PStr (json_dumps (_content d))
  else PNone.

(** [Document.set_json(json)]. *)
Definition set_json (d : Document) (json : pyval) : result Document :=
  check_json json;;
  Return {| doc_id := doc_id d; _rev := _rev d; _json := json;
            _content := PNone; has_conflicts := has_conflicts d |}.

(** [Document.is_tombstone()]. *)
Definition is_tombstone (d : Document) : bool :=
  if negb (is_none (_content d)) then false
  else if negb (is_none (_json d)) then false
  else true.

(** The [syncable] property (lines 197-219). *)
Definition syncable (d : LeapDocument) : bool := _syncable d.

(** The [rev] property of [LeapDocument] (lines 221-248), and the plain
    attribute of a [Document]. *)
Definition _get_rev (d : LeapDocument) : pyval :=
  if is_none (_rev (leap_base d)) then PNone
  else PStr (py_str (_rev (leap_base d))).

Definition rev_of (d : any_doc) : pyval :=
  match d with
  | PlainDoc b => _rev b
  | LeapDoc l => _get_rev l
  end.

Definition leap_with_base (d : LeapDocument) (b : Document) : LeapDocument :=
  {| leap_base := b; _syncable := _syncable d |}.

End Documents.

(** ** Effects: the connection and the callbacks *)

(** What a sync exchange does to the outside, in the order it does it: the
    calls on the HTTP connection and the calls of the two callbacks. *)
Inductive event : Type :=
| EvEnsureConnection
| EvTraceHook (what : string)
| EvPutRequest (method url : string)
| EvPutHeader (name value : string)
| EvEndHeaders
| EvSend (data : string)
| EvEnsureCallback (replica_uid : pyval)
| EvReturnDoc (doc : LeapDocument) (gen trans_id : pyval).

(** A computation extends the trace of events and returns or raises. *)
Definition M (A : Type) : Type := list event -> list event * result A.

#[global] Instance M_ret : MRet M := fun A a tr => (tr, Return a).
#[global] Instance M_bind : MBind M := fun A B k m tr =>
  match m tr with
  | (tr', Return a) => k a tr'
  | (tr', Raise e) => (tr', Raise e)
  end.

Definition raise {A} (e : exn) : M A := fun tr => (tr, Raise e).
Definition lift {A} (r : result A) : M A := fun tr => (tr, r).

Definition emit (ev : event) : M unit := fun tr => (tr ++ [ev], Return tt).

(** [raise Name] for a class bound to a global name. *)
Definition raise_named {A} (name : string) : M A :=
  lift (raise_global name PNone).

(** ** LeapSyncTarget *)

(** The fields of the target that an exchange reads. [_sign_request] stands
    for the method of lines 401-408 through the headers it returns for a
    method and a URL (a token header, or what [u1db] signs). *)
Record LeapSyncTarget : Type := {
  _url_path : string;
  _crypto : SoledadCrypto;
  _trace_hook : bool;
  _sign_request : string -> string -> list (string * string)
}.

Section SyncTarget.
Context `{RT : PyRuntime}.

(** Modelled from the spec: [self._error] is inherited from the HTTP client
    of [u1db], whose code is not among the sources; by sections 4.5 and 7 a
    structured error payload on the final line makes the exchange fail
    with [RemoteSyncError] carrying the payload verbatim. *)
Definition _error (respdic : pyval) : M unit := raise (RemoteSyncError respdic).

(** Lines 303-306: the metadata line. *)
Definition parse_metadata (ensure_callback : bool) (line0 : string)
  : M (pyval * bool) :=
  let '(line, comma) := check_and_strip_comma line0 in
  res ← lift (py_json_loads (PStr line));
  (if ensure_callback then
     has ← lift (py_contains "replica_uid" res);
     if has : bool then
       uid ← lift (getitem res "replica_uid");
       emit (EvEnsureCallback uid)
     else mret tt
   else mret tt);;
  mret (res, comma).

(** Lines 310-327, up to the call of the callback: an entry line is
    stripped of its comma and decoded into the document, the generation and
    the transaction id the callback is given; the document is decrypted
    when its content says [symkey]. *)
Definition read_entry (crypto : SoledadCrypto) (e : string)
  : result (LeapDocument * pyval * pyval * bool) :=
  let '(line, comma) := check_and_strip_comma e in
  entry ← py_json_loads (PStr line);
  id ← getitem entry "id";
  rev ← getitem entry "rev";
  content ← getitem entry "content";
  doc ← LeapDocument_init id rev content false true;
  '(c1, b1) ← get_content (leap_base doc);
  b ← (if py_truthy c1 then
         '(c2, b2) ← get_content b1;
         has ← py_contains "_encryption_scheme" c2;
         if has : bool then
           '(c3, b3) ← get_content b2;
           scheme ← getitem c3 "_encryption_scheme";
           if py_eq_str scheme EncryptionSchemes.SYMKEY then
             content' ← getitem entry "content";
             plain ← decrypt_doc_json crypto (doc_id b3) content';
             set_json b3 plain
           else Return b3
         else Return b2
       else Return b1);
  gen ← getitem entry "gen";
  trans_id ← getitem entry "trans_id";
  Return (leap_with_base doc b, gen, trans_id, comma).

(** Lines 307-327: the loop over [data[1:]]; [comma] says whether the
    previous line ended in a comma. *)
Fixpoint parse_entries (crypto : SoledadCrypto) (entries : list string)
    (comma : bool) : M bool :=
  match entries with
  | [] => mret comma
  | e :: rest =>
      if negb comma then raise_named "BrokenSyncStream"
      else
        '(doc, gen, trans_id, comma') ← lift (read_entry crypto e);
        emit (EvReturnDoc doc gen trans_id);;
        parse_entries crypto rest comma'
  end.

(** Lines 301-327: the block under [if data:]. [res] stays unbound when
    there is no data line. *)
Definition parse_data (crypto : SoledadCrypto) (ensure_callback : bool)
    (data : list string) : M (option pyval * bool) :=
  match data with
  | [] => mret (None, false)
  | line0 :: entries =>
      '(res, comma) ← parse_metadata ensure_callback line0;
      comma' ← parse_entries crypto entries comma;
      mret (Some res, comma')
  end.

(** Lines 328-336: the check of the last line. *)
Definition check_last_line (last_part : string) : M unit :=
  if negb (String.eqb last_part "]") then
    match json_loads last_part with
    | None => mret tt
    | Some partdic =>
        if isinstance_dict partdic then _error partdic else mret tt
    end;;
    raise_named "BrokenSyncStream"
  else mret tt.

(** [LeapSyncTarget._parse_sync_stream] (lines 281-339). *)
Definition _parse_sync_stream (self : LeapSyncTarget) (data : string)
    (ensure_callback : bool) : M pyval :=
  let parts := splitlines data in
  if match parts with [] => true | p :: _ => negb (String.eqb p "[") end
  then raise_named "BrokenSyncStream"
  else
    let data := removelast (tail parts) in
    '(res, comma) ← parse_data (_crypto self) ensure_callback data;
    check_last_line (List.last parts "");;
    if (match data with [] => true | _ => false end) || comma
    then raise_named "BrokenSyncStream"
    else match res with
         | Some r => mret r
         | None => raise (NameError "res")
         end.

Definition py_len (s : string) : Z := Z.of_nat (String.length s).

(** The nested [prepare] (lines 358-361), applied to the dictionary of its
    keyword arguments: appends to [entries] and returns the length of what
    it appended. *)
Definition prepare (comma : string) (dic : pyval) (entries : list string)
  : list string * Z :=
  let entry := comma +:+ CRLF +:+ json_dumps dic in
  (entries ++ [entry], py_len entry).

(** Line 371: the test that skips a document. *)
Definition skipped (doc : any_doc) : bool :=
  match doc with
  | LeapDoc l => negb (syncable l)
  | PlainDoc _ => false
  end.

(** Lines 369-385: the loop over the local documents; the state is the
    list [entries] and the running [size]. *)
Fixpoint prepare_docs (crypto : SoledadCrypto)
    (docs_by_generations : list (any_doc * pyval * pyval))
    (entries : list string) (size : Z) : result (list string * Z) :=
  match docs_by_generations with
  | [] => Return (entries, size)
  | (doc, gen, trans_id) :: rest =>
      if skipped doc
      then prepare_docs crypto rest entries size
      else
        let enc_json := get_json (base_of doc) in
        enc_json ← (if negb (is_tombstone (base_of doc))
                    then encrypt_doc_json crypto (doc_id (base_of doc))
                           (get_json (base_of doc))
                    else Return enc_json);
        let '(entries', n) :=
          prepare ","
            (PDict [("id", doc_id (base_of doc)); ("rev", rev_of doc);
                    ("content", enc_json); ("gen", gen);
                    ("trans_id", trans_id)]) entries in
        prepare_docs crypto rest entries' (size + n)
  end.

Fixpoint send_all (entries : list string) : M unit :=
  match entries with
  | [] => mret tt
  | e :: rest => emit (EvSend e);; send_all rest
  end.

Fixpoint put_headers (hs : list (string * string)) : M unit :=
  match hs with
  | [] => mret tt
  | (n, v) :: rest => emit (EvPutHeader n v);; put_headers rest
  end.

(** Lines 347-392 of [sync_exchange]: the request is opened, the entries
    are prepared and, when every one of them could be prepared, sent. *)
Definition send_request (self : LeapSyncTarget)
    (docs_by_generations : list (any_doc * pyval * pyval))
    (source_replica_uid : string)
    (last_known_generation last_known_trans_id : pyval)
    (ensure_callback : bool) : M unit :=
  emit EvEnsureConnection;;
  (if _trace_hook self then emit (EvTraceHook "sync_exchange") else mret tt);;
  let url := _url_path self +:+ "/sync-from/" +:+ source_replica_uid in
  emit (EvPutRequest "POST" url);;
  emit (EvPutHeader "content-type" "application/x-u1db-sync-stream");;
  put_headers (_sign_request self "POST" url);;
  let entries := ["["] in
  let size := 1%Z in
  let '(entries, n) :=
    prepare ""
      (PDict [("last_known_generation", last_known_generation);
              ("last_known_trans_id", last_known_trans_id);
              ("ensure", PBool ensure_callback)]) entries in
  let size := (size + n)%Z in
  '(entries, size) ← lift (prepare_docs (_crypto self) docs_by_generations
                             entries size);
  let entries := entries ++ [CRLF +:+ "]"] in
  let size := (size + py_len (List.last entries ""))%Z in
  emit (EvPutHeader "content-length" (py_str (PInt size)));;
  emit EvEndHeaders;;
  send_all entries.

(** [LeapSyncTarget.sync_exchange] (lines 341-396). [response] is what
    [self._response()] gives once the request is sent: the body of the
    answer, or the exception it raises. *)
Definition sync_exchange (self : LeapSyncTarget)
    (docs_by_generations : list (any_doc * pyval * pyval))
    (source_replica_uid : string)
    (last_known_generation last_known_trans_id : pyval)
    (ensure_callback : bool) (response : result string)
  : M (pyval * pyval) :=
  send_request self docs_by_generations source_replica_uid
    last_known_generation last_known_trans_id ensure_callback;;
  data ← lift response;
  res ← _parse_sync_stream self data ensure_callback;
  new_generation ← lift (getitem res "new_generation");
  new_transaction_id ← lift (getitem res "new_transaction_id");
  mret (new_generation, new_transaction_id).

(** *** The outgoing stream, as the specification words it *)

(** What was sent on the connection, in order. *)
Definition sent (tr : list event) : list string :=
  omap (fun ev => match ev with EvSend s => Some s | _ => None end) tr.

(** The metadata line of the outgoing stream (section 4.5, step 1). *)
Definition metadata_line (last_known_generation last_known_trans_id : pyval)
    (ensure_callback : bool) : string :=
  CRLF +:+ json_dumps
    (PDict [("last_known_generation", last_known_generation);
            ("last_known_trans_id", last_known_trans_id);
            ("ensure", PBool ensure_callback)]).

(** The content field of an entry (section 4.5, step 2): a tombstone goes
    out as [get_json] gives it, any other document as the envelope around
    the ciphertext of its JSON under the key of its identifier. *)
Definition wire_content (crypto : SoledadCrypto) (doc : Document) : pyval :=
  if is_tombstone doc then get_json doc
  else PStr (json_dumps
               (envelope (encrypt_sym crypto (get_json doc)
                            (passphrase_hash crypto (doc_id doc))))).

(** An entry line with a given content field. *)
Definition entry_line (doc : any_doc) (content gen trans_id : pyval)
  : string :=
  "," +:+ CRLF +:+ json_dumps
    (PDict [("id", doc_id (base_of doc)); ("rev", rev_of doc);
            ("content", content); ("gen", gen); ("trans_id", trans_id)]).

Definition wire_line (crypto : SoledadCrypto)
    (item : any_doc * pyval * pyval) : string :=
  let '(doc, gen, trans_id) := item in
  entry_line doc (wire_content crypto (base_of doc)) gen trans_id.

Definition synced (item : any_doc * pyval * pyval) : bool :=
  negb (skipped (fst (fst item))).

(** The cipher recognises what it makes of the document: the check of line
    112 passes. A tombstone is not encrypted at all. *)
Definition encryptable (crypto : SoledadCrypto)
    (item : any_doc * pyval * pyval) : bool :=
  let doc := base_of (fst (fst item)) in
  is_tombstone doc
  || is_encrypted_sym crypto
       (encrypt_sym crypto (get_json doc) (passphrase_hash crypto (doc_id doc))).

End SyncTarget.

(** ** The decrypter pool *)

Module DecrypterPool.

(** What [InsertReceivedDoc] is given for one document, apart from its
    sequence index. *)
Record received : Type := {
  r_doc_id : pyval;
  r_rev : pyval;
  r_content : pyval;
  r_gen : pyval;
  r_trans_id : pyval
}.

#[global] Instance received_eq_dec : EqDecision received.
Proof. solve_decision. Defined.

(** What the insertion callback is given: the document (identifier,
    revision, plain body), its generation and its transaction id. *)
Record delivery : Type := {
  d_doc_id : pyval;
  d_rev : pyval;
  d_json : pyval;
  d_gen : pyval;
  d_trans_id : pyval
}.

(** What a session shows to the outside: the calls of the insertion
    callback and the resolution of the completion signal. *)
Inductive pool_event : Type :=
| Inserted (d : delivery)
| Resolved.

(** Modelled from the spec: [SyncDecrypterPool] lives in
    [leap.soledad.client.encdecpool], which is not among the sources (only
    its tests are); the state is the one section 4.3 describes: the
    expected count, the next expected index, the documents scheduled for
    decryption, the pending-delivery set keyed by sequence index, the count
    of deliveries and the completion signal. *)
Record pool : Type := {
  running : bool;
  expected : nat;
  next_index : nat;
  scheduled : gmap nat received;
  completed : gmap nat delivery;
  delivered : nat;
  resolved : bool;
  log : list pool_event
}.

Section Pool.
Context `{RT : PyRuntime}.
Variable crypto : SoledadCrypto.

(** Modelled from the spec: completion (section 4.3): once the expected
    count of documents has been delivered the signal is resolved, and never
    a second time. *)
Definition check_completion (p : pool) : pool :=
  if Nat.eqb (delivered p) (expected p) && negb (resolved p)
  then {| running := running p; expected := expected p;
          next_index := next_index p; scheduled := scheduled p;
          completed := completed p; delivered := delivered p;
          resolved := true; log := log p ++ [Resolved] |}
  else p.

(** Modelled from the spec: [Start(expectedCount)] (section 4.3); the
    counter of the next expected index starts at 1, and a session that
    expects no document has all of them delivered at once. *)
Definition start (expectedCount : nat) : pool :=
  check_completion
    {| running := true; expected := expectedCount; next_index := 1;
       scheduled := ∅; completed := ∅; delivered := 0; resolved := false;
       log := [] |}.

(** Modelled from the spec: [Stop()] (section 4.3) halts the workers. *)
Definition stop (p : pool) : pool :=
  {| running := false; expected := expected p; next_index := next_index p;
     scheduled := scheduled p; completed := completed p;
     delivered := delivered p; resolved := resolved p; log := log p |}.

(** Modelled from the spec: [InsertReceivedDoc] (section 4.3) only
    schedules the document for decryption, under its sequence index. *)
Definition insert_received_doc (p : pool) (r : received)
    (sequenceIndex : nat) : pool :=
  if running p
  then {| running := running p; expected := expected p;
          next_index := next_index p;
          scheduled := <[sequenceIndex := r]> (scheduled p);
          completed := completed p; delivered := delivered p;
          resolved := resolved p; log := log p |}
  else p.

(** Modelled from the spec: content normalisation (section 4.3): the
    content is decrypted when it carries an encryption envelope and passed
    through unchanged otherwise. *)
Definition carries_envelope (content : pyval) : bool :=
  match content with
  | PStr s | PUnicode s =>
      match json_loads s with
      | Some (PDict d) => bool_decide (is_Some (dict_get d "_encryption_scheme"))
      | _ => false
      end
  | _ => false
  end.

(** Modelled from the spec: what a worker makes of a received document
    (section 4.3): the document object the callback is given, with its
    generation and transaction id. *)
Definition normalize (r : received) : result delivery :=
  json ← (if carries_envelope (r_content r)
          then decrypt_doc_json crypto (r_doc_id r) (r_content r)
          else Return (r_content r));
  Return {| d_doc_id := r_doc_id r; d_rev := r_rev r; d_json := json;
            d_gen := r_gen r; d_trans_id := r_trans_id r |}.

(** Modelled from the spec: the drain of the delivery ordering algorithm
    (section 4.3): for every contiguous run of the pending-delivery set that
    begins at the next expected index, invoke the callback and advance the
    counter; stop at the first gap. Each turn removes one entry of the set,
    so its size bounds the number of turns. *)
Fixpoint drain_turns (turns : nat) (p : pool) : pool :=
  match turns with
  | 0 => p
  | S turns' =>
      match completed p !! next_index p with
      | None => p
      | Some d =>
          drain_turns turns'
            {| running := running p; expected := expected p;
               next_index := S (next_index p); scheduled := scheduled p;
               completed := delete (next_index p) (completed p);
               delivered := S (delivered p); resolved := resolved p;
               log := log p ++ [Inserted d] |}
      end
  end.

(** Modelled from the spec: the drain that follows each completion
    (section 4.3), with the turns its set allows. *)
Definition drain (p : pool) : pool := drain_turns (size (completed p)) p.

(** Modelled from the spec: a worker finishes the document scheduled under
    [sequenceIndex] (section 4.3): the result joins the pending-delivery
    set, the set is drained and completion is checked. A document whose
    decryption fails is dropped (section 7). *)
Definition complete_decryption (p : pool) (sequenceIndex : nat) : pool :=
  if running p then
    match scheduled p !! sequenceIndex with
    | None => p
    | Some r =>
        match normalize r with
        | Return d =>
            check_completion
              (drain {| running := running p; expected := expected p;
                        next_index := next_index p;
                        scheduled := delete sequenceIndex (scheduled p);
                        completed := <[sequenceIndex := d]> (completed p);
                        delivered := delivered p; resolved := resolved p;
                        log := log p |})
        | Raise _ =>
            {| running := running p; expected := expected p;
               next_index := next_index p;
               scheduled := delete sequenceIndex (scheduled p);
               completed := completed p; delivered := delivered p;
               resolved := resolved p; log := log p |}
        end
    end
  else p.

(** One session as the wire reader and the workers drive it: documents
    arrive, decryptions finish. *)
Inductive action : Type :=
| Arrive (r : received) (sequenceIndex : nat)
| Finish (sequenceIndex : nat).

Definition step (p : pool) (a : action) : pool :=
  match a with
  | Arrive r i => insert_received_doc p r i
  | Finish i => complete_decryption p i
  end.

Definition run (p : pool) (acts : list action) : pool := fold_left step acts p.

End Pool.

(** A schedule for the documents [docs]: they arrive in the order of the
    list under the indices 1, 2, ..., and each decryption finishes once, at
    any time after the arrival of its document. The check walks the
    schedule with the index of the next arrival and the set of the
    documents that arrived and are still being decrypted. *)
Fixpoint schedule_from (docs : list received) (next_arrival : nat)
    (busy : gset nat) (acts : list action) : option (nat * gset nat) :=
  match acts with
  | [] => Some (next_arrival, busy)
  | Arrive r i :: acts' =>
      if bool_decide (i = next_arrival ∧ docs !! (i - 1) = Some r)
      then schedule_from docs (S next_arrival) ({[i]} ∪ busy) acts'
      else None
  | Finish i :: acts' =>
      if bool_decide (i ∈ busy)
      then schedule_from docs next_arrival (busy ∖ {[i]}) acts'
      else None
  end.

Definition complete_schedule (docs : list received) (acts : list action)
  : bool :=
  bool_decide (schedule_from docs 1 ∅ acts = Some (S (length docs), ∅)).

(** The state of the pool after a part of a schedule for [docs] that has
    seen the arrivals below [k] and has [busy] still being decrypted, [ds]
    being what the callback is to be given for each document: the scheduled
    documents are the busy ones, the pending-delivery set holds the
    finished ones from the next expected index on, and everything below
    that index was delivered, in order. *)
Record pool_inv (docs : list received) (ds : list delivery) (k : nat)
    (busy : gset nat) (p : pool) : Prop := {
  inv_running : running p = true;
  inv_expected : expected p = length docs;
  inv_next_pos : 1 <= next_index p;
  inv_next_le : next_index p <= k;
  inv_k_le : k <= S (length docs);
  inv_busy : forall i, i ∈ busy -> next_index p <= i < k;
  inv_scheduled : forall i,
    scheduled p !! i = if decide (i ∈ busy) then docs !! (i - 1) else None;
  inv_completed : forall i,
    completed p !! i =
      if decide (next_index p <= i < k /\ i ∉ busy) then ds !! (i - 1)
      else None;
  inv_delivered : delivered p = next_index p - 1;
  inv_log :
    log p = map Inserted (take (next_index p - 1) ds)
              ++ (if resolved p then [Resolved] else [])
}.

(** Between two steps the next expected index is not waiting in the set,
    and the signal is resolved exactly when all deliveries are made. *)
Definition drained (docs : list received) (k : nat) (busy : gset nat)
    (p : pool) : Prop :=
  (next_index p < k -> next_index p ∈ busy)
  /\ resolved p = bool_decide (delivered p = length docs).

End DecrypterPool.

(** ** A concrete runtime *)

(** A JSON codec, a [str] and a symmetric cipher to run the definitions
    on: the printer writes what [json.dumps] writes for the values of
    [pyval] (items separated by a comma and a space, keys by a colon and a
    space), the parser reads standard JSON with integer numbers, and gives
    an ASCII string back as a [str], as [simplejson] does on a [str]
    input. Characters are code points below 256. *)
Module SimpleJson.

Definition QUOTE : ascii := "034"%char.
Definition BACKSLASH : ascii := "092"%char.
Definition TAB : ascii := "009"%char.
Definition BS : ascii := "008"%char.
Definition FF : ascii := "012"%char.

Definition hex_digit (n : nat) : ascii :=
  if Nat.ltb n 10 then ascii_of_nat (48 + n) else ascii_of_nat (87 + n).

Definition hex_value (c : ascii) : option nat :=
  let n := nat_of_ascii c in
  if Nat.leb 48 n && Nat.leb n 57 then Some (n - 48)
  else if Nat.leb 97 n && Nat.leb n 102 then Some (n - 87)
  else if Nat.leb 65 n && Nat.leb n 70 then Some (n - 55)
  else None.

Definition escape_char (c : ascii) : string :=
  if Ascii.eqb c QUOTE then String BACKSLASH (String QUOTE "")
  else if Ascii.eqb c BACKSLASH then String BACKSLASH (String BACKSLASH "")
  else if Ascii.eqb c LF then String BACKSLASH "n"
  else if Ascii.eqb c CR then String BACKSLASH "r"
  else if Ascii.eqb c TAB then String BACKSLASH "t"
  else if Ascii.eqb c BS then String BACKSLASH "b"
  else if Ascii.eqb c FF then String BACKSLASH "f"
  else
    let n := nat_of_ascii c in
    if Nat.ltb n 32 || Nat.ltb 127 n
    then String BACKSLASH
           (String "u" (String "0" (String "0"
              (String (hex_digit (n / 16)) (String (hex_digit (n mod 16)) "")))))
    else String c "".

Fixpoint escape (s : string) : string :=
  match s with
  | "" => ""
  | String c r => escape_char c +:+ escape r
  end.

Definition quote (s : string) : string :=
  String QUOTE (escape s +:+ String QUOTE "").

Definition dumps_int (n : Z) : string := NilZero.string_of_int (Z.to_int n).

Fixpoint dumps (v : pyval) : string :=
  match v with
  | PNone => "null"
  | PBool true => "true"
  | PBool false => "false"
  | PInt n => dumps_int n
  | PStr s | PUnicode s => quote s
  | PList l =>
      "[" +:+
      (fix items (l : list pyval) : string :=
         match l with
         | [] => ""
         | [x] => dumps x
         | x :: l' => dumps x +:+ ", " +:+ items l'
         end) l +:+ "]"
  | PDict d =>
      "{" +:+
      (fix items (d : list (string * pyval)) : string :=
         match d with
         | [] => ""
         | [(k, x)] => quote k +:+ ": " +:+ dumps x
         | (k, x) :: d' => quote k +:+ ": " +:+ dumps x +:+ ", " +:+ items d'
         end) d +:+ "}"
  end.

Definition is_ws (c : ascii) : bool :=
  Ascii.eqb c " "%char || Ascii.eqb c LF || Ascii.eqb c CR || Ascii.eqb c TAB.

Fixpoint skip_ws (s : string) : string :=
  match s with
  | String c r => if is_ws c then skip_ws r else s
  | "" => ""
  end.

Definition unescape (c : ascii) : option ascii :=
  if Ascii.eqb c QUOTE then Some QUOTE
  else if Ascii.eqb c BACKSLASH then Some BACKSLASH
  else if Ascii.eqb c "/"%char then Some "/"%char
  else if Ascii.eqb c "n"%char then Some LF
  else if Ascii.eqb c "r"%char then Some CR
  else if Ascii.eqb c "t"%char then Some TAB
  else if Ascii.eqb c "b"%char then Some BS
  else if Ascii.eqb c "f"%char then Some FF
  else None.

Definition unicode_escape (h1 h2 h3 h4 : ascii) : option ascii :=
  a ← hex_value h1; b ← hex_value h2; c ← hex_value h3; d ← hex_value h4;
  if Nat.eqb a 0 && Nat.eqb b 0 then Some (ascii_of_nat (16 * c + d)) else None.

(** The characters of a string literal, after its opening quote. *)
Fixpoint parse_chars (s : string) : option (string * string) :=
  match s with
  | "" => None
  | String c r =>
      if Ascii.eqb c QUOTE then Some ("", r)
      else if Ascii.eqb c BACKSLASH then
        match r with
        | String e r' =>
            if Ascii.eqb e "u"%char then
              match r' with
              | String h1 (String h2 (String h3 (String h4 r''))) =>
                  ch ← unicode_escape h1 h2 h3 h4;
                  '(t, rest) ← parse_chars r'';
                  Some (String ch t, rest)
              | _ => None
              end
            else
              ch ← unescape e;
              '(t, rest) ← parse_chars r';
              Some (String ch t, rest)
        | "" => None
        end
      else if Nat.ltb (nat_of_ascii c) 32 then None
      else
        '(t, rest) ← parse_chars r;
        Some (String c t, rest)
  end.

Fixpoint all_ascii (s : string) : bool :=
  match s with
  | "" => true
  | String c r => Nat.ltb (nat_of_ascii c) 128 && all_ascii r
  end.

Definition decoded_string (s : string) : pyval :=
  if all_ascii s then PStr s else PUnicode s.

Definition is_digit (c : ascii) : bool :=
  Nat.leb 48 (nat_of_ascii c) && Nat.leb (nat_of_ascii c) 57.

Fixpoint parse_digits (acc : Z) (s : string) : Z * string :=
  match s with
  | String c r =>
      if is_digit c
      then parse_digits (10 * acc + Z.of_nat (nat_of_ascii c - 48)) r
      else (acc, s)
  | "" => (acc, "")
  end.

(** An integer: digits after an optional minus sign; a fraction or an
    exponent is not read. *)
Definition parse_int (s : string) : option (pyval * string) :=
  let '(neg, s1) :=
    match s with
    | String c r => if Ascii.eqb c "-"%char then (true, r) else (false, s)
    | "" => (false, s)
    end in
  match s1 with
  | String c _ =>
      if is_digit c then
        let '(n, rest) := parse_digits 0 s1 in
        match rest with
        | String c' _ =>
            if Ascii.eqb c' "."%char || Ascii.eqb c' "e"%char
               || Ascii.eqb c' "E"%char
            then None
            else Some (PInt (if neg : bool then - n else n), rest)
        | "" => Some (PInt (if neg : bool then - n else n), rest)
        end
      else None
  | "" => None
  end.

Definition expect (word : string) (v : pyval) (s : string)
  : option (pyval * string) :=
  if String.prefix word s
  then Some (v, String.substring (String.length word)
                  (String.length s - String.length word) s)
  else None.

(** A later member with the same key replaces the earlier one. *)
Fixpoint dict_set (d : list (string * pyval)) (k : string) (v : pyval)
  : list (string * pyval) :=
  match d with
  | [] => [(k, v)]
  | (k', v') :: d' =>
      if String.eqb k' k then (k, v) :: d' else (k', v') :: dict_set d' k v
  end.

Fixpoint parse_value (fuel : nat) (s : string) : option (pyval * string) :=
  match fuel with
  | 0 => None
  | S fuel' =>
      match skip_ws s with
      | "" => None
      | String c r =>
          if Ascii.eqb c QUOTE then
            '(t, rest) ← parse_chars r; Some (decoded_string t, rest)
          else if Ascii.eqb c "["%char then
            match skip_ws r with
            | String c' r' =>
                if Ascii.eqb c' "]"%char then Some (PList [], r')
                else parse_elems fuel' [] r
            | "" => None
            end
          else if Ascii.eqb c "{"%char then
            match skip_ws r with
            | String c' r' =>
                if Ascii.eqb c' "}"%char then Some (PDict [], r')
                else parse_members fuel' [] r
            | "" => None
            end
          else if Ascii.eqb c "n"%char then expect "null" PNone (String c r)
          else if Ascii.eqb c "t"%char then expect "true" (PBool true) (String c r)
          else if Ascii.eqb c "f"%char then expect "false" (PBool false) (String c r)
          else parse_int (String c r)
      end
  end
with parse_elems (fuel : nat) (acc : list pyval) (s : string)
  : option (pyval * string) :=
  match fuel with
  | 0 => None
  | S fuel' =>
      '(v, rest) ← parse_value fuel' s;
      match skip_ws rest with
      | String c r =>
          if Ascii.eqb c ","%char then parse_elems fuel' (acc ++ [v]) r
          else if Ascii.eqb c "]"%char then Some (PList (acc ++ [v]), r)
          else None
      | "" => None
      end
  end
with parse_members (fuel : nat) (acc : list (string * pyval)) (s : string)
  : option (pyval * string) :=
  match fuel with
  | 0 => None
  | S fuel' =>
      match skip_ws s with
      | String q r =>
          if Ascii.eqb q QUOTE then
            '(k, rest) ← parse_chars r;
            match skip_ws rest with
            | String c r1 =>
                if Ascii.eqb c ":"%char then
                  '(v, rest') ← parse_value fuel' r1;
                  match skip_ws rest' with
                  | String c' r2 =>
                      if Ascii.eqb c' ","%char
                      then parse_members fuel' (dict_set acc k v) r2
                      else if Ascii.eqb c' "}"%char
                           then Some (PDict (dict_set acc k v), r2)
                      else None
                  | "" => None
                  end
                else None
            | "" => None
            end
          else None
      | "" => None
      end
  end.

(** Every call reads at least one character or enters a bracket, so one
    unit of fuel for each character, and one more, is enough. *)
Definition loads (s : string) : option pyval :=
  '(v, rest) ← parse_value (S (String.length s)) s;
  if String.eqb (skip_ws rest) "" then Some v else None.

(** [str(v)]; containers are shown in their JSON form. *)
Definition str (v : pyval) : string :=
  match v with
  | PNone => "None"
  | PBool true => "True"
  | PBool false => "False"
  | PStr s | PUnicode s => s
  | _ => dumps v
  end.

#[global] Instance runtime : PyRuntime :=
  {| json_loads := loads; json_dumps := dumps; py_str := str |}.

(** JSON text written with apostrophes in place of the double quotes. *)
Fixpoint js (s : string) : string :=
  match s with
  | "" => ""
  | String c r => String (if Ascii.eqb c "'"%char then QUOTE else c) (js r)
  end.

(** Lines joined the way the wire format ends them. *)
Fixpoint crlf_lines (ls : list string) : string :=
  match ls with
  | [] => ""
  | [l] => l
  | l :: ls' => l +:+ CRLF +:+ crlf_lines ls'
  end.

End SimpleJson.

(** A symmetric cipher for examples: the ciphertext is the plaintext behind
    a tag that names the key. *)
Module DemoCrypto.

Definition text_of (v : pyval) : string := SimpleJson.str v.

Definition tag (key : pyval) : string := "SYM<" +:+ text_of key +:+ ">".

Definition crypto : SoledadCrypto :=
  {| encrypt_sym := fun plain key => PStr (tag key +:+ text_of plain);
     decrypt_sym := fun cipher key =>
       let c := text_of cipher in
       if String.prefix (tag key) c
       then PStr (String.substring (String.length (tag key))
                    (String.length c - String.length (tag key)) c)
       else PNone;
     is_encrypted_sym := fun cipher =>
       match cipher with
       | PStr s | PUnicode s => String.prefix "SYM<" s
       | _ => false
       end;
     passphrase_hash := fun doc_id => PStr ("H:" +:+ text_of doc_id) |}.

Definition target : LeapSyncTarget :=
  {| _url_path := "/user-db"; _crypto := crypto; _trace_hook := false;
     _sign_request := fun _ _ => [("Authorization", "Token dG9rZW4=")] |}.

(** An entry line for a document with an empty body, and the document the
    callback is given for it. *)
Definition demo_entry (id gen : string) (comma : string) : string :=
  SimpleJson.js
    ("{'id': '" +:+ id +:+ "', 'rev': 'r1', 'content': '{}', 'gen': " +:+ gen
     +:+ ", 'trans_id': 'T-" +:+ gen +:+ "'}") +:+ comma.

Definition demo_doc (id : string) : LeapDocument :=
  {| leap_base := {| doc_id := PStr id; _rev := PStr "r1"; _json := PNone;
                     _content := PDict []; has_conflicts := false |};
     _syncable := true |}.

(** Local documents: one to sync, one flagged as not syncable, and a
    tombstone. *)
Definition local_doc (id : string) (json : pyval) (syncable : bool)
  : any_doc :=
  LeapDoc {| leap_base := {| doc_id := PStr id; _rev := PStr "r1";
                             _json := json; _content := PNone;
                             has_conflicts := false |};
             _syncable := syncable |}.

Definition note : any_doc :=
  local_doc "note-1" (PStr (SimpleJson.js "{'text': 'hi'}")) true.
Definition local_only : any_doc :=
  local_doc "local-1" (PStr (SimpleJson.js "{'pin': 1234}")) false.
Definition gone : any_doc := local_doc "gone-1" PNone true.

Definition local_docs : list (any_doc * pyval * pyval) :=
  [(note, PInt 1, PStr "T-1"); (local_only, PInt 2, PStr "T-2");
   (gone, PInt 3, PStr "T-3")].

(** A well-formed answer without documents. *)
Definition empty_answer : string :=
  SimpleJson.crlf_lines
    ["["; SimpleJson.js "{'new_generation': 4, 'new_transaction_id': 'T-4'}";
     "]"].

(** A well-formed answer with one document, from a replica that names
    itself. *)
Definition answer_from_other : string :=
  SimpleJson.crlf_lines
    ["[";
     SimpleJson.js
       "{'new_generation': 4, 'new_transaction_id': 'T-4', 'replica_uid': 'other'},";
     demo_entry "d1" "1" ""; "]"].

(** An answer that is well formed but says nothing of the new
    generation. *)
Definition answer_without_generation : string :=
  SimpleJson.crlf_lines
    ["["; SimpleJson.js "{'replica_uid': 'other'},";
     demo_entry "d1" "1" ""; "]"].

(** The same cipher, but one that recognises nothing as encrypted. *)
Definition unsure : SoledadCrypto :=
  {| encrypt_sym := encrypt_sym crypto; decrypt_sym := decrypt_sym crypto;
     is_encrypted_sym := fun _ => false;
     passphrase_hash := passphrase_hash crypto |}.

Definition unsure_target : LeapSyncTarget :=
  {| _url_path := "/user-db"; _crypto := unsure; _trace_hook := true;
     _sign_request := fun _ _ => [] |}.

End DemoCrypto.

(** Three received documents, the second one encrypted, and a schedule in
    which the first decryption is the last to finish. *)
Module DemoSession.
Import DecrypterPool.

Definition envelope_2 : pyval :=
  match encrypt_doc_json DemoCrypto.crypto (PStr "doc-2")
          (PStr (SimpleJson.js "{'idx': 2}")) with
  | Return e => e
  | Raise _ => PNone
  end.

Definition doc_1 : received :=
  {| r_doc_id := PStr "doc-1"; r_rev := PStr "rev-1";
     r_content := PStr (SimpleJson.js "{'idx': 1}");
     r_gen := PInt 1; r_trans_id := PStr "trans-1" |}.
Definition doc_2 : received :=
  {| r_doc_id := PStr "doc-2"; r_rev := PStr "rev-2";
     r_content := envelope_2;
     r_gen := PInt 2; r_trans_id := PStr "trans-2" |}.
Definition doc_3 : received :=
  {| r_doc_id := PStr "doc-3"; r_rev := PStr "rev-3"; r_content := PNone;
     r_gen := PInt 3; r_trans_id := PStr "trans-3" |}.

Definition plain (r : received) (json : pyval) : delivery :=
  {| d_doc_id := r_doc_id r; d_rev := r_rev r; d_json := json;
     d_gen := r_gen r; d_trans_id := r_trans_id r |}.

Definition docs : list received := [doc_1; doc_2; doc_3].
Definition deliveries : list delivery :=
  [plain doc_1 (PStr (SimpleJson.js "{'idx': 1}"));
   plain doc_2 (PStr (SimpleJson.js "{'idx': 2}"));
   plain doc_3 PNone].

Definition schedule : list action :=
  [Arrive doc_1 1; Arrive doc_2 2; Finish 2; Arrive doc_3 3; Finish 3;
   Finish 1].

(** The document of [test_insert_received_doc]. *)
Definition mydoc : received :=
  {| r_doc_id := PStr "mydoc"; r_rev := PStr "rev"; r_content := PStr "{}";
     r_gen := PInt 1; r_trans_id := PStr "trans_id" |}.

(** Entry lines of an incoming stream: the second document in its
    envelope, the same under an empty identifier, and the third one, which
    is a tombstone. *)
Definition entry_of (id content : pyval) (r : received) : string :=
  SimpleJson.dumps
    (PDict [("id", id); ("rev", r_rev r); ("content", content);
            ("gen", r_gen r); ("trans_id", r_trans_id r)]).

Definition sealed_entry : string := entry_of (PStr "doc-2") envelope_2 doc_2.
Definition nameless_entry : string := entry_of (PStr "") envelope_2 doc_2.
Definition tombstone_entry : string := entry_of (PStr "doc-3") PNone doc_3.

End DemoSession.

(** ** The rest of [LeapDocument] and [LeapSyncTarget] *)

(** The setter of the [syncable] property (lines 206-213). *)
Definition _set_syncable (d : LeapDocument) (syncable : bool) : LeapDocument :=
  {| leap_base := leap_base d; _syncable := syncable |}.


(** [a, b = v]: a sequence of two items is unpacked; a sequence of another
    length raises [ValueError], a value that is no sequence [TypeError].
    (A dictionary unpacks to its keys, in the order of its items.) *)
Definition unpack_pair (v : pyval) : result (pyval * pyval) :=
  match v with
  | PList [a; b] => Return (a, b)
  | PStr (String a (String b "")) => Return (PStr (String a ""), PStr (String b ""))
  | PUnicode (String a (String b "")) =>
      Return (PUnicode (String a ""), PUnicode (String b ""))
  | PDict [(a, _); (b, _)] => Return (PStr a, PStr b)
  | PList _ | PStr _ | PUnicode _ | PDict _ => Raise ValueError
  | _ => Raise TypeError
  end.

Section Signing.
Context `{RT : PyRuntime}.

(** [s.encode('base64')], the codec of the standard library. *)
Variable base64 : string -> string.

(** [HTTPSyncTarget._sign_request], the method [LeapSyncTarget] overrides,
    for the credentials, the method, the URL and the parameters. *)
Variable inherited_sign_request :
  pyval -> string -> string -> pyval -> result (list (string * string)).

(** [set_token_credentials] (lines 398-399): the new value of [_creds]; the
    pair is kept as a sequence of two items. *)
Definition set_token_credentials (address token : pyval) : pyval :=
  PDict [("token", PList [address; token])].

(** [_sign_request] (lines 401-408), for the value of [_creds]. *)
Definition sign_request (creds : pyval) (method url_query : string)
    (params : pyval) : result (list (string * string)) :=
  has ← py_contains "token" creds;
  if has : bool then
    pair ← getitem creds "token";
    '(address, token) ← unpack_pair pair;
    let auth := py_str address +:+ ":" +:+ py_str token in
    Return [("Authorization", "Token " +:+ base64 auth)]
  else inherited_sign_request creds method url_query params.

End Signing.

(** *** Vocabulary for the statements about traces and streams *)

(** The calls of the document callback. *)
Definition is_doc_event (ev : event) : bool :=
  match ev with
  | EvReturnDoc _ _ _ => true
  | _ => false
  end.

(** The call of the callback that a read entry leads to. *)
Definition callback_of (x : LeapDocument * pyval * pyval * bool) : event :=
  EvReturnDoc (fst (fst (fst x))) (snd (fst (fst x))) (snd (fst x)).

(** The calls of the two callbacks. *)
Definition is_callback_event (ev : event) : bool :=
  match ev with
  | EvEnsureCallback _ | EvReturnDoc _ _ _ => true
  | _ => false
  end.

(** The calls on the connection that come before the headers are ended. *)
Definition is_preamble_event (ev : event) : bool :=
  match ev with
  | EvEnsureConnection | EvTraceHook _ | EvPutRequest _ _ | EvPutHeader _ _ =>
      true
  | _ => false
  end.

(** The sum of the lengths of some strings. *)
Definition total_len (l : list string) : Z :=
  fold_right (fun s n => (py_len s + n)%Z) 0%Z l.

(** The strings of some calls of [send], end to end: the body that goes
    over the connection. *)
Definition body_of (l : list string) : string := fold_right String.append "" l.

(** A text without line feed and carriage return. *)
Fixpoint no_line_break (s : string) : bool :=
  match s with
  | "" => true
  | String c r =>
      negb (Ascii.eqb c LF) && negb (Ascii.eqb c CR) && no_line_break r
  end.

(** Texts written one to a line, each but the last followed by a comma. *)
Fixpoint with_commas (texts : list string) : list string :=
  match texts with
  | [] => []
  | [t] => [t]
  | t :: rest => (t +:+ ",") :: with_commas rest
  end.

Section Texts.
Context `{RT : PyRuntime}.

(** The JSON text of the metadata line and of an entry line, as [prepare]
    serialises them (line 359). *)
Definition metadata_text (last_known_generation last_known_trans_id : pyval)
    (ensure_callback : bool) : string :=
  json_dumps
    (PDict [("last_known_generation", last_known_generation);
            ("last_known_trans_id", last_known_trans_id);
            ("ensure", PBool ensure_callback)]).

Definition entry_text (doc : any_doc) (content gen trans_id : pyval) : string :=
  json_dumps
    (PDict [("id", doc_id (base_of doc)); ("rev", rev_of doc);
            ("content", content); ("gen", gen); ("trans_id", trans_id)]).

(** The calls an exchange makes before it prepares the entries (lines
    347-354). *)
Definition request_preamble (self : LeapSyncTarget)
    (source_replica_uid : string) : list event :=
  let url := _url_path self +:+ "/sync-from/" +:+ source_replica_uid in
  EvEnsureConnection
  :: (if _trace_hook self then [EvTraceHook "sync_exchange"] else [])
  ++ [EvPutRequest "POST" url;
      EvPutHeader "content-type" "application/x-u1db-sync-stream"]
  ++ map (fun h => EvPutHeader (fst h) (snd h)) (_sign_request self "POST" url).

(** The JSON text of the entry line [sync_exchange] writes for an item. *)
Definition wire_text (crypto : SoledadCrypto)
    (item : any_doc * pyval * pyval) : string :=
  let '(doc, gen, trans_id) := item in
  entry_text doc (wire_content crypto (base_of doc)) gen trans_id.

End Texts.

(** The call of the ensure callback that the object of a metadata line
    leads to (lines 305-306). *)
Definition ensure_calls (ensure_callback : bool) (res : list (string * pyval))
  : list event :=
  if ensure_callback then
    match dict_get res "replica_uid" with
    | Some uid => [EvEnsureCallback uid]
    | None => []
    end
  else [].

(** * Properties *)

(** ** The envelope codec *)

Section CodecProperties.
Context `{RT : PyRuntime}.

Lemma leap_assert_true {A} (b : bool) (k : unit -> result A) :
  b = true -> (leap_assert b ≫= k) = k tt.
Proof. intros ->. reflexivity. Qed.

Lemma py_eq_str_empty_false (s : string) :
  s <> "" -> py_eq_str (PStr s) "" = false.
Proof.
  intros Hs. simpl. destruct (String.eqb_spec s ""); congruence.
Qed.

(** The four assertions pass on a non-empty [str] identifier and a
    non-empty [str] body, and the body is then parsed and dispatched on. *)
Lemma decrypt_doc_json_parsed (crypto : SoledadCrypto) (d j : string) (content ciphertext scheme : pyval) :
  d <> "" -> j <> "" ->
  json_loads j = Some content ->
  getitem content "_encrypted_json" = Return ciphertext ->
  getitem content "_encryption_scheme" = Return scheme ->
  decrypt_doc_json crypto (PStr d) (PStr j) =
    if py_eq_str scheme EncryptionSchemes.SYMKEY then
      if negb (is_encrypted_sym crypto ciphertext)
      then Raise (DocumentNotEncrypted (PStr not_encrypted_msg))
      else Return (decrypt_sym crypto ciphertext
                     (passphrase_hash crypto (PStr d)))
    else raise_global "UnknownEncryptionScheme" scheme.
Proof.
  intros Hd Hj Hl Hc Hs. unfold decrypt_doc_json.
  rewrite !leap_assert_true; try reflexivity;
    try (rewrite py_eq_str_empty_false by assumption; reflexivity).
  unfold py_json_loads. rewrite Hl. cbn [mbind result_bind rbind].
  rewrite Hc. cbn [rbind]. rewrite Hs. reflexivity.
Qed.

(** C1. Round trip: for a non-empty [str] identifier [d] and any plaintext
    [p], if the cipher accepts its own ciphertext and decrypts it back under
    the key derived from [d], and the JSON library reads back the envelope it
    wrote (and does not read the empty string), then decrypting under [d]
    what [encrypt_doc_json] produced under [d] returns [p]. *)
Theorem encrypt_decrypt_roundtrip (crypto : SoledadCrypto) (d : string)
    (p : pyval) :
  d <> "" ->
  is_encrypted_sym crypto
    (encrypt_sym crypto p (passphrase_hash crypto (PStr d))) = true ->
  decrypt_sym crypto
    (encrypt_sym crypto p (passphrase_hash crypto (PStr d)))
    (passphrase_hash crypto (PStr d)) = p ->
  json_loads
    (json_dumps
       (envelope (encrypt_sym crypto p (passphrase_hash crypto (PStr d))))) =
    Some (envelope (encrypt_sym crypto p (passphrase_hash crypto (PStr d)))) ->
  json_loads "" = None ->
  (e ← encrypt_doc_json crypto (PStr d) p;
   decrypt_doc_json crypto (PStr d) e) = Return p.
Proof.
  intros Hd His Hdec Hjson Hempty.
  unfold encrypt_doc_json. rewrite His. cbn [negb mbind result_bind rbind].
  set (c := encrypt_sym crypto p (passphrase_hash crypto (PStr d))) in *.
  assert (Hne : json_dumps (envelope c) <> "").
  { intros Heq. rewrite Heq, Hempty in Hjson. discriminate. }
  rewrite (decrypt_doc_json_parsed crypto d _ (envelope c) c
             (PStr EncryptionSchemes.SYMKEY)); try assumption; try reflexivity.
  cbn [py_eq_str EncryptionSchemes.SYMKEY]. rewrite String.eqb_refl, His.
  cbn [negb]. rewrite Hdec. reflexivity.
Qed.

(** C2 (what the code does). An envelope whose scheme is not equal to
    ['symkey'] reaches the [else] branch of line 166, which names
    [UnknownEncryptionScheme]; the module binds [UnknownEncryptionSchemes]
    only, so the statement raises [NameError] and not the exception class
    the module defines for the purpose. *)
Theorem decrypt_doc_json_other_scheme (crypto : SoledadCrypto) (d j : string)
    (content ciphertext scheme : pyval) :
  d <> "" -> j <> "" ->
  json_loads j = Some content ->
  getitem content "_encrypted_json" = Return ciphertext ->
  getitem content "_encryption_scheme" = Return scheme ->
  py_eq_str scheme EncryptionSchemes.SYMKEY = false ->
  decrypt_doc_json crypto (PStr d) (PStr j) =
    Raise (NameError "UnknownEncryptionScheme").
Proof.
  intros Hd Hj Hl Hc Hs Hne.
  rewrite (decrypt_doc_json_parsed crypto d j content ciphertext scheme)
    by assumption.
  rewrite Hne. reflexivity.
Qed.

(** C3. An envelope marked ['symkey'] whose ciphertext the cipher does not
    recognise makes [decrypt_doc_json] raise [DocumentNotEncrypted]; the
    outcome is the same whatever [decrypt_sym] is put in its place, so no
    decryption takes part in it. *)
Theorem decrypt_doc_json_unrecognised (crypto : SoledadCrypto) (d j : string)
    (content ciphertext scheme : pyval) :
  d <> "" -> j <> "" ->
  json_loads j = Some content ->
  getitem content "_encrypted_json" = Return ciphertext ->
  getitem content "_encryption_scheme" = Return scheme ->
  py_eq_str scheme EncryptionSchemes.SYMKEY = true ->
  is_encrypted_sym crypto ciphertext = false ->
  decrypt_doc_json crypto (PStr d) (PStr j) =
    Raise (DocumentNotEncrypted (PStr not_encrypted_msg))
  /\ forall decrypt : pyval -> pyval -> pyval,
       decrypt_doc_json (with_decrypt_sym crypto decrypt) (PStr d) (PStr j) =
         Raise (DocumentNotEncrypted (PStr not_encrypted_msg)).
Proof.
  intros Hd Hj Hl Hc Hs Heq Hnot. split; [|intros decrypt];
    rewrite (decrypt_doc_json_parsed _ d j content ciphertext scheme)
      by assumption;
    rewrite Heq; cbn [with_decrypt_sym is_encrypted_sym]; rewrite Hnot;
    reflexivity.
Qed.

(** C9. Unless the identifier and the body are both non-empty values of
    type [str], [decrypt_doc_json] raises [AssertionError]; this holds for
    every JSON library and every cipher, neither of which is consulted. *)
Theorem decrypt_doc_json_precondition (crypto : SoledadCrypto)
    (doc_id doc_json : pyval) :
  isinstance_str doc_id && negb (py_eq_str doc_id "")
    && isinstance_str doc_json && negb (py_eq_str doc_json "") = false ->
  decrypt_doc_json crypto doc_id doc_json = Raise AssertionError.
Proof.
  intros H. unfold decrypt_doc_json.
  destruct (isinstance_str doc_id); [|reflexivity].
  destruct (negb (py_eq_str doc_id "")); [|reflexivity].
  destruct (isinstance_str doc_json); [|reflexivity].
  destruct (negb (py_eq_str doc_json "")); [|reflexivity].
  discriminate H.
Qed.

End CodecProperties.

(** The round trip on a concrete document, with the concrete runtime. *)
Lemma encrypt_decrypt_roundtrip_witness :
  (e ← encrypt_doc_json DemoCrypto.crypto (PStr "doc-1")
         (PStr (SimpleJson.js "{'title': 'note', 'n': 1}"));
   decrypt_doc_json DemoCrypto.crypto (PStr "doc-1") e) =
    Return (PStr (SimpleJson.js "{'title': 'note', 'n': 1}")).
Proof.
  apply (encrypt_decrypt_roundtrip DemoCrypto.crypto "doc-1"
           (PStr (SimpleJson.js "{'title': 'note', 'n': 1}"))).
  - discriminate.
  - vm_compute. reflexivity.
  - vm_compute. reflexivity.
  - vm_compute. reflexivity.
  - vm_compute. reflexivity.
Defined.

(** An envelope tagged ['none'] raises [NameError]. *)
Lemma decrypt_doc_json_other_scheme_witness :
  decrypt_doc_json DemoCrypto.crypto (PStr "doc-1")
    (PStr (SimpleJson.js
             "{'_encrypted_json': 'x', '_encryption_scheme': 'none'}")) =
    Raise (NameError "UnknownEncryptionScheme").
Proof.
  apply (decrypt_doc_json_other_scheme DemoCrypto.crypto "doc-1" _
           (PDict [("_encrypted_json", PStr "x");
                   ("_encryption_scheme", PStr "none")])
           (PStr "x") (PStr "none")).
  - discriminate.
  - vm_compute. discriminate.
  - vm_compute. reflexivity.
  - reflexivity.
  - reflexivity.
  - reflexivity.
Defined.

(** An envelope tagged ['symkey'] around text that is no ciphertext. *)
Lemma decrypt_doc_json_unrecognised_witness :
  decrypt_doc_json DemoCrypto.crypto (PStr "doc-1")
    (PStr (SimpleJson.js
             "{'_encrypted_json': 'plain', '_encryption_scheme': 'symkey'}")) =
    Raise (DocumentNotEncrypted (PStr not_encrypted_msg)).
Proof.
  apply (decrypt_doc_json_unrecognised DemoCrypto.crypto "doc-1" _
           (PDict [("_encrypted_json", PStr "plain");
                   ("_encryption_scheme", PStr "symkey")])
           (PStr "plain") (PStr "symkey")).
  - discriminate.
  - vm_compute. discriminate.
  - vm_compute. reflexivity.
  - reflexivity.
  - reflexivity.
  - reflexivity.
  - reflexivity.
Defined.

(** A [unicode] identifier fails the first assertion. *)
Lemma decrypt_doc_json_precondition_witness :
  decrypt_doc_json DemoCrypto.crypto (PUnicode "doc-1")
    (PStr (SimpleJson.js
             "{'_encrypted_json': 'x', '_encryption_scheme': 'symkey'}")) =
    Raise AssertionError.
Proof.
  apply (decrypt_doc_json_precondition DemoCrypto.crypto). reflexivity.
Defined.

(** ** The incoming stream *)

Section StreamProperties.
Context `{RT : PyRuntime}.

Lemma M_bind_unfold {A B} (m : M A) (k : A -> M B) (tr : list event) :
  (m ≫= k) tr =
    match m tr with
    | (tr', Return a) => k a tr'
    | (tr', Raise e) => (tr', Raise e)
    end.
Proof. reflexivity. Qed.

(** One turn of the loop over the entry lines. *)
Lemma parse_entries_cons (crypto : SoledadCrypto) (e : string)
    (rest : list string) (comma : bool) (tr : list event) :
  parse_entries crypto (e :: rest) comma tr =
    if negb comma then (tr, Raise BrokenSyncStream)
    else match read_entry crypto e with
         | Return (doc, gen, trans_id, comma') =>
             parse_entries crypto rest comma'
               (tr ++ [EvReturnDoc doc gen trans_id])
         | Raise x => (tr, Raise x)
         end.
Proof.
  cbn [parse_entries]. destruct comma; cbn [negb]; [|reflexivity].
  rewrite M_bind_unfold. unfold lift.
  destruct (read_entry crypto e) as [[[[doc gen] trans_id] comma']|x];
    reflexivity.
Qed.

(** The loop handles a list of lines front to back: what it does on
    [pre ++ post] is what it does on [pre], followed, if that returned, by
    what it does on [post]. *)
Lemma parse_entries_app (crypto : SoledadCrypto) (pre post : list string) :
  forall (comma : bool) (tr : list event),
    parse_entries crypto (pre ++ post) comma tr =
      match parse_entries crypto pre comma tr with
      | (tr', Return comma') => parse_entries crypto post comma' tr'
      | (tr', Raise e) => (tr', Raise e)
      end.
Proof.
  induction pre as [|e pre IH]; intros comma tr; [reflexivity|].
  rewrite <- app_comm_cons, !parse_entries_cons.
  destruct (negb comma); [reflexivity|].
  destruct (read_entry crypto e) as [[[[doc gen] trans_id] comma']|x];
    [apply IH | reflexivity].
Qed.

Lemma rbind_inv {A B} (m : result A) (k : A -> result B) (b : B) :
  (m ≫= k) = Return b -> exists a, m = Return a /\ k a = Return b.
Proof. destruct m as [a|e]; [eauto | discriminate]. Qed.

Ltac rbind_inv H :=
  let a := fresh "a" in
  let E := fresh "E" in
  apply rbind_inv in H; destruct H as (a & E & H).

(** The flag [read_entry] returns is the one of its line. *)
Lemma read_entry_comma (crypto : SoledadCrypto) (e : string)
    (doc : LeapDocument) (gen trans_id : pyval) (comma : bool) :
  read_entry crypto e = Return (doc, gen, trans_id, comma) ->
  comma = snd (check_and_strip_comma e).
Proof.
  unfold read_entry. destruct (check_and_strip_comma e) as [line c].
  intros H. do 6 rbind_inv H. destruct a4 as [c1 b1].
  do 3 rbind_inv H. cbn in H. inversion H. reflexivity.
Qed.

(** When the loop returns, the flag it returns is the one of the last line
    it read. *)
Lemma parse_entries_comma (crypto : SoledadCrypto) (entries : list string) :
  forall (comma comma' : bool) (tr tr' : list event),
    parse_entries crypto entries comma tr = (tr', Return comma') ->
    comma' = match entries with
             | [] => comma
             | _ => snd (check_and_strip_comma (List.last entries ""))
             end.
Proof.
  induction entries as [|e rest IH]; intros comma comma' tr tr' H.
  - inversion H. reflexivity.
  - rewrite parse_entries_cons in H. destruct (negb comma); [discriminate|].
    destruct (read_entry crypto e) as [[[[doc gen] trans_id] c1]|x] eqn:Hr;
      [|discriminate].
    apply IH in H. destruct rest as [|e' rest'].
    + subst comma'. cbn [List.last]. eapply read_entry_comma, Hr.
    + exact H.
Qed.

Lemma parse_metadata_comma (ensure_callback : bool) (line0 : string)
    (tr tr' : list event) (res : pyval) (comma : bool) :
  parse_metadata ensure_callback line0 tr = (tr', Return (res, comma)) ->
  comma = snd (check_and_strip_comma line0).
Proof.
  unfold parse_metadata. intros Hm.
  destruct (check_and_strip_comma line0) as [line c0]. cbn [snd].
  rewrite M_bind_unfold in Hm. unfold lift in Hm.
  destruct (py_json_loads (PStr line)) as [v|x]; [|discriminate].
  rewrite M_bind_unfold in Hm.
  match type of Hm with
  | match ?m with _ => _ end = _ => destruct m as [tr3 [u|x]]
  end; [|discriminate].
  inversion Hm. reflexivity.
Qed.

(** The loop returns [False] only on lines that keep the comma grammar. *)
Lemma parse_entries_commas_ok (crypto : SoledadCrypto)
    (entries : list string) :
  forall (comma : bool) (tr tr' : list event),
    entries <> [] ->
    parse_entries crypto entries comma tr = (tr', Return false) ->
    comma = true /\ commas_ok entries = true.
Proof.
  induction entries as [|e rest IH]; intros comma tr tr' Hne H; [congruence|].
  rewrite parse_entries_cons in H.
  destruct comma; cbn [negb] in H; [|discriminate].
  split; [reflexivity|].
  destruct (read_entry crypto e) as [[[[doc gen] trans_id] c1]|x] eqn:Hr;
    [|discriminate].
  apply read_entry_comma in Hr.
  destruct rest as [|e' rest'].
  - assert (Hc1 : c1 = false) by (inversion H; reflexivity).
    cbn [commas_ok]. rewrite <- Hr, Hc1. reflexivity.
  - apply IH in H as [Hc Hok]; [|discriminate].
    change (commas_ok (e :: e' :: rest'))
      with (snd (check_and_strip_comma e) && commas_ok (e' :: rest')).
    rewrite <- Hr, Hc, Hok. reflexivity.
Qed.

Lemma parse_data_commas_ok (crypto : SoledadCrypto) (ensure_callback : bool)
    (data : list string) (tr tr' : list event) (res : option pyval) :
  data <> [] ->
  parse_data crypto ensure_callback data tr = (tr', Return (res, false)) ->
  commas_ok data = true.
Proof.
  destruct data as [|line0 entries]; [congruence|]. intros _ H.
  cbn [parse_data] in H. rewrite M_bind_unfold in H.
  destruct (parse_metadata ensure_callback line0 tr) as [tr1 [[r c]|x]] eqn:Hm;
    [|discriminate].
  apply parse_metadata_comma in Hm.
  rewrite M_bind_unfold in H.
  destruct (parse_entries crypto entries c tr1) as [tr2 [c2|x]] eqn:He;
    [|discriminate].
  assert (Hc2 : c2 = false) by (inversion H; reflexivity). subst c2.
  destruct entries as [|e es].
  - assert (Hc0 : c = false) by (inversion He; reflexivity).
    cbn [commas_ok]. rewrite <- Hm, Hc0. reflexivity.
  - apply parse_entries_commas_ok in He as [Hc Hok]; [|discriminate].
    change (commas_ok (line0 :: e :: es))
      with (snd (check_and_strip_comma line0) && commas_ok (e :: es)).
    rewrite <- Hm, Hc, Hok. reflexivity.
Qed.

Lemma parse_data_comma (crypto : SoledadCrypto) (ensure_callback : bool)
    (data : list string) (tr tr' : list event) (res : option pyval)
    (comma : bool) :
  parse_data crypto ensure_callback data tr = (tr', Return (res, comma)) ->
  data <> [] ->
  comma = snd (check_and_strip_comma (List.last data "")).
Proof.
  destruct data as [|line0 entries]; [congruence|]. intros H _.
  cbn [parse_data] in H. rewrite M_bind_unfold in H.
  destruct (parse_metadata ensure_callback line0 tr) as [tr1 [[r c]|x]] eqn:Hm;
    [|discriminate].
  rewrite M_bind_unfold in H.
  destruct (parse_entries crypto entries c tr1) as [tr2 [c2|x]] eqn:He;
    [|discriminate].
  inversion H; subst. apply parse_entries_comma in He.
  destruct entries as [|e es]; [|exact He]. subst comma. cbn [List.last].
  unfold parse_metadata in Hm.
  destruct (check_and_strip_comma line0) as [line c0]. cbn [snd].
  rewrite M_bind_unfold in Hm. unfold lift in Hm.
  destruct (py_json_loads (PStr line)) as [v|x]; [|discriminate].
  rewrite M_bind_unfold in Hm.
  match type of Hm with
  | match ?m with _ => _ end = _ => destruct m as [tr3 [u|x]]
  end; [|discriminate].
  inversion Hm. reflexivity.
Qed.

(** A missing comma stops the block of the data lines at the line that
    should have followed it, with the trace of the lines before. *)
Lemma parse_data_missing_comma (crypto : SoledadCrypto)
    (ensure_callback : bool) (pre post : list string) (a b : string)
    (tr tr' : list event) (res : option pyval) (comma : bool) :
  snd (check_and_strip_comma a) = false ->
  parse_data crypto ensure_callback (pre ++ [a]) tr
    = (tr', Return (res, comma)) ->
  parse_data crypto ensure_callback (pre ++ a :: b :: post) tr
    = (tr', Raise BrokenSyncStream).
Proof.
  intros Ha H.
  assert (Hc : comma = false).
  { apply parse_data_comma in H; [|intros E; destruct pre; discriminate].
    rewrite last_last in H. congruence. }
  subst comma.
  replace (pre ++ a :: b :: post) with ((pre ++ [a]) ++ b :: post)
    by (rewrite <- app_assoc; reflexivity).
  destruct (pre ++ [a]) as [|line0 entries] eqn:Hp;
    [destruct pre; discriminate|].
  rewrite <- app_comm_cons. cbn [parse_data] in *.
  rewrite M_bind_unfold in *.
  destruct (parse_metadata ensure_callback line0 tr) as [tr1 [[r c]|x]];
    [|discriminate].
  rewrite M_bind_unfold in *. rewrite parse_entries_app.
  destruct (parse_entries crypto entries c tr1) as [tr2 [c2|x]];
    [|discriminate].
  inversion H; subst. rewrite parse_entries_cons. reflexivity.
Qed.

Lemma check_last_line_closed (tr : list event) :
  check_last_line "]" tr = (tr, Return tt).
Proof. reflexivity. Qed.


Lemma check_last_line_broken (last_part : string) (tr : list event) :
  last_part <> "]" ->
  (forall d, json_loads last_part <> Some (PDict d)) ->
  check_last_line last_part tr = (tr, Raise BrokenSyncStream).
Proof.
  intros Hne Hl. unfold check_last_line.
  destruct (String.eqb_spec last_part "]"); [congruence|]. cbn [negb].
  destruct (json_loads last_part) as [v|] eqn:E; [|reflexivity].
  destruct v; try reflexivity. exfalso. eapply Hl. reflexivity.
Qed.

Lemma check_last_line_raises (last_part : string) (tr : list event) :
  last_part <> "]" ->
  exists e, check_last_line last_part tr = (tr, Raise e).
Proof.
  intros Hne. unfold check_last_line.
  destruct (String.eqb_spec last_part "]"); [congruence|]. cbn [negb].
  destruct (json_loads last_part) as [v|]; [|eauto].
  destruct v; eauto.
Qed.

(** The function after its first test, when the first line is the opening
    sentinel. *)
Lemma parse_sync_stream_opened (self : LeapSyncTarget) (data : string)
    (ensure_callback : bool) (tr : list event) :
  head (splitlines data) = Some "[" ->
  _parse_sync_stream self data ensure_callback tr =
    match parse_data (_crypto self) ensure_callback
            (removelast (tail (splitlines data))) tr with
    | (tr1, Return (res, comma)) =>
        match check_last_line (List.last (splitlines data) "") tr1 with
        | (tr2, Return _) =>
            if match removelast (tail (splitlines data)) with
               | [] => true
               | _ => false
               end || comma
            then (tr2, Raise BrokenSyncStream)
            else match res with
                 | Some r => (tr2, Return r)
                 | None => (tr2, Raise (NameError "res"))
                 end
        | (tr2, Raise e) => (tr2, Raise e)
        end
    | (tr1, Raise e) => (tr1, Raise e)
    end.
Proof.
  intros Hh. unfold _parse_sync_stream.
  destruct (splitlines data) as [|p parts]; [discriminate|].
  cbn in Hh. inversion Hh; subst p. rewrite String.eqb_refl.
  cbn [negb tail]. rewrite M_bind_unfold.
  destruct (parse_data (_crypto self) ensure_callback (removelast parts) tr)
    as [tr1 [[res comma]|x]]; [|reflexivity].
  rewrite M_bind_unfold.
  destruct (check_last_line (List.last ("[" :: parts) "") tr1)
    as [tr2 [u|x]]; [|reflexivity].
  destruct (match removelast parts with [] => true | _ => false end || comma);
    [reflexivity|].
  destruct res; reflexivity.
Qed.

Lemma parse_sync_stream_not_opened (self : LeapSyncTarget) (data : string)
    (ensure_callback : bool) (tr : list event) :
  head (splitlines data) <> Some "[" ->
  _parse_sync_stream self data ensure_callback tr = (tr, Raise BrokenSyncStream).
Proof.
  intros Hh. unfold _parse_sync_stream.
  destruct (splitlines data) as [|p parts]; [reflexivity|].
  destruct (String.eqb_spec p "["); [subst; cbn in Hh; congruence|].
  reflexivity.
Qed.


(** C4 (as amended). Framing violations and [BrokenSyncStream]:
    - a stream without lines, or whose first line is not the opening
      sentinel, raises [BrokenSyncStream] before any callback;
    - when a data line [a] without a trailing comma is followed by another
      data line and the lines up to [a] are read without error,
      [BrokenSyncStream] is raised with the trace those lines left: no
      callback is made for a later line;
    - when all data lines are read without error, [BrokenSyncStream] is
      raised with the trace they left if the last line is neither the
      closing sentinel nor a JSON object, or if it is the closing sentinel
      and there is no data line or the last data line ends in a comma;
    - whatever the lines hold, a result is returned only for a stream
      that opens and closes with the sentinels and keeps the comma grammar
      in between. *)
Theorem broken_sync_stream (self : LeapSyncTarget) (data : string)
    (ensure_callback : bool) (tr : list event) :
  let parts := splitlines data in
  let lines := removelast (tail parts) in
  (head parts <> Some "[" ->
   _parse_sync_stream self data ensure_callback tr
     = (tr, Raise BrokenSyncStream))
  /\ (forall pre a b post tr' res comma,
        head parts = Some "[" ->
        lines = pre ++ a :: b :: post ->
        snd (check_and_strip_comma a) = false ->
        parse_data (_crypto self) ensure_callback (pre ++ [a]) tr
          = (tr', Return (res, comma)) ->
        _parse_sync_stream self data ensure_callback tr
          = (tr', Raise BrokenSyncStream))
  /\ (forall tr' res comma,
        head parts = Some "[" ->
        parse_data (_crypto self) ensure_callback lines tr
          = (tr', Return (res, comma)) ->
        (List.last parts "" <> "]"
         /\ forall d, json_loads (List.last parts "") <> Some (PDict d))
        \/ (List.last parts "" = "]"
            /\ (lines = []
                \/ snd (check_and_strip_comma (List.last lines "")) = true)) ->
        _parse_sync_stream self data ensure_callback tr
          = (tr', Raise BrokenSyncStream))
  /\ (forall tr' res,
        _parse_sync_stream self data ensure_callback tr = (tr', Return res) ->
        head parts = Some "[" /\ List.last parts "" = "]"
        /\ commas_ok lines = true).
Proof.
  cbv zeta. split; [|split; [|split]].
  - apply parse_sync_stream_not_opened.
  - intros pre a b post tr' res comma Hh Hl Ha Hp.
    rewrite parse_sync_stream_opened by assumption. rewrite Hl.
    rewrite (parse_data_missing_comma _ _ pre post a b tr tr' res comma)
      by assumption.
    reflexivity.
  - intros tr' res comma Hh Hp Hv.
    rewrite parse_sync_stream_opened by assumption. rewrite Hp.
    destruct Hv as [[Hne Hobj]|[Heq Hbad]].
    + rewrite check_last_line_broken by assumption. reflexivity.
    + rewrite Heq, check_last_line_closed.
      destruct Hbad as [Hnil|Hcomma].
      * rewrite Hnil. reflexivity.
      * destruct (removelast (tail (splitlines data))) as [|l ls] eqn:El;
          [reflexivity|].
        apply parse_data_comma in Hp; [|discriminate].
        rewrite Hcomma in Hp. subst comma. reflexivity.
  - intros tr' res H.
    destruct (decide (head (splitlines data) = Some "[")) as [Hh|Hh];
      [|rewrite parse_sync_stream_not_opened in H by assumption;
        discriminate].
    split; [exact Hh|].
    rewrite parse_sync_stream_opened in H by assumption.
    destruct (parse_data _ _ _ tr) as [tr1 [[r comma]|x]] eqn:Hp;
      [|discriminate].
    destruct (String.eqb_spec (List.last (splitlines data) "") "]")
      as [Hl|Hl].
    + split; [exact Hl|]. rewrite Hl, check_last_line_closed in H.
      destruct (removelast (tail (splitlines data))) as [|l ls] eqn:El;
        [discriminate|].
      destruct comma; [discriminate|].
      eapply parse_data_commas_ok; [|exact Hp]. discriminate.
    + destruct (check_last_line_raises _ tr1 Hl) as [e He].
      rewrite He in H. discriminate.
Qed.


Lemma bind_Return {A B} (a : A) (k : A -> result B) : (Return a ≫= k) = k a.
Proof. reflexivity. Qed.

Lemma get_content_json (d : Document) (c : pyval) :
  is_none (_json d) = false ->
  py_json_loads (_json d) = Return c ->
  get_content d =
    Return (c, {| doc_id := doc_id d; _rev := _rev d; _json := PNone;
                  _content := c; has_conflicts := has_conflicts d |}).
Proof. intros Hn Hl. unfold get_content. rewrite Hn, Hl. reflexivity. Qed.

Lemma get_content_parsed (d : Document) :
  _json d = PNone -> get_content d = Return (_content d, d).
Proof. intros Hn. unfold get_content. rewrite Hn. reflexivity. Qed.

Lemma check_json_loads (content : pyval) (d : list (string * pyval)) :
  py_json_loads content = Return (PDict d) -> check_json content = Return tt.
Proof.
  destruct content; try discriminate; cbn;
    destruct (json_loads s) as [v|]; try discriminate;
    intros H; inversion H; reflexivity.
Qed.

Lemma dict_get_nonempty (d : list (string * pyval)) (key : string)
    (v : pyval) :
  dict_get d key = Some v -> py_truthy (PDict d) = true.
Proof. destruct d; [discriminate | reflexivity]. Qed.

(** What [read_entry] makes of an entry whose content is a JSON object
    with an [_encryption_scheme] that is not ['symkey']. *)
Lemma read_entry_other_scheme (crypto : SoledadCrypto) (e line : string)
    (comma : bool) (entry id rev content scheme gen trans_id : pyval)
    (d : list (string * pyval)) :
  check_and_strip_comma e = (line, comma) ->
  json_loads line = Some entry ->
  getitem entry "id" = Return id ->
  getitem entry "rev" = Return rev ->
  getitem entry "content" = Return content ->
  py_json_loads content = Return (PDict d) ->
  dict_get d "_encryption_scheme" = Some scheme ->
  py_eq_str scheme EncryptionSchemes.SYMKEY = false ->
  getitem entry "gen" = Return gen ->
  getitem entry "trans_id" = Return trans_id ->
  read_entry crypto e =
    Return ({| leap_base := {| doc_id := id; _rev := rev; _json := PNone;
                               _content := PDict d;
                               has_conflicts := false |};
               _syncable := true |}, gen, trans_id, comma).
Proof.
  intros Hc Hl Hid Hrev Hcontent Hd Hs Hne Hgen Htid.
  assert (Hnn : is_none content = false).
  { destruct content; try reflexivity. discriminate Hd. }
  unfold read_entry. rewrite Hc. unfold py_json_loads at 1. rewrite Hl.
  rewrite bind_Return, Hid, bind_Return, Hrev, bind_Return, Hcontent.
  rewrite bind_Return.
  unfold LeapDocument_init, Document_init.
  rewrite (check_json_loads content d Hd), !bind_Return.
  cbn [leap_base].
  rewrite (get_content_json _ (PDict d)) by assumption.
  rewrite bind_Return. cbn [doc_id _rev has_conflicts].
  rewrite (dict_get_nonempty d _ _ Hs).
  rewrite get_content_parsed, bind_Return by reflexivity. cbn [_content].
  unfold py_contains. rewrite Hs, bind_Return.
  rewrite bool_decide_eq_true_2 by eauto.
  rewrite get_content_parsed, bind_Return by reflexivity.
  cbn [_content getitem]. rewrite Hs, bind_Return, Hne.
  rewrite bind_Return, Hgen, bind_Return, Htid, bind_Return. reflexivity.
Qed.

(** C10. An entry whose content is a JSON object with an
    [_encryption_scheme] that is not ['symkey'] is handed to the callback
    with that object as its content, whatever the cipher is, and the loop
    goes on with the next line. *)
Theorem parse_entries_other_scheme (crypto : SoledadCrypto) (e line : string)
    (rest : list string) (comma : bool)
    (entry id rev content scheme gen trans_id : pyval)
    (d : list (string * pyval)) (tr : list event) :
  check_and_strip_comma e = (line, comma) ->
  json_loads line = Some entry ->
  getitem entry "id" = Return id ->
  getitem entry "rev" = Return rev ->
  getitem entry "content" = Return content ->
  py_json_loads content = Return (PDict d) ->
  dict_get d "_encryption_scheme" = Some scheme ->
  py_eq_str scheme EncryptionSchemes.SYMKEY = false ->
  getitem entry "gen" = Return gen ->
  getitem entry "trans_id" = Return trans_id ->
  parse_entries crypto (e :: rest) true tr =
    parse_entries crypto rest comma
      (tr ++ [EvReturnDoc
                {| leap_base := {| doc_id := id; _rev := rev; _json := PNone;
                                   _content := PDict d;
                                   has_conflicts := false |};
                   _syncable := true |} gen trans_id]).
Proof.
  intros Hc Hl Hid Hrev Hcontent Hd Hs Hne Hgen Htid.
  rewrite parse_entries_cons. cbn [negb].
  rewrite (read_entry_other_scheme crypto e line comma entry id rev content
             scheme gen trans_id d) by assumption.
  reflexivity.
Qed.

End StreamProperties.

(** ** The outgoing stream *)

Section ExchangeProperties.
Context `{RT : PyRuntime}.

Lemma sent_app (tr1 tr2 : list event) : sent (tr1 ++ tr2) = sent tr1 ++ sent tr2.
Proof. unfold sent. apply omap_app. Qed.

Lemma sent_sends (entries : list string) : sent (map EvSend entries) = entries.
Proof.
  induction entries as [|e es IH]; [reflexivity|].
  cbn. unfold sent in IH. rewrite IH. reflexivity.
Qed.

Lemma send_all_trace (entries : list string) :
  forall tr, send_all entries tr = (tr ++ map EvSend entries, Return tt).
Proof.
  induction entries as [|e es IH]; intros tr; cbn [send_all map].
  - rewrite app_nil_r. reflexivity.
  - rewrite M_bind_unfold. unfold emit. rewrite IH, <- app_assoc. reflexivity.
Qed.

Lemma put_headers_trace (hs : list (string * string)) :
  forall tr,
    put_headers hs tr
      = (tr ++ map (fun h => EvPutHeader (fst h) (snd h)) hs, Return tt).
Proof.
  induction hs as [|[n v] hs IH]; intros tr; cbn [put_headers map].
  - rewrite app_nil_r. reflexivity.
  - rewrite M_bind_unfold. unfold emit. rewrite IH, <- app_assoc. reflexivity.
Qed.

Lemma sent_headers (hs : list (string * string)) :
  sent (map (fun h => EvPutHeader (fst h) (snd h)) hs) = [].
Proof. induction hs as [|h hs IH]; [reflexivity | exact IH]. Qed.

(** The loop over the documents: it returns when every document it does
    not skip is encryptable, with one line appended for each of them, and
    raises otherwise. *)
Lemma prepare_docs_entries (crypto : SoledadCrypto)
    (docs : list (any_doc * pyval * pyval)) :
  forall (entries : list string) (size : Z),
    if forallb (encryptable crypto) (List.filter synced docs)
    then exists size',
           prepare_docs crypto docs entries size
             = Return (entries
                         ++ map (wire_line crypto) (List.filter synced docs),
                       size')
    else exists e, prepare_docs crypto docs entries size = Raise e.
Proof.
  induction docs as [|[[doc gen] trans_id] docs IH]; intros entries size.
  - cbn. rewrite app_nil_r. eauto.
  - cbn [prepare_docs List.filter].
    change (synced (doc, gen, trans_id)) with (negb (skipped doc)).
    destruct (skipped doc); cbn [negb]; [apply IH|].
    cbn [forallb map]. unfold encryptable at 1. cbn [fst].
    unfold wire_line at 1, wire_content, encrypt_doc_json.
    destruct (is_tombstone (base_of doc)); cbn [negb orb].
    + rewrite bind_Return. unfold prepare.
      specialize (IH (entries
        ++ [entry_line doc (get_json (base_of doc)) gen trans_id])
        (size + py_len (entry_line doc (get_json (base_of doc)) gen trans_id))%Z).
      destruct (forallb (encryptable crypto) (List.filter synced docs)).
      * destruct IH as [size' IH]. exists size'. unfold entry_line in *.
        rewrite IH, <- app_assoc. reflexivity.
      * exact IH.
    + destruct (is_encrypted_sym crypto _); cbn [negb andb].
      * rewrite bind_Return. unfold prepare.
        match goal with
        | |- context [map (wire_line crypto) ?l] =>
            match goal with
            | |- context [entry_line doc ?c gen trans_id :: _] =>
                specialize (IH (entries ++ [entry_line doc c gen trans_id])
                  (size + py_len (entry_line doc c gen trans_id))%Z)
            end
        end.
        destruct (forallb (encryptable crypto) (List.filter synced docs)).
        -- destruct IH as [size' IH]. exists size'. unfold entry_line in *.
           rewrite IH, <- app_assoc. reflexivity.
        -- exact IH.
      * eexists. reflexivity.
Qed.

(** The request, event by event: some events that are no [send], then
    either the exception of the loop, or the last headers and one [send]
    for each entry. *)
Lemma send_request_run (self : LeapSyncTarget)
    (docs : list (any_doc * pyval * pyval)) (source_replica_uid : string)
    (last_known_generation last_known_trans_id : pyval)
    (ensure_callback : bool) (tr : list event) :
  exists evs size0,
    sent evs = []
    /\ send_request self docs source_replica_uid last_known_generation
         last_known_trans_id ensure_callback tr
       = match prepare_docs (_crypto self) docs
                 ["["; metadata_line last_known_generation
                         last_known_trans_id ensure_callback] size0 with
         | Return (entries, size) =>
             (tr ++ evs
                 ++ [EvPutHeader "content-length"
                       (py_str
                          (PInt (size
                                 + py_len (List.last
                                             (entries ++ [CRLF +:+ "]"]) ""))));
                     EvEndHeaders]
                 ++ map EvSend (entries ++ [CRLF +:+ "]"]),
              Return tt)
         | Raise e => (tr ++ evs, Raise e)
         end.
Proof.
  unfold send_request.
  rewrite M_bind_unfold. unfold emit at 1.
  rewrite M_bind_unfold.
  assert (Hhook : exists evs,
             sent evs = []
             /\ (if _trace_hook self
                 then emit (EvTraceHook "sync_exchange")
                 else mret tt) (tr ++ [EvEnsureConnection])
                = (tr ++ EvEnsureConnection :: evs, Return tt)).
  { destruct (_trace_hook self).
    - exists [EvTraceHook "sync_exchange"]. split; [reflexivity|].
      unfold emit. rewrite <- app_assoc. reflexivity.
    - exists []. split; reflexivity. }
  destruct Hhook as (evs & Hevs & ->).
  rewrite M_bind_unfold. unfold emit at 1.
  rewrite M_bind_unfold. unfold emit at 1.
  rewrite M_bind_unfold, put_headers_trace.
  unfold prepare at 1. cbn [app].
  rewrite M_bind_unfold. unfold lift.
  exists (EvEnsureConnection :: evs
            ++ [EvPutRequest "POST"
                  (_url_path self +:+ "/sync-from/" +:+ source_replica_uid);
                EvPutHeader "content-type" "application/x-u1db-sync-stream"]
            ++ map (fun h => EvPutHeader (fst h) (snd h))
                 (_sign_request self "POST"
                    (_url_path self +:+ "/sync-from/" +:+ source_replica_uid))),
    (1 + py_len (metadata_line last_known_generation last_known_trans_id
                   ensure_callback))%Z.
  split.
  - change (sent (EvEnsureConnection :: ?l)) with (sent l).
    rewrite !sent_app, Hevs, sent_headers. reflexivity.
  - unfold metadata_line. change ("" +:+ ?x) with x.
    match goal with
    | |- context [prepare_docs ?c docs ?es ?sz] =>
        destruct (prepare_docs c docs es sz) as [[entries size]|e]
    end.
    + rewrite M_bind_unfold. unfold emit at 1.
      rewrite M_bind_unfold. unfold emit at 1.
      rewrite send_all_trace. f_equal.
      repeat first [rewrite <- app_assoc | progress cbn [app]]. reflexivity.
    + f_equal. repeat first [rewrite <- app_assoc | progress cbn [app]].
      reflexivity.
Qed.

(** What the request sends: the whole list of entries, and only when all
    of them could be prepared. *)
Lemma send_request_sent (self : LeapSyncTarget)
    (docs : list (any_doc * pyval * pyval)) (source_replica_uid : string)
    (last_known_generation last_known_trans_id : pyval)
    (ensure_callback : bool) (tr tr' : list event) (r : result unit) :
  send_request self docs source_replica_uid last_known_generation
    last_known_trans_id ensure_callback tr = (tr', r) ->
  if forallb (encryptable (_crypto self)) (List.filter synced docs)
  then r = Return tt
       /\ sent tr'
          = sent tr
              ++ "[" :: metadata_line last_known_generation
                          last_known_trans_id ensure_callback
                     :: map (wire_line (_crypto self)) (List.filter synced docs)
              ++ [CRLF +:+ "]"]
  else (exists e, r = Raise e) /\ sent tr' = sent tr.
Proof.
  destruct (send_request_run self docs source_replica_uid
              last_known_generation last_known_trans_id ensure_callback tr)
    as (evs & size0 & Hevs & ->).
  match goal with
  | |- context [prepare_docs ?c docs ?es ?sz] =>
      pose proof (prepare_docs_entries c docs es sz) as Hp
  end.
  destruct (forallb (encryptable (_crypto self)) (List.filter synced docs)).
  - destruct Hp as [size' ->]. intros H.
    apply pair_equal_spec in H as [<- <-]. split; [reflexivity|].
    rewrite !sent_app, Hevs, sent_sends. reflexivity.
  - destruct Hp as [e ->]. intros H.
    apply pair_equal_spec in H as [<- <-].
    split; [eauto|]. rewrite !sent_app, Hevs, app_nil_r. reflexivity.
Qed.

(** Reading the answer sends nothing. *)
Lemma parse_entries_sent (crypto : SoledadCrypto) (entries : list string) :
  forall comma tr, sent (fst (parse_entries crypto entries comma tr)) = sent tr.
Proof.
  induction entries as [|e es IH]; intros comma tr; [reflexivity|].
  rewrite parse_entries_cons. destruct (negb comma); [reflexivity|].
  destruct (read_entry crypto e) as [[[[doc gen] trans_id] c]|x];
    [|reflexivity].
  rewrite IH, sent_app. cbn. apply app_nil_r.
Qed.

Lemma parse_metadata_sent (ensure_callback : bool) (line0 : string)
    (tr : list event) :
  sent (fst (parse_metadata ensure_callback line0 tr)) = sent tr.
Proof.
  unfold parse_metadata. destruct (check_and_strip_comma line0) as [line c].
  rewrite M_bind_unfold. unfold lift.
  destruct (py_json_loads (PStr line)) as [res|x]; [|reflexivity].
  rewrite M_bind_unfold.
  destruct ensure_callback; [|reflexivity].
  rewrite M_bind_unfold.
  destruct (py_contains "replica_uid" res) as [[|]|x]; try reflexivity.
  rewrite M_bind_unfold.
  destruct (getitem res "replica_uid") as [uid|x]; [|reflexivity].
  cbn. rewrite sent_app. cbn. apply app_nil_r.
Qed.

Lemma parse_data_sent (crypto : SoledadCrypto) (ensure_callback : bool)
    (data : list string) (tr : list event) :
  sent (fst (parse_data crypto ensure_callback data tr)) = sent tr.
Proof.
  destruct data as [|line0 entries]; [reflexivity|].
  cbn [parse_data]. rewrite M_bind_unfold.
  pose proof (parse_metadata_sent ensure_callback line0 tr) as Hm.
  destruct (parse_metadata ensure_callback line0 tr) as [tr1 [[res c]|x]];
    [|exact Hm].
  rewrite M_bind_unfold.
  pose proof (parse_entries_sent crypto entries c tr1) as He.
  destruct (parse_entries crypto entries c tr1) as [tr2 [c2|x]];
    unfold mret, M_ret; cbn [fst] in *; congruence.
Qed.

Lemma check_last_line_trace (last_part : string) (tr : list event) :
  fst (check_last_line last_part tr) = tr.
Proof.
  unfold check_last_line. destruct (negb (String.eqb last_part "]"));
    [|reflexivity].
  destruct (json_loads last_part) as [v|]; [|reflexivity].
  destruct v; reflexivity.
Qed.

Lemma parse_sync_stream_sent (self : LeapSyncTarget) (data : string)
    (ensure_callback : bool) (tr : list event) :
  sent (fst (_parse_sync_stream self data ensure_callback tr)) = sent tr.
Proof.
  destruct (decide (head (splitlines data) = Some "[")) as [Hh|Hh].
  - rewrite parse_sync_stream_opened by assumption.
    pose proof (parse_data_sent (_crypto self) ensure_callback
                  (removelast (tail (splitlines data))) tr) as Hd.
    destruct (parse_data _ _ _ tr) as [tr1 [[res comma]|x]]; [|exact Hd].
    pose proof (check_last_line_trace (List.last (splitlines data) "") tr1)
      as Hc.
    destruct (check_last_line _ tr1) as [tr2 [u|x]]; cbn [fst] in *; subst tr2;
      [|exact Hd].
    destruct (_ || comma); [exact Hd|]. destruct res; exact Hd.
  - rewrite parse_sync_stream_not_opened by assumption. reflexivity.
Qed.

(** What an exchange sends is what its request sends. *)
Lemma sync_exchange_sent (self : LeapSyncTarget)
    (docs : list (any_doc * pyval * pyval)) (source_replica_uid : string)
    (last_known_generation last_known_trans_id : pyval)
    (ensure_callback : bool) (response : result string) (tr : list event) :
  sent (fst (sync_exchange self docs source_replica_uid last_known_generation
               last_known_trans_id ensure_callback response tr))
  = sent (fst (send_request self docs source_replica_uid
                 last_known_generation last_known_trans_id ensure_callback
                 tr)).
Proof.
  unfold sync_exchange. rewrite M_bind_unfold.
  destruct (send_request _ _ _ _ _ _ tr) as [tr1 [u|x]]; [|reflexivity].
  rewrite M_bind_unfold. unfold lift at 1.
  destruct response as [data|x]; [|reflexivity].
  rewrite M_bind_unfold.
  pose proof (parse_sync_stream_sent self data ensure_callback tr1) as Hp.
  destruct (_parse_sync_stream self data ensure_callback tr1)
    as [tr2 [res|x]]; [|exact Hp].
  rewrite M_bind_unfold. unfold lift at 1.
  destruct (getitem res "new_generation"); [|exact Hp].
  rewrite M_bind_unfold. unfold lift at 1.
  destruct (getitem res "new_transaction_id"); exact Hp.
Qed.

(** C6. What [sync_exchange] sends for a list of local documents: when the
    cipher's check passes on every document that is not skipped, the opening
    sentinel, the metadata line, one entry line for each document that is
    not a [LeapDocument] with a false [syncable], in the order of the list,
    and the closing sentinel; nothing at all otherwise. A document whose
    [syncable] is false has no line in either case. *)
Theorem non_syncable_not_sent (self : LeapSyncTarget)
    (docs : list (any_doc * pyval * pyval)) (source_replica_uid : string)
    (last_known_generation last_known_trans_id : pyval)
    (ensure_callback : bool) (response : result string) (tr : list event) :
  let tr' :=
    fst (sync_exchange self docs source_replica_uid last_known_generation
           last_known_trans_id ensure_callback response tr) in
  let kept :=
    List.filter
      (fun item => match fst (fst item) with
                   | LeapDoc l => syncable l
                   | PlainDoc _ => true
                   end) docs in
  if forallb (encryptable (_crypto self)) kept
  then exists lines,
         sent tr'
         = sent tr
             ++ "[" :: metadata_line last_known_generation
                         last_known_trans_id ensure_callback
                    :: lines ++ [CRLF +:+ "]"]
         /\ Forall2
              (fun line item =>
                 exists content,
                   line = entry_line (fst (fst item)) content
                            (snd (fst item)) (snd item))
              lines kept
  else sent tr' = sent tr.
Proof.
  cbv zeta. rewrite sync_exchange_sent.
  replace (List.filter _ docs) with (List.filter synced docs).
  2:{ apply List.filter_ext. intros [[doc gen] trans_id].
      unfold synced, skipped. cbn [fst]. destruct doc; [reflexivity|].
      apply negb_involutive. }
  pose proof (send_request_sent self docs source_replica_uid
                last_known_generation last_known_trans_id ensure_callback tr)
    as H.
  destruct (send_request _ _ _ _ _ _ tr) as [tr' r].
  specialize (H tr' r eq_refl). cbn [fst].
  destruct (forallb (encryptable (_crypto self)) (List.filter synced docs)).
  - destruct H as [_ H].
    exists (map (wire_line (_crypto self)) (List.filter synced docs)).
    split; [exact H|]. clear H.
    induction (List.filter synced docs) as [|[[doc gen] trans_id] l IH];
      cbn [map]; constructor; [|exact IH].
    eexists. reflexivity.
  - apply H.
Qed.

Lemma zip_with_map_r {A B C} (f : A -> B -> C) (g : A -> B) (l : list A) :
  zip_with f l (map g l) = map (fun x => f x (g x)) l.
Proof. induction l as [|x l IH]; [reflexivity|]. cbn. rewrite IH. reflexivity. Qed.

(** C7. Whenever [sync_exchange] sends anything, it sends the opening
    sentinel, the metadata line, one entry line for each document that is
    not skipped and the closing sentinel, and the content field of the
    entry of a document is: for a tombstone what [get_json] returns, for
    any other document what [encrypt_doc_json] returns for its identifier
    and its JSON. *)
Theorem outgoing_content (self : LeapSyncTarget)
    (docs : list (any_doc * pyval * pyval)) (source_replica_uid : string)
    (last_known_generation last_known_trans_id : pyval)
    (ensure_callback : bool) (response : result string) (tr : list event) :
  sent (fst (sync_exchange self docs source_replica_uid last_known_generation
               last_known_trans_id ensure_callback response tr))
    <> sent tr ->
  exists contents,
    sent (fst (sync_exchange self docs source_replica_uid
                 last_known_generation last_known_trans_id ensure_callback
                 response tr))
    = sent tr
        ++ "[" :: metadata_line last_known_generation last_known_trans_id
                    ensure_callback
               :: zip_with
                    (fun item content =>
                       entry_line (fst (fst item)) content
                         (snd (fst item)) (snd item))
                    (List.filter synced docs) contents
        ++ [CRLF +:+ "]"]
    /\ Forall2
         (fun item content =>
            let doc := base_of (fst (fst item)) in
            if is_tombstone doc
            then content = get_json doc
            else encrypt_doc_json (_crypto self) (doc_id doc) (get_json doc)
                 = Return content)
         (List.filter synced docs) contents.
Proof.
  rewrite sync_exchange_sent.
  pose proof (send_request_sent self docs source_replica_uid
                last_known_generation last_known_trans_id ensure_callback tr)
    as H.
  destruct (send_request _ _ _ _ _ _ tr) as [tr' r].
  specialize (H tr' r eq_refl). cbn [fst].
  destruct (forallb (encryptable (_crypto self)) (List.filter synced docs))
    eqn:Henc; [|intros Hsent; exfalso; apply Hsent, H].
  intros _. destruct H as [_ H].
  exists (map (fun item => wire_content (_crypto self) (base_of (fst (fst item))))
            (List.filter synced docs)).
  split.
  - rewrite H, zip_with_map_r. do 3 f_equal. f_equal.
    apply map_ext. intros [[doc gen] trans_id]. reflexivity.
  - rewrite forallb_forall in Henc. clear H.
    induction (List.filter synced docs) as [|item l IH]; cbn [map];
      constructor.
    + specialize (Henc item (or_introl eq_refl)). cbv zeta.
      unfold encryptable in Henc.
      unfold wire_content, encrypt_doc_json.
      destruct (is_tombstone (base_of (fst (fst item)))); [reflexivity|].
      cbn [orb] in Henc. rewrite Henc. reflexivity.
    + apply IH. intros x Hx. apply Henc. right. exact Hx.
Qed.

End ExchangeProperties.

(** *** Concrete streams *)

(** An answer whose last line is a structured error: the last line is not
    the closing sentinel, and what is raised is the remote error, not
    [BrokenSyncStream]. And an unclosed answer with a data line that is no
    JSON: the error of [json.loads] comes first. *)
Lemma unclosed_stream_not_always_broken :
  let data :=
    SimpleJson.crlf_lines
      ["["; SimpleJson.js "{'new_generation': 3, 'new_transaction_id': 'T-3'}";
       SimpleJson.js "{'error': 'unavailable'}"] in
  let data' := SimpleJson.crlf_lines ["["; "not json"; "x"] in
  (List.last (splitlines data) "" <> "]"
   /\ snd (_parse_sync_stream DemoCrypto.target data false [])
      = Raise (RemoteSyncError (PDict [("error", PStr "unavailable")]))
   /\ snd (_parse_sync_stream DemoCrypto.target data false [])
      <> Raise BrokenSyncStream)
  /\ (List.last (splitlines data') "" <> "]"
      /\ snd (_parse_sync_stream DemoCrypto.target data' false [])
         = Raise ValueError).
Proof.
  cbv zeta. split; [split; [|split] | split].
  - vm_compute. discriminate.
  - vm_compute. reflexivity.
  - vm_compute. discriminate.
  - vm_compute. discriminate.
  - vm_compute. reflexivity.
Qed.


(** The three kinds of violation on concrete streams: no opening sentinel;
    a missing comma after the first entry, which is delivered while the
    second is not; a comma after the last entry. And a stream that is
    read to the end keeps the comma grammar. *)
Lemma broken_sync_stream_witness :
  _parse_sync_stream DemoCrypto.target
    (SimpleJson.crlf_lines ["{}"; "]"]) false []
    = ([], Raise BrokenSyncStream)
  /\ _parse_sync_stream DemoCrypto.target
       (SimpleJson.crlf_lines
          ["["; SimpleJson.js "{'new_generation': 3},";
           DemoCrypto.demo_entry "d1" "1" ""; DemoCrypto.demo_entry "d2" "2" ""; "]"]) false []
     = ([EvReturnDoc (DemoCrypto.demo_doc "d1") (PInt 1) (PStr "T-1")],
        Raise BrokenSyncStream)
  /\ _parse_sync_stream DemoCrypto.target
       (SimpleJson.crlf_lines
          ["["; SimpleJson.js "{'new_generation': 3},";
           DemoCrypto.demo_entry "d1" "1" ","; "]"]) false []
     = ([EvReturnDoc (DemoCrypto.demo_doc "d1") (PInt 1) (PStr "T-1")],
        Raise BrokenSyncStream)
  /\ commas_ok
       (removelast (tail (splitlines DemoCrypto.empty_answer))) = true.
Proof.
  split; [|split; [|split]].
  - apply (proj1 (broken_sync_stream DemoCrypto.target _ false [])).
    vm_compute. discriminate.
  - apply (proj1 (proj2 (broken_sync_stream DemoCrypto.target _ false []))
             [SimpleJson.js "{'new_generation': 3},"]
             (DemoCrypto.demo_entry "d1" "1" "") (DemoCrypto.demo_entry "d2" "2" "") []
             _ (Some (PDict [("new_generation", PInt 3)])) false).
    + vm_compute. reflexivity.
    + vm_compute. reflexivity.
    + vm_compute. reflexivity.
    + vm_compute. reflexivity.
  - apply (proj1 (proj2 (proj2
                            (broken_sync_stream DemoCrypto.target _ false [])))
             _ (Some (PDict [("new_generation", PInt 3)])) true).
    + vm_compute. reflexivity.
    + vm_compute. reflexivity.
    + right. split; [vm_compute; reflexivity|]. right.
      vm_compute. reflexivity.
  - eapply (proj2 (proj2 (proj2 (broken_sync_stream DemoCrypto.target
                                   DemoCrypto.empty_answer false [])))).
    vm_compute. reflexivity.
Defined.


(** An entry tagged ['pubkey'] is delivered as it came. *)
Lemma parse_entries_other_scheme_witness :
  parse_entries DemoCrypto.crypto
    [SimpleJson.js
       ("{'id': 'd1', 'rev': 'r1', 'content': "
        +:+ "'{\'_encrypted_json\': \'xyz\', \'_encryption_scheme\': \'pubkey\'}'"
        +:+ ", 'gen': 7, 'trans_id': 'T-7'}")] true []
  = ([EvReturnDoc
        {| leap_base :=
             {| doc_id := PStr "d1"; _rev := PStr "r1"; _json := PNone;
                _content := PDict [("_encrypted_json", PStr "xyz");
                                   ("_encryption_scheme", PStr "pubkey")];
                has_conflicts := false |};
           _syncable := true |} (PInt 7) (PStr "T-7")],
     Return false).
Proof.
  erewrite parse_entries_other_scheme.
  - reflexivity.
  - vm_compute. reflexivity.
  - vm_compute. reflexivity.
  - reflexivity.
  - reflexivity.
  - reflexivity.
  - vm_compute. reflexivity.
  - reflexivity.
  - reflexivity.
  - reflexivity.
  - reflexivity.
Defined.

(** ** The decrypter pool *)

Section PoolProperties.
Import DecrypterPool.
Context `{RT : PyRuntime}.
Variable crypto : SoledadCrypto.

(** The documents of the session, in arrival order, and what the callback
    is to be given for each. *)
Variable docs : list received.
Variable ds : list delivery.
Hypothesis normalized :
  Forall2 (fun r d => normalize crypto r = Return d) docs ds.

Lemma ds_length : length ds = length docs.
Proof. symmetry. eapply Forall2_length, normalized. Qed.

Lemma ds_lookup (i : nat) (r : received) :
  docs !! i = Some r -> exists d, ds !! i = Some d /\ normalize crypto r = Return d.
Proof.
  intros Hr. destruct (Forall2_lookup_l _ _ _ _ _ normalized Hr) as (d & Hd & Hn).
  eauto.
Qed.

(** The drain keeps the invariant, leaves the signal alone, and, given as
    many turns as the set has entries, stops at a gap. *)
Lemma drain_turns_inv (k : nat) (busy : gset nat) (turns : nat) :
  forall p,
    pool_inv docs ds k busy p -> resolved p = false ->
    pool_inv docs ds k busy (drain_turns turns p)
    /\ resolved (drain_turns turns p) = false
    /\ (size (completed p) <= turns ->
        completed (drain_turns turns p)
          !! next_index (drain_turns turns p) = None).
Proof.
  induction turns as [|turns IH]; intros p Hinv Hres.
  - cbn [drain_turns]. split; [exact Hinv|]. split; [exact Hres|].
    intros Hsize. assert (Hz : size (completed p) = 0) by lia.
    apply map_size_empty_inv in Hz. rewrite Hz. apply lookup_empty.
  - cbn [drain_turns].
    destruct (completed p !! next_index p) as [d|] eqn:Hnext;
      [|split; [exact Hinv|]; split; [exact Hres|]; intros _; exact Hnext].
    pose proof (inv_completed _ _ _ _ _ Hinv (next_index p)) as Hc.
    rewrite Hnext in Hc.
    destruct (decide (next_index p <= next_index p < k /\ next_index p ∉ busy))
      as [[Hlt Hnb]|]; [|discriminate].
    pose proof (inv_next_pos _ _ _ _ _ Hinv) as Hpos.
    set (p' := {| running := running p; expected := expected p;
                  next_index := S (next_index p); scheduled := scheduled p;
                  completed := delete (next_index p) (completed p);
                  delivered := S (delivered p); resolved := resolved p;
                  log := log p ++ [Inserted d] |}).
    assert (Hinv' : pool_inv docs ds k busy p').
    { destruct Hinv as [H1 H2 H3 H4 H5 H6 H7 H8 H9 H10].
      constructor; cbn [running expected next_index scheduled completed
                        delivered resolved log p']; try assumption; try lia.
      - intros i Hi. specialize (H6 i Hi).
        assert (i <> next_index p) by (intros ->; contradiction). lia.
      - intros i. rewrite lookup_delete. rewrite H8.
        destruct (decide (next_index p = i)) as [<-|Hne].
        + rewrite decide_False by lia. reflexivity.
        + destruct (decide (next_index p <= i < k /\ i ∉ busy)) as [[Hr Hb]|Hn].
          * rewrite decide_True by (split; [lia | assumption]). reflexivity.
          * rewrite decide_False; [reflexivity|].
            intros [Hr Hb]. apply Hn. split; [lia | assumption].
      - rewrite H10, Hres, !app_nil_r.
        replace (S (next_index p) - 1) with (S (next_index p - 1)) by lia.
        rewrite (take_S_r ds (next_index p - 1) d) by (symmetry; exact Hc).
        rewrite map_app. reflexivity. }
    destruct (IH p' Hinv' Hres) as (Ha & Hb & Hc').
    split; [exact Ha|]. split; [exact Hb|].
    intros Hsize. apply Hc'. cbn [completed p'].
    rewrite map_size_delete_Some by (rewrite Hnext; eauto). lia.
Qed.

Lemma start_inv :
  pool_inv docs ds 1 ∅ (start (length docs))
  /\ drained docs 1 ∅ (start (length docs)).
Proof.
  unfold start, check_completion.
  cbn [delivered expected resolved negb andb].
  assert (Hb : forall i : nat, i ∈ (∅ : gset nat) -> 1 <= i < 1).
  { intros i Hi. exfalso. revert Hi. apply not_elem_of_empty. }
  destruct (Nat.eqb_spec 0 (length docs)) as [Hz|Hnz]; cbn [andb].
  - split.
    + constructor;
        cbn [running expected next_index scheduled completed delivered
             resolved log]; try reflexivity; try lia; try exact Hb.
      all: intros i; case_decide as Hin; [|apply lookup_empty].
      all: first [lia | exfalso; exact (not_elem_of_empty (C:=gset nat) i Hin)].
    + split; cbn [next_index resolved delivered]; [lia|].
      rewrite bool_decide_eq_true_2 by assumption. reflexivity.
  - split.
    + constructor;
        cbn [running expected next_index scheduled completed delivered
             resolved log]; try reflexivity; try lia; try exact Hb.
      all: intros i; case_decide as Hin; [|apply lookup_empty].
      all: first [lia | exfalso; exact (not_elem_of_empty (C:=gset nat) i Hin)].
    + split; cbn [next_index resolved delivered]; [lia|].
      rewrite bool_decide_eq_false_2 by assumption. reflexivity.
Qed.

(** An arrival, under the index the schedule expects. *)
Lemma arrive_inv (k : nat) (busy : gset nat) (p : pool) (r : received) :
  pool_inv docs ds k busy p -> drained docs k busy p ->
  docs !! (k - 1) = Some r ->
  pool_inv docs ds (S k) ({[k]} ∪ busy) (insert_received_doc p r k)
  /\ drained docs (S k) ({[k]} ∪ busy) (insert_received_doc p r k).
Proof.
  intros [H1 H2 H3 H4 H5 H6 H7 H8 H9 H10] [Hd1 Hd2] Hr.
  assert (Hk : k <= length docs).
  { apply lookup_lt_Some in Hr. lia. }
  assert (Hnk : k ∉ busy).
  { intros Hin. specialize (H6 k Hin). lia. }
  unfold insert_received_doc. rewrite H1. split.
  - constructor; cbn [running expected next_index scheduled completed
                      delivered resolved log]; try assumption; try lia.
    + intros i Hi. apply elem_of_union in Hi as [Hi|Hi].
      * apply elem_of_singleton in Hi. subst i. lia.
      * specialize (H6 i Hi). lia.
    + intros i. rewrite lookup_insert.
      destruct (decide (k = i)) as [<-|Hne].
      * rewrite decide_True by set_solver. symmetry. exact Hr.
      * rewrite H7. destruct (decide (i ∈ busy)).
        -- rewrite decide_True by set_solver. reflexivity.
        -- rewrite decide_False by set_solver. reflexivity.
    + intros i. rewrite H8.
      destruct (decide (next_index p <= i < k /\ i ∉ busy)) as [[Hr' Hb]|Hn].
      * rewrite decide_True; [reflexivity|]. split; [lia|]. set_solver by lia.
      * rewrite decide_False; [reflexivity|]. intros [Hr' Hb].
        apply Hn. split; [|set_solver].
        assert (i <> k) by set_solver. lia.
  - split; cbn [running expected next_index scheduled completed
                delivered resolved log]; [|exact Hd2].
    intros Hlt. destruct (decide (next_index p = k)) as [->|Hne];
      [set_solver|].
    apply elem_of_union_r, Hd1. lia.
Qed.

(** The end of a decryption that was under way. *)
Lemma finish_inv (k : nat) (busy : gset nat) (p : pool) (i : nat) :
  pool_inv docs ds k busy p -> drained docs k busy p ->
  i ∈ busy ->
  pool_inv docs ds k (busy ∖ {[i]}) (complete_decryption crypto p i)
  /\ drained docs k (busy ∖ {[i]}) (complete_decryption crypto p i).
Proof.
  intros Hinv [Hd1 Hd2] Hi.
  pose proof Hinv as [H1 H2 H3 H4 H5 H6 H7 H8 H9 H10].
  pose proof (H6 i Hi) as Hrange.
  assert (Hsome : is_Some (docs !! (i - 1))) by (apply lookup_lt_is_Some; lia).
  destruct Hsome as [r Hr].
  destruct (ds_lookup _ _ Hr) as (d & Hd & Hn).
  assert (Hres : resolved p = false).
  { rewrite Hd2. apply bool_decide_eq_false_2. lia. }
  unfold complete_decryption. rewrite H1, H7, decide_True, Hr, Hn by assumption.
  set (p1 := {| running := true; expected := expected p;
                next_index := next_index p;
                scheduled := delete i (scheduled p);
                completed := <[i:=d]> (completed p);
                delivered := delivered p; resolved := resolved p;
                log := log p |}).
  assert (Hinv1 : pool_inv docs ds k (busy ∖ {[i]}) p1).
  { constructor; cbn [running expected next_index scheduled completed
                      delivered resolved log p1]; try assumption.
    - reflexivity.
    - intros j Hj. apply H6. set_solver.
    - intros j. rewrite lookup_delete.
      destruct (decide (i = j)) as [<-|Hne].
      + rewrite decide_False by set_solver. reflexivity.
      + rewrite H7. destruct (decide (j ∈ busy)).
        * rewrite decide_True by set_solver. reflexivity.
        * rewrite decide_False by set_solver. reflexivity.
    - intros j. rewrite lookup_insert.
      destruct (decide (i = j)) as [<-|Hne].
      + rewrite decide_True; [symmetry; exact Hd|]. split; [lia|set_solver].
      + rewrite H8.
        destruct (decide (next_index p <= j < k /\ j ∉ busy)) as [[Hr' Hb]|Hnj].
        * rewrite decide_True; [reflexivity|]. split; [lia|set_solver].
        * rewrite decide_False; [reflexivity|]. intros [Hr' Hb].
          apply Hnj. split; [lia|set_solver]. }
  destruct (drain_turns_inv k (busy ∖ {[i]}) (size (completed p1)) p1 Hinv1 Hres)
    as (Hinv2 & Hres2 & Hgap).
  specialize (Hgap (le_n _)). fold (drain p1) in *.
  set (p2 := drain p1) in *.
  pose proof Hinv2 as [G1 G2 G3 G4 G5 G6 G7 G8 G9 G10].
  assert (Hwait : next_index p2 < k -> next_index p2 ∈ busy ∖ {[i]}).
  { intros Hlt. rewrite G8 in Hgap.
    destruct (decide (next_index p2 ∈ busy ∖ {[i]})) as [Hin|Hout];
      [exact Hin|].
    rewrite decide_True in Hgap by (split; [lia | exact Hout]).
    apply lookup_ge_None in Hgap. rewrite ds_length in Hgap. lia. }
  unfold check_completion. rewrite Hres2. cbn [negb]. rewrite andb_true_r.
  destruct (Nat.eqb_spec (delivered p2) (expected p2)) as [Heq|Hneq].
  - split.
    + constructor; cbn [running expected next_index scheduled completed
                        delivered resolved log]; try assumption.
      rewrite G10, Hres2, app_nil_r. reflexivity.
    + split; cbn [running expected next_index scheduled completed
                  delivered resolved log]; [exact Hwait|].
      rewrite bool_decide_eq_true_2 by congruence. reflexivity.
  - split; [exact Hinv2|]. split; [exact Hwait|].
    rewrite Hres2, bool_decide_eq_false_2 by congruence. reflexivity.
Qed.

(** A schedule keeps the invariant from state to state. *)
Lemma run_inv (acts : list action) :
  forall (k : nat) (busy : gset nat) (p : pool) (k' : nat) (busy' : gset nat),
    pool_inv docs ds k busy p -> drained docs k busy p ->
    schedule_from docs k busy acts = Some (k', busy') ->
    pool_inv docs ds k' busy' (run crypto p acts)
    /\ drained docs k' busy' (run crypto p acts).
Proof.
  induction acts as [|a acts IH]; intros k busy p k' busy' Hinv Hdr Hs.
  - cbn in Hs. inversion Hs; subst. split; assumption.
  - cbn [schedule_from] in Hs. destruct a as [r i|i].
    + destruct (bool_decide (i = k /\ docs !! (i - 1) = Some r)) eqn:Hb;
        [|discriminate].
      apply bool_decide_eq_true_1 in Hb as [-> Hr].
      destruct (arrive_inv k busy p r Hinv Hdr Hr) as [Hinv' Hdr'].
      apply (IH _ _ _ _ _ Hinv' Hdr' Hs).
    + destruct (bool_decide (i ∈ busy)) eqn:Hb; [|discriminate].
      apply bool_decide_eq_true_1 in Hb.
      destruct (finish_inv k busy p i Hinv Hdr Hb) as [Hinv' Hdr'].
      apply (IH _ _ _ _ _ Hinv' Hdr' Hs).
Qed.

Lemma schedule_from_app (pre post : list action) :
  forall (k : nat) (busy : gset nat) (st : nat * gset nat),
    schedule_from docs k busy (pre ++ post) = Some st ->
    exists k1 busy1,
      schedule_from docs k busy pre = Some (k1, busy1)
      /\ schedule_from docs k1 busy1 post = Some st.
Proof.
  induction pre as [|a pre IH]; intros k busy st Hs.
  - exists k, busy. split; [reflexivity | exact Hs].
  - rewrite <- app_comm_cons in Hs. cbn [schedule_from] in *.
    destruct a as [r i|i].
    + destruct (bool_decide (i = k /\ docs !! (i - 1) = Some r));
        [apply IH, Hs | discriminate].
    + destruct (bool_decide (i ∈ busy)); [apply IH, Hs | discriminate].
Qed.

(** C8. For a session started with the count of [docs], the documents
    arriving in the order of the list under the indices 1, 2, ... and each
    decryption finishing once at any time after the arrival of its
    document: at the end the callback has been called once for each
    document, in the order of the indices, with the identifier, revision,
    generation and transaction id of that document, and the signal has been
    resolved once, after the last call; and at every moment of the session
    the calls made so far are those for the first [n] documents, in order,
    the signal being resolved exactly when [n] is the count. *)
Theorem ordered_delivery (acts : list action) :
  complete_schedule docs acts = true ->
  log (run crypto (start (length docs)) acts) = map Inserted ds ++ [Resolved]
  /\ Forall2
       (fun r d =>
          d_doc_id d = r_doc_id r /\ d_rev d = r_rev r
          /\ d_gen d = r_gen r /\ d_trans_id d = r_trans_id r) docs ds
  /\ forall pre post,
       acts = pre ++ post ->
       exists n,
         n <= length docs
         /\ log (run crypto (start (length docs)) pre)
            = map Inserted (take n ds)
                ++ (if bool_decide (n = length docs) then [Resolved] else []).
Proof.
  intros Hs. unfold complete_schedule in Hs. apply bool_decide_eq_true_1 in Hs.
  destruct start_inv as [Hinv0 Hdr0]. split; [|split].
  - destruct (run_inv acts _ _ _ _ _ Hinv0 Hdr0 Hs) as [Hinv [Hwait Hres]].
    destruct Hinv as [H1 H2 H3 H4 H5 H6 H7 H8 H9 H10].
    assert (Hnext : next_index (run crypto (start (length docs)) acts)
                    = S (length docs)).
    { destruct (decide (next_index (run crypto (start (length docs)) acts)
                        < S (length docs))) as [Hlt|Hge]; [|lia].
      exfalso. exact (not_elem_of_empty (C:=gset nat) _ (Hwait Hlt)). }
    rewrite H10, Hres, H9, Hnext.
    rewrite bool_decide_eq_true_2 by lia.
    rewrite take_ge by (rewrite ds_length; lia). reflexivity.
  - eapply Forall2_impl; [exact normalized|].
    intros r d Hn. unfold normalize in Hn.
    destruct (if carries_envelope (r_content r)
              then decrypt_doc_json crypto (r_doc_id r) (r_content r)
              else Return (r_content r)) as [json|x]; [|discriminate].
    inversion Hn. cbn. auto.
  - intros pre post ->.
    destruct (schedule_from_app pre post _ _ _ Hs) as (k1 & busy1 & Hpre & _).
    destruct (run_inv pre _ _ _ _ _ Hinv0 Hdr0 Hpre) as [Hinv [Hwait Hres]].
    destruct Hinv as [H1 H2 H3 H4 H5 H6 H7 H8 H9 H10].
    exists (next_index (run crypto (start (length docs)) pre) - 1).
    split; [lia|]. rewrite H10, Hres, H9. reflexivity.
Qed.

End PoolProperties.

(** A session of three documents whose decryptions finish in the order
    2, 3, 1. *)
Lemma ordered_delivery_witness :
  DecrypterPool.log
    (DecrypterPool.run DemoCrypto.crypto (DecrypterPool.start 3)
       DemoSession.schedule)
  = map DecrypterPool.Inserted DemoSession.deliveries
      ++ [DecrypterPool.Resolved].
Proof.
  apply (ordered_delivery DemoCrypto.crypto DemoSession.docs
           DemoSession.deliveries).
  - repeat constructor.
  - vm_compute. reflexivity.
Defined.

(** Of three local documents the one flagged as not syncable has no line. *)
Lemma non_syncable_not_sent_witness :
  exists lines,
    sent (fst (sync_exchange DemoCrypto.target DemoCrypto.local_docs
                 "replica-1" (PInt 0) (PStr "") false
                 (Return DemoCrypto.empty_answer) []))
    = "[" :: metadata_line (PInt 0) (PStr "") false
          :: lines ++ [CRLF +:+ "]"]
    /\ Forall2
         (fun line item =>
            exists content,
              line = entry_line (fst (fst item)) content
                       (snd (fst item)) (snd item))
         lines
         [(DemoCrypto.note, PInt 1, PStr "T-1");
          (DemoCrypto.gone, PInt 3, PStr "T-3")].
Proof.
  exact (non_syncable_not_sent DemoCrypto.target DemoCrypto.local_docs
           "replica-1" (PInt 0) (PStr "") false
           (Return DemoCrypto.empty_answer) []).
Defined.

(** The note goes out in its envelope, the tombstone as [None]. *)
Lemma outgoing_content_witness :
  exists contents,
    sent (fst (sync_exchange DemoCrypto.target DemoCrypto.local_docs
                 "replica-1" (PInt 0) (PStr "") false
                 (Return DemoCrypto.empty_answer) []))
    = "[" :: metadata_line (PInt 0) (PStr "") false
          :: zip_with
               (fun item content =>
                  entry_line (fst (fst item)) content (snd (fst item))
                    (snd item))
               [(DemoCrypto.note, PInt 1, PStr "T-1");
                (DemoCrypto.gone, PInt 3, PStr "T-3")] contents
          ++ [CRLF +:+ "]"]
    /\ Forall2
         (fun item content =>
            let doc := base_of (fst (fst item)) in
            if is_tombstone doc
            then content = get_json doc
            else encrypt_doc_json DemoCrypto.crypto (doc_id doc) (get_json doc)
                 = Return content)
         [(DemoCrypto.note, PInt 1, PStr "T-1");
          (DemoCrypto.gone, PInt 3, PStr "T-3")] contents.
Proof.
  apply (outgoing_content DemoCrypto.target DemoCrypto.local_docs
           "replica-1" (PInt 0) (PStr "") false
           (Return DemoCrypto.empty_answer) []).
  vm_compute. discriminate.
Defined.

(** ** Concrete runs *)

(** [test_insert_received_doc]: one document, one call of the callback,
    then the signal. *)
Example test_insert_received_doc :
  DecrypterPool.log
    (DecrypterPool.run DemoCrypto.crypto (DecrypterPool.start 1)
       [DecrypterPool.Arrive DemoSession.mydoc 1; DecrypterPool.Finish 1])
  = [DecrypterPool.Inserted (DemoSession.plain DemoSession.mydoc (PStr "{}"));
     DecrypterPool.Resolved].
Proof. vm_compute. reflexivity. Qed.

(** While the first decryption is under way nothing is delivered, whatever
    else has finished. *)
Example nothing_delivered_before_the_first :
  DecrypterPool.log
    (DecrypterPool.run DemoCrypto.crypto (DecrypterPool.start 3)
       (take 5 DemoSession.schedule))
  = [].
Proof. vm_compute. reflexivity. Qed.

(** An exchange of no document answered by a metadata line alone returns
    the generation and the transaction id of that line. *)
Example sync_exchange_no_documents :
  snd (sync_exchange DemoCrypto.target [] "replica-1" (PInt 0) (PStr "")
         false (Return DemoCrypto.empty_answer) [])
  = Return (PInt 4, PStr "T-4").
Proof. vm_compute. reflexivity. Qed.

(** What goes out for the three local documents comes back, read by
    [_parse_sync_stream], as the note decrypted and the tombstone. *)
Example sent_stream_reads_back :
  let tr := fst (sync_exchange DemoCrypto.target DemoCrypto.local_docs
                   "replica-1" (PInt 0) (PStr "") false
                   (Return DemoCrypto.empty_answer) []) in
  _parse_sync_stream DemoCrypto.target
    (fold_right String.append "" (sent tr)) false []
  = ([EvReturnDoc
        {| leap_base :=
             {| doc_id := PStr "note-1"; _rev := PStr "r1";
                _json := PStr (SimpleJson.js "{'text': 'hi'}");
                _content := PNone; has_conflicts := false |};
           _syncable := true |} (PInt 1) (PStr "T-1");
      EvReturnDoc
        {| leap_base :=
             {| doc_id := PStr "gone-1"; _rev := PStr "r1"; _json := PNone;
                _content := PNone; has_conflicts := false |};
           _syncable := true |} (PInt 3) (PStr "T-3")],
     Return (PDict [("last_known_generation", PInt 0);
                    ("last_known_trans_id", PStr "");
                    ("ensure", PBool false)])).
Proof. vm_compute. reflexivity. Qed.

(** * Further properties *)

(** ** The envelope codec, beyond the round trip *)

Section CodecFurther.
Context `{RT : PyRuntime}.

Lemma leap_assert_inv {A} (b : bool) (k : unit -> result A) (r : A) :
  (leap_assert b ≫= k) = Return r -> b = true /\ k tt = Return r.
Proof. destruct b; [auto | discriminate]. Qed.

Lemma leap_assert_raise {A} (b : bool) (k : unit -> result A) (e : exn) :
  (leap_assert b ≫= k) = Raise e ->
  (b = false /\ e = AssertionError) \/ (b = true /\ k tt = Raise e).
Proof.
  destruct b; cbn; [auto|]. intros H. inversion H. auto.
Qed.

Lemma isinstance_str_inv (v : pyval) :
  isinstance_str v = true -> exists s, v = PStr s.
Proof. destruct v; try discriminate. eauto. Qed.

Lemma non_empty_str (s : string) :
  negb (py_eq_str (PStr s) "") = true -> s <> "".
Proof.
  cbn. destruct (String.eqb_spec s ""); [discriminate | auto].
Qed.

(** X1. What [decrypt_doc_json] returns is never anything but the decryption,
    under the key of the identifier, of a ciphertext the cipher recognises,
    taken from an object tagged ['symkey'], for a non-empty [str]
    identifier and body. *)
Theorem decrypt_doc_json_returns (crypto : SoledadCrypto)
    (doc_id doc_json plain : pyval) :
  decrypt_doc_json crypto doc_id doc_json = Return plain ->
  exists d j content ciphertext scheme,
    doc_id = PStr d /\ d <> "" /\ doc_json = PStr j /\ j <> ""
    /\ json_loads j = Some content
    /\ getitem content "_encrypted_json" = Return ciphertext
    /\ getitem content "_encryption_scheme" = Return scheme
    /\ py_eq_str scheme EncryptionSchemes.SYMKEY = true
    /\ is_encrypted_sym crypto ciphertext = true
    /\ plain = decrypt_sym crypto ciphertext (passphrase_hash crypto (PStr d)).
Proof.
  unfold decrypt_doc_json. intros H.
  apply leap_assert_inv in H as [H1 H].
  apply leap_assert_inv in H as [H2 H].
  apply leap_assert_inv in H as [H3 H].
  apply leap_assert_inv in H as [H4 H].
  apply isinstance_str_inv in H1 as [d ->].
  apply isinstance_str_inv in H3 as [j ->].
  apply non_empty_str in H2. apply non_empty_str in H4.
  apply rbind_inv in H as (content & Hl & H).
  apply rbind_inv in H as (ciphertext & Hc & H).
  apply rbind_inv in H as (scheme & Hs & H).
  unfold py_json_loads in Hl.
  destruct (json_loads j) as [v|] eqn:Hj; [|discriminate].
  inversion Hl; subst v.
  destruct (py_eq_str scheme EncryptionSchemes.SYMKEY) eqn:Heq;
    [|discriminate].
  destruct (is_encrypted_sym crypto ciphertext) eqn:His; [|discriminate].
  cbn in H. inversion H.
  exists d, j, content, ciphertext, scheme. repeat split; auto.
Qed.

(** X2. Envelopes that are not what [decrypt_doc_json] expects: a body that is
    no JSON raises [ValueError]; JSON that is no object raises [TypeError];
    an object without [_encrypted_json] raises [KeyError] for that key,
    whatever its scheme; an object with it but without
    [_encryption_scheme] raises [KeyError] for the scheme. *)
Theorem decrypt_doc_json_malformed (crypto : SoledadCrypto) (d j : string) :
  d <> "" -> j <> "" ->
  (json_loads j = None ->
   decrypt_doc_json crypto (PStr d) (PStr j) = Raise ValueError)
  /\ (forall content,
        json_loads j = Some content -> isinstance_dict content = false ->
        decrypt_doc_json crypto (PStr d) (PStr j) = Raise TypeError)
  /\ (forall items,
        json_loads j = Some (PDict items) ->
        dict_get items "_encrypted_json" = None ->
        decrypt_doc_json crypto (PStr d) (PStr j)
          = Raise (KeyError "_encrypted_json"))
  /\ (forall items ciphertext,
        json_loads j = Some (PDict items) ->
        dict_get items "_encrypted_json" = Some ciphertext ->
        dict_get items "_encryption_scheme" = None ->
        decrypt_doc_json crypto (PStr d) (PStr j)
          = Raise (KeyError "_encryption_scheme")).
Proof.
  intros Hd Hj.
  assert (Hpre : forall k : unit -> result pyval,
             (leap_assert (isinstance_str (PStr d));;
              leap_assert (negb (py_eq_str (PStr d) ""));;
              leap_assert (isinstance_str (PStr j));;
              leap_assert (negb (py_eq_str (PStr j) ""));; k tt) = k tt).
  { intros k. rewrite !leap_assert_true; try reflexivity;
      rewrite py_eq_str_empty_false by assumption; reflexivity. }
  unfold decrypt_doc_json.
  repeat split.
  - intros Hl. rewrite (Hpre (fun _ => _)). unfold py_json_loads.
    rewrite Hl. reflexivity.
  - intros content Hl Hnd. rewrite (Hpre (fun _ => _)). unfold py_json_loads.
    rewrite Hl, bind_Return. destruct content; try reflexivity. discriminate.
  - intros items Hl Hk. rewrite (Hpre (fun _ => _)). unfold py_json_loads.
    rewrite Hl, bind_Return. cbn [getitem]. rewrite Hk. reflexivity.
  - intros items ciphertext Hl Hk Hs. rewrite (Hpre (fun _ => _)).
    unfold py_json_loads. rewrite Hl, bind_Return. cbn [getitem].
    rewrite Hk, bind_Return, Hs. reflexivity.
Qed.

(** X3. The exceptions [decrypt_doc_json] can raise, for any input, cipher and
    JSON library; [UnknownEncryptionSchemes], the class the module defines
    for unknown schemes, is not among them. *)
Theorem decrypt_doc_json_raises (crypto : SoledadCrypto)
    (doc_id doc_json : pyval) (e : exn) :
  decrypt_doc_json crypto doc_id doc_json = Raise e ->
  e = AssertionError \/ e = ValueError \/ e = TypeError
  \/ e = KeyError "_encrypted_json" \/ e = KeyError "_encryption_scheme"
  \/ e = DocumentNotEncrypted (PStr not_encrypted_msg)
  \/ e = NameError "UnknownEncryptionScheme".
Proof.
  unfold decrypt_doc_json. intros H.
  apply leap_assert_raise in H as [[_ ->]|[_ H]]; [auto|].
  apply leap_assert_raise in H as [[_ ->]|[_ H]]; [auto|].
  apply leap_assert_raise in H as [[_ ->]|[_ H]]; [auto|].
  apply leap_assert_raise in H as [[_ ->]|[_ H]]; [auto|].
  unfold py_json_loads in H.
  destruct doc_json; try (inversion H; auto; fail);
    (destruct (json_loads s) as [content|]; [|inversion H; auto 10]);
    rewrite bind_Return in H;
    (destruct content; try (inversion H; auto 10; fail));
    cbn [getitem] in H;
    (destruct (dict_get d "_encrypted_json") as [c|];
       [|inversion H; auto 10]);
    rewrite bind_Return in H;
    (destruct (dict_get d "_encryption_scheme") as [sch|];
       [|inversion H; auto 10]);
    rewrite bind_Return in H;
    (destruct (py_eq_str sch EncryptionSchemes.SYMKEY);
       [destruct (is_encrypted_sym crypto c); cbn in H; [discriminate|]|];
     inversion H; auto 10).
Qed.

(** X4. [encrypt_doc_json] makes no check on the identifier, [decrypt_doc_json]
    does: what is encrypted under an identifier that is not a non-empty
    [str] (the empty string, a [unicode], [None]) is an envelope that
    cannot be decrypted under that identifier. *)
Theorem encrypt_unchecked_id (crypto : SoledadCrypto) (doc_id plain : pyval) :
  isinstance_str doc_id && negb (py_eq_str doc_id "") = false ->
  is_encrypted_sym crypto
    (encrypt_sym crypto plain (passphrase_hash crypto doc_id)) = true ->
  exists e,
    encrypt_doc_json crypto doc_id plain = Return e
    /\ decrypt_doc_json crypto doc_id e = Raise AssertionError.
Proof.
  intros Hid His. unfold encrypt_doc_json. rewrite His. cbn [negb].
  eexists. split; [reflexivity|]. unfold decrypt_doc_json.
  destruct (isinstance_str doc_id); [|reflexivity].
  cbn [andb] in Hid. rewrite Hid. reflexivity.
Qed.

(** X5. The envelope does not name its document: decrypted under another
    non-empty [str] identifier it raises nothing; what comes out is
    whatever the cipher makes of the ciphertext under the key of that other
    identifier. *)
Theorem decrypt_under_other_id (crypto : SoledadCrypto) (doc_id plain : pyval)
    (d' : string) :
  d' <> "" ->
  is_encrypted_sym crypto
    (encrypt_sym crypto plain (passphrase_hash crypto doc_id)) = true ->
  json_loads
    (json_dumps
       (envelope (encrypt_sym crypto plain (passphrase_hash crypto doc_id)))) =
    Some (envelope (encrypt_sym crypto plain (passphrase_hash crypto doc_id))) ->
  json_loads "" = None ->
  (e ← encrypt_doc_json crypto doc_id plain;
   decrypt_doc_json crypto (PStr d') e)
  = Return (decrypt_sym crypto
              (encrypt_sym crypto plain (passphrase_hash crypto doc_id))
              (passphrase_hash crypto (PStr d'))).
Proof.
  intros Hd His Hjson Hempty.
  unfold encrypt_doc_json. rewrite His. cbn [negb].
  set (c := encrypt_sym crypto plain (passphrase_hash crypto doc_id)) in *.
  assert (Hne : json_dumps (envelope c) <> "").
  { intros Heq. rewrite Heq, Hempty in Hjson. discriminate. }
  change (raise_global "DocumentNotEncrypted" _) with
    (@Raise pyval (DocumentNotEncrypted (PStr "Failed encrypting document."))).
  rewrite bind_Return.
  rewrite (decrypt_doc_json_parsed crypto d' _ (envelope c) c
             (PStr EncryptionSchemes.SYMKEY)); try assumption; try reflexivity.
  cbn [py_eq_str EncryptionSchemes.SYMKEY]. rewrite String.eqb_refl, His.
  reflexivity.
Qed.

End CodecFurther.

(** ** The incoming stream, line by line *)

Section StreamFurther.
Context `{RT : PyRuntime}.

(** Entries that are all read without error, on lines that keep the comma
    grammar, are all handed to the callback, in order. *)
Lemma parse_entries_all (crypto : SoledadCrypto) (entries : list string)
    (xs : list (LeapDocument * pyval * pyval * bool)) :
  Forall2 (fun e x => read_entry crypto e = Return x) entries xs ->
  forall (comma : bool) (tr : list event),
    (entries <> [] -> comma = true /\ commas_ok entries = true) ->
    parse_entries crypto entries comma tr
      = (tr ++ map callback_of xs,
         Return (match entries with [] => comma | _ => false end)).
Proof.
  induction 1 as [|e x entries xs Hr Hall IH]; intros comma tr Hc.
  - cbn. rewrite app_nil_r. reflexivity.
  - destruct Hc as [-> Hok]; [discriminate|].
    rewrite parse_entries_cons. cbn [negb]. rewrite Hr.
    destruct x as [[[doc gen] trans_id] comma'].
    pose proof (read_entry_comma _ _ _ _ _ _ Hr) as Hcomma.
    rewrite IH.
    + cbn [map]. rewrite <- app_assoc. cbn [app]. f_equal.
      destruct entries as [|e' entries']; [|reflexivity].
      cbn [commas_ok] in Hok. rewrite <- Hcomma in Hok.
      destruct comma'; [discriminate | reflexivity].
    + intros Hne. destruct entries as [|e' entries']; [congruence|].
      change (commas_ok (e :: e' :: entries'))
        with (snd (check_and_strip_comma e) && commas_ok (e' :: entries'))
        in Hok.
      rewrite <- Hcomma in Hok. apply andb_prop in Hok. exact Hok.
Qed.

(** X6. A stream that is well formed is read to the end: when the first line
    is the opening sentinel, the last line the closing one, the metadata
    line and every entry are read without error and the data lines keep the
    comma grammar, [_parse_sync_stream] returns the object of the metadata
    line, and the callback has been called once for each entry, in the
    order of the lines. *)
Theorem parse_sync_stream_well_formed (self : LeapSyncTarget) (data : string)
    (ensure_callback : bool) (tr tr1 : list event) (line0 : string)
    (entries : list string) (res : pyval) (comma0 : bool)
    (xs : list (LeapDocument * pyval * pyval * bool)) :
  splitlines data = "[" :: (line0 :: entries) ++ ["]"] ->
  parse_metadata ensure_callback line0 tr = (tr1, Return (res, comma0)) ->
  Forall2 (fun e x => read_entry (_crypto self) e = Return x) entries xs ->
  commas_ok (line0 :: entries) = true ->
  _parse_sync_stream self data ensure_callback tr
    = (tr1 ++ map callback_of xs, Return res).
Proof.
  intros Hparts Hmeta Hall Hok.
  rewrite parse_sync_stream_opened by (rewrite Hparts; reflexivity).
  rewrite Hparts. cbn [tail]. rewrite removelast_last.
  change ("[" :: (line0 :: entries) ++ ["]"])
    with (("[" :: line0 :: entries) ++ ["]"]).
  rewrite last_last.
  cbn [parse_data]. rewrite M_bind_unfold, Hmeta, M_bind_unfold.
  pose proof (parse_metadata_comma _ _ _ _ _ _ Hmeta) as Hc0.
  rewrite (parse_entries_all (_crypto self) entries xs Hall).
  - unfold mret, M_ret. rewrite check_last_line_closed. cbn [orb].
    destruct entries as [|e entries']; [|reflexivity].
    cbn [commas_ok] in Hok. rewrite <- Hc0 in Hok.
    destruct comma0; [discriminate | reflexivity].
  - intros Hne. destruct entries as [|e entries']; [congruence|].
    change (commas_ok (line0 :: e :: entries'))
      with (snd (check_and_strip_comma line0) && commas_ok (e :: entries'))
      in Hok.
    rewrite <- Hc0 in Hok. apply andb_prop in Hok. exact Hok.
Qed.

(** The loop only calls the document callback, at most once for each
    line. *)
Lemma parse_entries_events (crypto : SoledadCrypto) (entries : list string) :
  forall (comma : bool) (tr : list event),
    exists evs,
      fst (parse_entries crypto entries comma tr) = tr ++ evs
      /\ forallb is_doc_event evs = true
      /\ length evs <= length entries.
Proof.
  induction entries as [|e rest IH]; intros comma tr.
  - exists []. cbn. rewrite app_nil_r. auto.
  - rewrite parse_entries_cons. destruct (negb comma).
    + exists []. cbn. rewrite app_nil_r. split; [reflexivity|].
      split; [reflexivity | lia].
    + destruct (read_entry crypto e) as [[[[doc gen] trans_id] c]|x].
      * destruct (IH c (tr ++ [EvReturnDoc doc gen trans_id]))
          as (evs & Hevs & Hdoc & Hlen).
        exists (EvReturnDoc doc gen trans_id :: evs).
        rewrite Hevs, <- app_assoc. cbn. split; [reflexivity|].
        split; [exact Hdoc | lia].
      * exists []. cbn. rewrite app_nil_r. split; [reflexivity|].
        split; [reflexivity | lia].
Qed.

(** The metadata line calls nothing, or the ensure callback once, with the
    [replica_uid] of its object, and only when the callback is there. *)
Lemma parse_metadata_events (ensure_callback : bool) (line0 : string)
    (tr : list event) :
  fst (parse_metadata ensure_callback line0 tr) = tr
  \/ (ensure_callback = true
      /\ exists res uid,
           fst (parse_metadata ensure_callback line0 tr)
             = tr ++ [EvEnsureCallback uid]
           /\ json_loads (fst (check_and_strip_comma line0)) = Some res
           /\ getitem res "replica_uid" = Return uid).
Proof.
  unfold parse_metadata. destruct (check_and_strip_comma line0) as [line c].
  cbn [fst]. rewrite M_bind_unfold. unfold lift, py_json_loads.
  destruct (json_loads line) as [res|]; [|left; reflexivity].
  rewrite M_bind_unfold.
  destruct ensure_callback; [|left; reflexivity].
  rewrite M_bind_unfold.
  destruct (py_contains "replica_uid" res) as [[|]|x];
    try (left; reflexivity).
  rewrite M_bind_unfold.
  destruct (getitem res "replica_uid") as [uid|x] eqn:Hu;
    [|left; reflexivity].
  right. split; [reflexivity|]. exists res, uid. auto.
Qed.

(** X7. What [_parse_sync_stream] does to the outside, for any body: it calls
    the ensure callback at most once, first, only when that callback is
    there, and with the [replica_uid] of the object on the first data line;
    every other call is a call of the document callback, and there are no
    more of these than lines after the first data line. *)
Theorem parse_sync_stream_events (self : LeapSyncTarget) (data : string)
    (ensure_callback : bool) (tr : list event) :
  let lines := removelast (tail (splitlines data)) in
  exists evs,
    fst (_parse_sync_stream self data ensure_callback tr) = tr ++ evs
    /\ length (List.filter is_doc_event evs) <= length (tail lines)
    /\ (forallb is_doc_event evs = true
        \/ (ensure_callback = true
            /\ exists res uid returned,
                 evs = EvEnsureCallback uid :: returned
                 /\ forallb is_doc_event returned = true
                 /\ json_loads (fst (check_and_strip_comma (hd "" lines)))
                    = Some res
                 /\ getitem res "replica_uid" = Return uid)).
Proof.
  cbv zeta.
  destruct (decide (head (splitlines data) = Some "[")) as [Hh|Hh].
  2:{ rewrite parse_sync_stream_not_opened by assumption.
      exists []. cbn. rewrite app_nil_r. split; [reflexivity|].
      split; [lia | left; reflexivity]. }
  rewrite parse_sync_stream_opened by assumption.
  assert (Hdata : exists evs,
             fst (parse_data (_crypto self) ensure_callback
                    (removelast (tail (splitlines data))) tr) = tr ++ evs
             /\ length (List.filter is_doc_event evs)
                <= length (tail (removelast (tail (splitlines data))))
             /\ (forallb is_doc_event evs = true
                 \/ (ensure_callback = true
                     /\ exists res uid returned,
                          evs = EvEnsureCallback uid :: returned
                          /\ forallb is_doc_event returned = true
                          /\ json_loads
                               (fst (check_and_strip_comma
                                       (hd "" (removelast
                                                 (tail (splitlines data))))))
                             = Some res
                          /\ getitem res "replica_uid" = Return uid))).
  { destruct (removelast (tail (splitlines data))) as [|line0 entries].
    - exists []. cbn. rewrite app_nil_r. split; [reflexivity|].
      split; [lia | left; reflexivity].
    - cbn [parse_data tail hd]. rewrite M_bind_unfold.
      pose proof (parse_metadata_events ensure_callback line0 tr) as Hm.
      destruct (parse_metadata ensure_callback line0 tr)
        as [tr1 [[res c]|x]]; cbn [fst] in Hm.
      + rewrite M_bind_unfold.
        destruct (parse_entries_events (_crypto self) entries c tr1)
          as (evs & Hevs & Hdoc & Hlen).
        assert (Hfst : fst ((let (tr', r) :=
                               parse_entries (_crypto self) entries c tr1 in
                             match r with
                             | Return a =>
                                 (mret (Some res, a) : M (option pyval * bool))
                                   tr'
                             | Raise e => (tr', Raise e)
                             end)) = tr1 ++ evs).
        { destruct (parse_entries (_crypto self) entries c tr1)
            as [tr2 [c2|x]]; exact Hevs. }
        unfold mret in Hfst |- *. rewrite Hfst.
        assert (Hall : List.filter is_doc_event evs = evs).
        { clear -Hdoc. induction evs as [|ev evs IH]; [reflexivity|].
          cbn in *. apply andb_prop in Hdoc as [Hev Hrest].
          rewrite Hev, IH by assumption. reflexivity. }
        destruct Hm as [->|(Hens & res' & uid & -> & Hl & Hu)].
        * exists evs. split; [reflexivity|]. rewrite Hall.
          split; [exact Hlen | left; exact Hdoc].
        * exists (EvEnsureCallback uid :: evs).
          rewrite <- app_assoc. split; [reflexivity|].
          cbn [List.filter is_doc_event]. rewrite Hall.
          split; [exact Hlen|]. right. split; [exact Hens|].
          exists res', uid, evs. auto.
      + destruct Hm as [->|(Hens & res' & uid & -> & Hl & Hu)].
        * exists []. cbn. rewrite app_nil_r. split; [reflexivity|].
          split; [lia | left; reflexivity].
        * exists [EvEnsureCallback uid]. split; [reflexivity|].
          cbn [List.filter is_doc_event length]. split; [lia|].
          right. split; [exact Hens|]. exists res', uid, []. auto. }
  destruct Hdata as (evs & Hevs & Hlen & Hshape).
  exists evs. split; [|split; assumption].
  destruct (parse_data _ _ _ tr) as [tr1 [[res comma]|x]]; cbn [fst] in Hevs;
    [|exact Hevs].
  pose proof (check_last_line_trace (List.last (splitlines data) "") tr1) as Hc.
  destruct (check_last_line _ tr1) as [tr2 [u|x]]; cbn [fst] in Hc; subst tr2;
    [|exact Hevs].
  destruct (_ || comma); [exact Hevs|]. destruct res; exact Hevs.
Qed.

(** An entry line that decodes, up to the document it makes. *)
Lemma read_entry_decoded (crypto : SoledadCrypto) (e line : string)
    (comma : bool) (entry id rev content : pyval) :
  check_and_strip_comma e = (line, comma) ->
  json_loads line = Some entry ->
  getitem entry "id" = Return id ->
  getitem entry "rev" = Return rev ->
  getitem entry "content" = Return content ->
  check_json content = Return tt ->
  read_entry crypto e =
    (let base := {| doc_id := id; _rev := rev; _json := content;
                    _content := PNone; has_conflicts := false |} in
     '(c1, b1) ← get_content base;
     b ← (if py_truthy c1 then
            '(c2, b2) ← get_content b1;
            has ← py_contains "_encryption_scheme" c2;
            if has : bool then
              '(c3, b3) ← get_content b2;
              scheme ← getitem c3 "_encryption_scheme";
              if py_eq_str scheme EncryptionSchemes.SYMKEY then
                plain ← decrypt_doc_json crypto (doc_id b3) content;
                set_json b3 plain
              else Return b3
            else Return b2
          else Return b1);
     gen ← getitem entry "gen";
     trans_id ← getitem entry "trans_id";
     Return ({| leap_base := b; _syncable := true |}, gen, trans_id, comma)).
Proof.
  intros Hc Hl Hid Hrev Hcontent Hj.
  unfold read_entry. rewrite Hc. unfold py_json_loads at 1. rewrite Hl.
  rewrite bind_Return, Hid, bind_Return, Hrev, bind_Return, Hcontent.
  rewrite bind_Return.
  unfold LeapDocument_init, Document_init. rewrite Hj, !bind_Return.
  cbn [leap_base]. reflexivity.
Qed.

(** An entry whose content says ['symkey'] is decrypted under the
    identifier of the entry, and the plain text becomes the JSON of the
    document. *)
Lemma read_entry_symkey (crypto : SoledadCrypto) (e line : string)
    (comma : bool) (entry id rev content scheme : pyval)
    (d : list (string * pyval)) :
  check_and_strip_comma e = (line, comma) ->
  json_loads line = Some entry ->
  getitem entry "id" = Return id ->
  getitem entry "rev" = Return rev ->
  getitem entry "content" = Return content ->
  py_json_loads content = Return (PDict d) ->
  dict_get d "_encryption_scheme" = Some scheme ->
  py_eq_str scheme EncryptionSchemes.SYMKEY = true ->
  read_entry crypto e =
    (plain ← decrypt_doc_json crypto id content;
     check_json plain;;
     gen ← getitem entry "gen";
     trans_id ← getitem entry "trans_id";
     Return ({| leap_base := {| doc_id := id; _rev := rev; _json := plain;
                                _content := PNone; has_conflicts := false |};
                _syncable := true |}, gen, trans_id, comma)).
Proof.
  intros Hc Hl Hid Hrev Hcontent Hd Hs Hsym.
  assert (Hnn : is_none content = false).
  { destruct content; try reflexivity. discriminate Hd. }
  rewrite (read_entry_decoded crypto e line comma entry id rev content)
    by eauto using check_json_loads.
  cbv zeta.
  rewrite (get_content_json _ (PDict d)) by assumption.
  rewrite bind_Return. cbn [doc_id _rev has_conflicts].
  rewrite (dict_get_nonempty d _ _ Hs).
  rewrite get_content_parsed, bind_Return by reflexivity. cbn [_content].
  unfold py_contains. rewrite Hs, bind_Return.
  rewrite bool_decide_eq_true_2 by eauto.
  rewrite get_content_parsed, bind_Return by reflexivity.
  cbn [_content getitem]. rewrite Hs, bind_Return, Hsym. cbn [doc_id].
  destruct (decrypt_doc_json crypto id content) as [plain|x]; [|reflexivity].
  rewrite !bind_Return. unfold set_json.
  destruct (check_json plain) as [[]|x]; reflexivity.
Qed.

(** X8. An entry marked ['symkey'] reaches the callback decrypted: the document
    handed over has the plain text as its JSON, under the identifier and
    the revision of the entry. When the decryption raises, or the plain
    text is no JSON object, the loop stops with that exception and the
    callback is not called for the entry. *)
Theorem parse_entries_symkey (crypto : SoledadCrypto) (e line : string)
    (rest : list string) (comma : bool)
    (entry id rev content scheme gen trans_id : pyval)
    (d : list (string * pyval)) (tr : list event) :
  check_and_strip_comma e = (line, comma) ->
  json_loads line = Some entry ->
  getitem entry "id" = Return id ->
  getitem entry "rev" = Return rev ->
  getitem entry "content" = Return content ->
  py_json_loads content = Return (PDict d) ->
  dict_get d "_encryption_scheme" = Some scheme ->
  py_eq_str scheme EncryptionSchemes.SYMKEY = true ->
  getitem entry "gen" = Return gen ->
  getitem entry "trans_id" = Return trans_id ->
  (forall plain,
     decrypt_doc_json crypto id content = Return plain ->
     check_json plain = Return tt ->
     parse_entries crypto (e :: rest) true tr =
       parse_entries crypto rest comma
         (tr ++ [EvReturnDoc
                   {| leap_base := {| doc_id := id; _rev := rev;
                                      _json := plain; _content := PNone;
                                      has_conflicts := false |};
                      _syncable := true |} gen trans_id]))
  /\ (forall x,
        decrypt_doc_json crypto id content = Raise x ->
        parse_entries crypto (e :: rest) true tr = (tr, Raise x))
  /\ (forall plain x,
        decrypt_doc_json crypto id content = Return plain ->
        check_json plain = Raise x ->
        parse_entries crypto (e :: rest) true tr = (tr, Raise x)).
Proof.
  intros Hc Hl Hid Hrev Hcontent Hd Hs Hsym Hgen Htid.
  rewrite parse_entries_cons. cbn [negb].
  rewrite (read_entry_symkey crypto e line comma entry id rev content scheme d)
    by assumption.
  split; [|split].
  - intros plain -> Hj. rewrite bind_Return, Hj, bind_Return, Hgen.
    rewrite bind_Return, Htid, bind_Return. reflexivity.
  - intros x ->. reflexivity.
  - intros plain x -> Hj. rewrite bind_Return, Hj. reflexivity.
Qed.

(** X9. [decrypt_doc_json] wants a non-empty [str] for the identifier and for
    the content. So an entry marked ['symkey'] whose identifier or content
    the JSON library decoded to a [unicode] (or whose identifier is empty)
    stops the loop with [AssertionError], whatever the cipher; the callback
    is not called for it. *)
Theorem parse_entries_symkey_not_str (crypto : SoledadCrypto)
    (e line : string) (rest : list string) (comma : bool)
    (entry id rev content scheme : pyval) (d : list (string * pyval))
    (tr : list event) :
  check_and_strip_comma e = (line, comma) ->
  json_loads line = Some entry ->
  getitem entry "id" = Return id ->
  getitem entry "rev" = Return rev ->
  getitem entry "content" = Return content ->
  py_json_loads content = Return (PDict d) ->
  dict_get d "_encryption_scheme" = Some scheme ->
  py_eq_str scheme EncryptionSchemes.SYMKEY = true ->
  isinstance_str id = false \/ py_eq_str id "" = true
  \/ isinstance_str content = false ->
  parse_entries crypto (e :: rest) true tr = (tr, Raise AssertionError).
Proof.
  intros Hc Hl Hid Hrev Hcontent Hd Hs Hsym Hbad.
  rewrite parse_entries_cons. cbn [negb].
  rewrite (read_entry_symkey crypto e line comma entry id rev content scheme d)
    by assumption.
  assert (Hdec : decrypt_doc_json crypto id content = Raise AssertionError).
  { unfold decrypt_doc_json, leap_assert.
    destruct (isinstance_str id); [|reflexivity].
    destruct (py_eq_str id ""); [reflexivity|].
    destruct (isinstance_str content); [|reflexivity].
    destruct Hbad as [Hbad|[Hbad|Hbad]]; discriminate Hbad. }
  rewrite Hdec. reflexivity.
Qed.

(** X10. An entry that is not marked as encrypted passes as it is, for every
    cipher: a null content gives the callback a tombstone, a JSON object
    without [_encryption_scheme] (the empty object too) a document with
    that object as its content. *)
Theorem parse_entries_not_encrypted (crypto : SoledadCrypto) (e line : string)
    (rest : list string) (comma : bool)
    (entry id rev content gen trans_id body : pyval)
    (d : list (string * pyval)) (tr : list event) :
  check_and_strip_comma e = (line, comma) ->
  json_loads line = Some entry ->
  getitem entry "id" = Return id ->
  getitem entry "rev" = Return rev ->
  getitem entry "content" = Return content ->
  (content = PNone /\ body = PNone)
  \/ (py_json_loads content = Return (PDict d)
      /\ dict_get d "_encryption_scheme" = None /\ body = PDict d) ->
  getitem entry "gen" = Return gen ->
  getitem entry "trans_id" = Return trans_id ->
  parse_entries crypto (e :: rest) true tr =
    parse_entries crypto rest comma
      (tr ++ [EvReturnDoc
                {| leap_base := {| doc_id := id; _rev := rev; _json := PNone;
                                   _content := body;
                                   has_conflicts := false |};
                   _syncable := true |} gen trans_id]).
Proof.
  intros Hc Hl Hid Hrev Hcontent Hbody Hgen Htid.
  rewrite parse_entries_cons. cbn [negb].
  destruct Hbody as [[-> ->]|(Hd & Hs & ->)].
  - rewrite (read_entry_decoded crypto e line comma entry id rev PNone)
      by auto.
    cbv zeta. rewrite get_content_parsed, bind_Return by reflexivity.
    cbn [_content py_truthy]. rewrite bind_Return, Hgen, bind_Return, Htid.
    rewrite bind_Return. reflexivity.
  - assert (Hnn : is_none content = false).
    { destruct content; try reflexivity. discriminate Hd. }
    rewrite (read_entry_decoded crypto e line comma entry id rev content)
      by eauto using check_json_loads.
    cbv zeta. rewrite (get_content_json _ (PDict d)) by assumption.
    rewrite bind_Return. cbn [doc_id _rev has_conflicts].
    destruct d as [|kv d'].
    + cbn [py_truthy]. rewrite bind_Return, Hgen, bind_Return, Htid.
      rewrite bind_Return. reflexivity.
    + cbn [py_truthy].
      rewrite get_content_parsed, bind_Return by reflexivity.
      cbn [_content]. unfold py_contains. rewrite Hs, bind_Return.
      rewrite bool_decide_eq_false_2 by (intros [? ?]; discriminate).
      rewrite bind_Return, Hgen, bind_Return, Htid, bind_Return.
      reflexivity.
Qed.

(** X11. An entry line that cannot be read stops the loop before the callback
    is called for it: a line that is no JSON raises [ValueError], an entry
    that is no object [TypeError], an object without [id] the [KeyError]
    of that key; a content that is no JSON object raises [InvalidJSON];
    and an entry without [gen] raises the [KeyError] of that key, even
    though its document could be made. *)
Theorem parse_entries_bad_line (crypto : SoledadCrypto) (e line : string)
    (rest : list string) (comma : bool) (tr : list event) :
  check_and_strip_comma e = (line, comma) ->
  (json_loads line = None ->
   parse_entries crypto (e :: rest) true tr = (tr, Raise ValueError))
  /\ (forall entry,
        json_loads line = Some entry -> isinstance_dict entry = false ->
        parse_entries crypto (e :: rest) true tr = (tr, Raise TypeError))
  /\ (forall kv,
        json_loads line = Some (PDict kv) -> dict_get kv "id" = None ->
        parse_entries crypto (e :: rest) true tr = (tr, Raise (KeyError "id")))
  /\ (forall kv id rev content x,
        json_loads line = Some (PDict kv) ->
        dict_get kv "id" = Some id -> dict_get kv "rev" = Some rev ->
        dict_get kv "content" = Some content ->
        check_json content = Raise x ->
        parse_entries crypto (e :: rest) true tr = (tr, Raise x))
  /\ (forall kv id rev,
        json_loads line = Some (PDict kv) ->
        dict_get kv "id" = Some id -> dict_get kv "rev" = Some rev ->
        dict_get kv "content" = Some PNone ->
        dict_get kv "gen" = None ->
        parse_entries crypto (e :: rest) true tr
          = (tr, Raise (KeyError "gen"))).
Proof.
  intros Hc. rewrite parse_entries_cons. cbn [negb].
  split; [|split; [|split; [|split]]].
  - intros Hl. unfold read_entry. rewrite Hc. unfold py_json_loads at 1.
    rewrite Hl. reflexivity.
  - intros entry Hl Hd. unfold read_entry. rewrite Hc.
    unfold py_json_loads at 1. rewrite Hl, bind_Return.
    destruct entry; try reflexivity. discriminate Hd.
  - intros kv Hl Hid. unfold read_entry. rewrite Hc.
    unfold py_json_loads at 1. rewrite Hl, bind_Return.
    cbn [getitem]. rewrite Hid. reflexivity.
  - intros kv id rev content x Hl Hid Hrev Hcontent Hj.
    unfold read_entry. rewrite Hc. unfold py_json_loads at 1.
    rewrite Hl, bind_Return. cbn [getitem].
    rewrite Hid, bind_Return, Hrev, bind_Return, Hcontent, bind_Return.
    unfold LeapDocument_init, Document_init. rewrite Hj. reflexivity.
  - intros kv id rev Hl Hid Hrev Hcontent Hgen.
    rewrite (read_entry_decoded crypto e line comma (PDict kv) id rev PNone);
      cbn [getitem]; try rewrite Hid; try rewrite Hrev; try rewrite Hcontent;
      auto.
    cbv zeta. rewrite get_content_parsed, bind_Return by reflexivity.
    cbn [_content py_truthy]. rewrite bind_Return. cbn [getitem].
    rewrite Hgen. reflexivity.
Qed.

End StreamFurther.

(** ** The exchange, call by call *)

Section ExchangeFurther.
Context `{RT : PyRuntime}.

Lemma total_len_app (l1 l2 : list string) :
  total_len (l1 ++ l2) = (total_len l1 + total_len l2)%Z.
Proof.
  unfold total_len.
  induction l1 as [|s l1 IH]; cbn [app fold_right]; [lia|].
  rewrite IH. lia.
Qed.

Lemma total_len_cons (s : string) (l : list string) :
  total_len (s :: l) = (py_len s + total_len l)%Z.
Proof. reflexivity. Qed.

(** The loop keeps [size] equal to the length of the entries, and raises
    nothing but the exception of a failed encryption. *)
Lemma prepare_docs_size (crypto : SoledadCrypto)
    (docs : list (any_doc * pyval * pyval)) :
  forall (entries : list string) (size : Z),
    match prepare_docs crypto docs entries size with
    | Return (entries', size') =>
        entries' = entries ++ map (wire_line crypto) (List.filter synced docs)
        /\ (size' - total_len entries' = size - total_len entries)%Z
        /\ forallb (encryptable crypto) (List.filter synced docs) = true
    | Raise x =>
        x = DocumentNotEncrypted (PStr "Failed encrypting document.")
        /\ forallb (encryptable crypto) (List.filter synced docs) = false
    end.
Proof.
  induction docs as [|[[doc gen] trans_id] docs IH]; intros entries size.
  - cbn. rewrite app_nil_r. auto.
  - cbn [prepare_docs List.filter].
    change (synced (doc, gen, trans_id)) with (negb (skipped doc)).
    destruct (skipped doc); cbn [negb]; [apply IH|].
    cbn [forallb map]. unfold encryptable at 1 3. cbn [fst].
    unfold wire_line at 1, wire_content, encrypt_doc_json.
    destruct (is_tombstone (base_of doc)); cbn [negb orb].
    + rewrite bind_Return. unfold prepare.
      specialize (IH (entries
        ++ [entry_line doc (get_json (base_of doc)) gen trans_id])
        (size + py_len (entry_line doc (get_json (base_of doc)) gen trans_id))%Z).
      unfold entry_line in *.
      destruct (prepare_docs crypto docs _ _) as [[entries' size']|x];
        [|exact IH].
      destruct IH as (-> & Hsize & Henc). rewrite <- app_assoc.
      split; [reflexivity|]. split; [|exact Henc].
      rewrite !total_len_app, !total_len_cons in Hsize |- *.
      change (total_len []) with 0%Z in *. lia.
    + destruct (is_encrypted_sym crypto _); cbn [negb andb].
      * rewrite bind_Return. unfold prepare.
        match goal with
        | |- context [map (wire_line crypto) ?l] =>
            match goal with
            | |- context [entry_line doc ?c gen trans_id :: _] =>
                specialize (IH (entries ++ [entry_line doc c gen trans_id])
                  (size + py_len (entry_line doc c gen trans_id))%Z)
            end
        end.
        unfold entry_line in *.
        destruct (prepare_docs crypto docs _ _) as [[entries' size']|x];
          [|exact IH].
        destruct IH as (-> & Hsize & Henc). rewrite <- app_assoc.
        split; [reflexivity|]. split; [|exact Henc].
        rewrite !total_len_app, !total_len_cons in Hsize |- *.
        change (total_len []) with 0%Z in *. lia.
      * split; reflexivity.
Qed.

(** The request, call by call. *)
Lemma send_request_trace (self : LeapSyncTarget)
    (docs : list (any_doc * pyval * pyval)) (source_replica_uid : string)
    (last_known_generation last_known_trans_id : pyval)
    (ensure_callback : bool) (tr : list event) :
  send_request self docs source_replica_uid last_known_generation
    last_known_trans_id ensure_callback tr
  = if forallb (encryptable (_crypto self)) (List.filter synced docs)
    then
      let lines :=
        "[" :: metadata_line last_known_generation last_known_trans_id
                 ensure_callback
            :: map (wire_line (_crypto self)) (List.filter synced docs)
            ++ [CRLF +:+ "]"] in
      (tr ++ request_preamble self source_replica_uid
          ++ [EvPutHeader "content-length" (py_str (PInt (total_len lines)));
              EvEndHeaders]
          ++ map EvSend lines, Return tt)
    else (tr ++ request_preamble self source_replica_uid,
          Raise (DocumentNotEncrypted (PStr "Failed encrypting document."))).
Proof.
  unfold send_request, request_preamble.
  rewrite M_bind_unfold. unfold emit at 1.
  rewrite M_bind_unfold.
  assert (Hhook : (if _trace_hook self
                   then emit (EvTraceHook "sync_exchange")
                   else mret tt) (tr ++ [EvEnsureConnection])
                  = (tr ++ EvEnsureConnection
                        :: (if _trace_hook self
                            then [EvTraceHook "sync_exchange"] else []),
                     Return tt)).
  { destruct (_trace_hook self).
    - unfold emit. rewrite <- app_assoc. reflexivity.
    - reflexivity. }
  rewrite Hhook. clear Hhook.
  rewrite M_bind_unfold. unfold emit at 1.
  rewrite M_bind_unfold. unfold emit at 1.
  rewrite M_bind_unfold, put_headers_trace.
  unfold prepare at 1. cbn [app].
  rewrite M_bind_unfold. unfold lift.
  change ("" +:+ ?x) with x.
  match goal with
  | |- context [prepare_docs ?c docs ?es ?sz] =>
      pose proof (prepare_docs_size c docs es sz) as Hp;
      destruct (prepare_docs c docs es sz) as [[entries size]|x]
  end.
  - destruct Hp as (-> & Hsize & ->). cbv zeta.
    rewrite M_bind_unfold. unfold emit at 1.
    rewrite M_bind_unfold. unfold emit at 1.
    rewrite send_all_trace. rewrite last_last.
    assert (Hlen : (size + py_len (CRLF +:+ "]"))%Z
                   = total_len
                       ("[" :: metadata_line last_known_generation
                                 last_known_trans_id ensure_callback
                            :: map (wire_line (_crypto self))
                                 (List.filter synced docs)
                            ++ [CRLF +:+ "]"])).
    { rewrite !total_len_cons, total_len_app, !total_len_cons.
      rewrite total_len_app, !total_len_cons in Hsize.
      change (total_len []) with 0%Z in *. unfold metadata_line in *.
      change (py_len "[") with 1%Z in *. lia. }
    rewrite Hlen. unfold metadata_line. f_equal.
    repeat first [rewrite <- app_assoc | progress cbn [app]]. reflexivity.
  - destruct Hp as (-> & ->). f_equal.
    repeat first [rewrite <- app_assoc | progress cbn [app]]. reflexivity.
Qed.

(** Reading an answer calls the two callbacks and nothing else. *)
Lemma parse_sync_stream_callbacks (self : LeapSyncTarget) (data : string)
    (ensure_callback : bool) (tr : list event) :
  exists evs,
    fst (_parse_sync_stream self data ensure_callback tr) = tr ++ evs
    /\ forallb is_callback_event evs = true.
Proof.
  destruct (decide (head (splitlines data) = Some "[")) as [Hh|Hh].
  2:{ rewrite parse_sync_stream_not_opened by assumption.
      exists []. cbn. rewrite app_nil_r. auto. }
  rewrite parse_sync_stream_opened by assumption.
  assert (Hdata : exists evs,
             fst (parse_data (_crypto self) ensure_callback
                    (removelast (tail (splitlines data))) tr) = tr ++ evs
             /\ forallb is_callback_event evs = true).
  { destruct (removelast (tail (splitlines data))) as [|line0 entries].
    - exists []. cbn. rewrite app_nil_r. auto.
    - cbn [parse_data]. rewrite M_bind_unfold.
      pose proof (parse_metadata_events ensure_callback line0 tr) as Hm.
      assert (Hm' : exists evs0,
                 fst (parse_metadata ensure_callback line0 tr) = tr ++ evs0
                 /\ forallb is_callback_event evs0 = true).
      { destruct Hm as [->|(_ & res & uid & -> & _)].
        - exists []. rewrite app_nil_r. auto.
        - exists [EvEnsureCallback uid]. auto. }
      clear Hm. destruct Hm' as (evs0 & Hm & Hcb0).
      destruct (parse_metadata ensure_callback line0 tr)
        as [tr1 [[res c]|x]]; cbn [fst] in Hm; subst tr1; [|eauto].
      rewrite M_bind_unfold.
      destruct (parse_entries_events (_crypto self) entries c (tr ++ evs0))
        as (evs & Hevs & Hdoc & _).
      exists (evs0 ++ evs). split.
      + destruct (parse_entries (_crypto self) entries c (tr ++ evs0))
          as [tr2 [c2|x]]; cbn [fst] in Hevs; subst tr2;
          rewrite app_assoc; reflexivity.
      + rewrite forallb_app, Hcb0. cbn [andb].
        clear -Hdoc. induction evs as [|ev evs IH]; [reflexivity|].
        cbn in *. apply andb_prop in Hdoc as [Hev Hrest].
        rewrite IH by assumption. destruct ev; try discriminate Hev.
        reflexivity. }
  destruct Hdata as (evs & Hevs & Hcb).
  exists evs. split; [|exact Hcb].
  destruct (parse_data _ _ _ tr) as [tr1 [[res comma]|x]]; cbn [fst] in Hevs;
    [|exact Hevs].
  pose proof (check_last_line_trace (List.last (splitlines data) "") tr1) as Hc.
  destruct (check_last_line _ tr1) as [tr2 [u|x]]; cbn [fst] in Hc; subst tr2;
    [|exact Hevs].
  destruct (_ || comma); [exact Hevs|]. destruct res; exact Hevs.
Qed.

(** What an exchange does after its request. *)
Lemma sync_exchange_after_request (self : LeapSyncTarget)
    (docs : list (any_doc * pyval * pyval)) (source_replica_uid : string)
    (last_known_generation last_known_trans_id : pyval)
    (ensure_callback : bool) (response : result string)
    (tr tr1 : list event) :
  send_request self docs source_replica_uid last_known_generation
    last_known_trans_id ensure_callback tr = (tr1, Return tt) ->
  sync_exchange self docs source_replica_uid last_known_generation
    last_known_trans_id ensure_callback response tr
  = match response with
    | Return data =>
        match _parse_sync_stream self data ensure_callback tr1 with
        | (tr2, Return res) =>
            (tr2, new_generation ← getitem res "new_generation";
                  new_transaction_id ← getitem res "new_transaction_id";
                  Return (new_generation, new_transaction_id))
        | (tr2, Raise x) => (tr2, Raise x)
        end
    | Raise x => (tr1, Raise x)
    end.
Proof.
  intros Hreq. unfold sync_exchange. rewrite M_bind_unfold, Hreq.
  rewrite M_bind_unfold. unfold lift at 1.
  destruct response as [data|x]; [|reflexivity].
  rewrite M_bind_unfold.
  destruct (_parse_sync_stream self data ensure_callback tr1)
    as [tr2 [res|x]]; [|reflexivity].
  rewrite M_bind_unfold. unfold lift at 1.
  destruct (getitem res "new_generation") as [g|x]; [|reflexivity].
  rewrite M_bind_unfold. unfold lift at 1.
  destruct (getitem res "new_transaction_id") as [t|x]; reflexivity.
Qed.

(** X12. The header [content-length] announces what is sent. Every exchange is
    one of two runs. Either an encryption failed: the request was opened,
    and nothing more was done. Or the request was opened, the header
    [content-length] was put with the sum of the lengths of all the strings
    that are sent, the headers were ended, the strings were sent, and what
    follows are calls of the two callbacks only. *)
Theorem exchange_content_length (self : LeapSyncTarget)
    (docs : list (any_doc * pyval * pyval)) (source_replica_uid : string)
    (last_known_generation last_known_trans_id : pyval)
    (ensure_callback : bool) (response : result string) (tr : list event) :
  let run :=
    sync_exchange self docs source_replica_uid last_known_generation
      last_known_trans_id ensure_callback response tr in
  (exists x, run = (tr ++ request_preamble self source_replica_uid, Raise x))
  \/ (exists lines calls,
        fst run
        = tr ++ request_preamble self source_replica_uid
             ++ [EvPutHeader "content-length"
                   (py_str (PInt (total_len lines)));
                 EvEndHeaders]
             ++ map EvSend lines ++ calls
        /\ forallb is_callback_event calls = true).
Proof.
  cbv zeta.
  pose proof (send_request_trace self docs source_replica_uid
                last_known_generation last_known_trans_id ensure_callback tr)
    as Hreq.
  destruct (forallb (encryptable (_crypto self)) (List.filter synced docs)).
  - right. cbv zeta in Hreq.
    rewrite (sync_exchange_after_request _ _ _ _ _ _ _ _ _ Hreq).
    eexists. 
    destruct response as [data|x].
    + match goal with
      | |- context [_parse_sync_stream self data ensure_callback ?t] =>
          destruct (parse_sync_stream_callbacks self data ensure_callback t)
            as (calls & Hcalls & Hcb);
          destruct (_parse_sync_stream self data ensure_callback t)
            as [tr2 [res|x]]
      end; cbn [fst] in *; subst tr2; exists calls;
        (split; [|exact Hcb]);
        repeat first [rewrite <- app_assoc | progress cbn [app]];
        reflexivity.
    + exists []. split; [|reflexivity]. cbn [fst].
      rewrite app_nil_r. repeat first [rewrite <- app_assoc | progress cbn [app]].
      reflexivity.
  - left. eexists. unfold sync_exchange. rewrite M_bind_unfold, Hreq.
    reflexivity.
Qed.

(** X13. A failed encryption stops the exchange before anything is sent. When
    the cipher does not recognise what it made of one of the documents to
    sync, the exchange raises [DocumentNotEncrypted]; it has opened the
    request, but put no [content-length] header, ended no headers, sent
    nothing, not read the response and called no callback. *)
Theorem exchange_failed_encryption (self : LeapSyncTarget)
    (docs : list (any_doc * pyval * pyval)) (source_replica_uid : string)
    (last_known_generation last_known_trans_id : pyval)
    (ensure_callback : bool) (response : result string) (tr : list event) :
  forallb (encryptable (_crypto self)) (List.filter synced docs) = false ->
  sync_exchange self docs source_replica_uid last_known_generation
    last_known_trans_id ensure_callback response tr
  = (tr ++ request_preamble self source_replica_uid,
     Raise (DocumentNotEncrypted (PStr "Failed encrypting document.")))
  /\ forallb is_preamble_event (request_preamble self source_replica_uid)
     = true.
Proof.
  intros Henc. split.
  - unfold sync_exchange. rewrite M_bind_unfold, send_request_trace, Henc.
    reflexivity.
  - unfold request_preamble. cbn [forallb is_preamble_event andb].
    rewrite forallb_app. destruct (_trace_hook self); cbn.
    all: induction (_sign_request self _ _) as [|h hs IH]; [reflexivity|];
      exact IH.
Qed.

Lemma prepare_docs_skip (crypto : SoledadCrypto) (l : LeapDocument)
    (gen trans_id : pyval) (post : list (any_doc * pyval * pyval)) :
  forall (pre : list (any_doc * pyval * pyval)) (entries : list string)
         (size : Z),
    prepare_docs crypto
      (pre ++ (LeapDoc (_set_syncable l false), gen, trans_id) :: post)
      entries size
    = prepare_docs crypto (pre ++ post) entries size.
Proof.
  induction pre as [|[[doc g] t] pre IH]; intros entries size.
  - reflexivity.
  - cbn [app prepare_docs]. destruct (skipped doc); [apply IH|].
    destruct (if negb (is_tombstone (base_of doc)) then _ else _)
      as [enc_json|x]; [|reflexivity].
    rewrite !bind_Return. unfold prepare. apply IH.
Qed.

(** X14. A document made non-syncable is invisible to the exchange: with
    [syncable] set to [False] on a document of the list, wherever it is,
    the exchange does and returns exactly what it does and returns without
    that document (the same calls on the connection, the same
    [content-length], the same result), whether the document could be
    encrypted or not. *)
Theorem unsyncable_is_invisible (self : LeapSyncTarget)
    (pre post : list (any_doc * pyval * pyval)) (l : LeapDocument)
    (gen trans_id : pyval) (source_replica_uid : string)
    (last_known_generation last_known_trans_id : pyval)
    (ensure_callback : bool) (response : result string) (tr : list event) :
  sync_exchange self
    (pre ++ (LeapDoc (_set_syncable l false), gen, trans_id) :: post)
    source_replica_uid last_known_generation last_known_trans_id
    ensure_callback response tr
  = sync_exchange self (pre ++ post) source_replica_uid
      last_known_generation last_known_trans_id ensure_callback response tr.
Proof.
  unfold sync_exchange, send_request, prepare. cbv beta iota zeta.
  rewrite prepare_docs_skip. reflexivity.
Qed.

Lemma parse_metadata_object (ensure_callback : bool) (line0 : string)
    (kv : list (string * pyval)) (tr : list event) :
  json_loads (fst (check_and_strip_comma line0)) = Some (PDict kv) ->
  parse_metadata ensure_callback line0 tr
  = (tr ++ ensure_calls ensure_callback kv,
     Return (PDict kv, snd (check_and_strip_comma line0))).
Proof.
  intros Hl. unfold parse_metadata, ensure_calls.
  destruct (check_and_strip_comma line0) as [line c]. cbn [fst snd] in *.
  rewrite M_bind_unfold. unfold lift, py_json_loads. rewrite Hl.
  rewrite M_bind_unfold.
  destruct ensure_callback; [|cbn; rewrite app_nil_r; reflexivity].
  rewrite M_bind_unfold. cbn [py_contains getitem].
  destruct (dict_get kv "replica_uid") as [uid|].
  - rewrite bool_decide_eq_true_2 by eauto. reflexivity.
  - rewrite bool_decide_eq_false_2 by (intros [? ?]; discriminate).
    cbn. rewrite app_nil_r. reflexivity.
Qed.

(** An exchange whose documents can be encrypted and whose answer can be
    read to the end, up to the two keys it takes from the answer. *)
Lemma sync_exchange_answered (self : LeapSyncTarget)
    (docs : list (any_doc * pyval * pyval)) (source_replica_uid : string)
    (last_known_generation last_known_trans_id : pyval)
    (ensure_callback : bool) (data line0 : string) (entries : list string)
    (kv : list (string * pyval))
    (xs : list (LeapDocument * pyval * pyval * bool)) (tr : list event) :
  forallb (encryptable (_crypto self)) (List.filter synced docs) = true ->
  splitlines data = "[" :: (line0 :: entries) ++ ["]"] ->
  json_loads (fst (check_and_strip_comma line0)) = Some (PDict kv) ->
  Forall2 (fun e x => read_entry (_crypto self) e = Return x) entries xs ->
  commas_ok (line0 :: entries) = true ->
  let lines :=
    "[" :: metadata_line last_known_generation last_known_trans_id
             ensure_callback
        :: map (wire_line (_crypto self)) (List.filter synced docs)
        ++ [CRLF +:+ "]"] in
  sync_exchange self docs source_replica_uid last_known_generation
    last_known_trans_id ensure_callback (Return data) tr
  = (tr ++ request_preamble self source_replica_uid
        ++ [EvPutHeader "content-length" (py_str (PInt (total_len lines)));
            EvEndHeaders]
        ++ map EvSend lines
        ++ ensure_calls ensure_callback kv
        ++ map callback_of xs,
     new_generation ← getitem (PDict kv) "new_generation";
     new_transaction_id ← getitem (PDict kv) "new_transaction_id";
     Return (new_generation, new_transaction_id)).
Proof.
  intros Henc Hparts Hl Hall Hok. cbv zeta.
  pose proof (send_request_trace self docs source_replica_uid
                last_known_generation last_known_trans_id ensure_callback tr)
    as Hreq.
  rewrite Henc in Hreq. cbv zeta in Hreq.
  rewrite (sync_exchange_after_request _ _ _ _ _ _ _ _ _ Hreq).
  rewrite parse_sync_stream_opened by (rewrite Hparts; reflexivity).
  rewrite Hparts. cbn [tail]. rewrite removelast_last.
  change ("[" :: (line0 :: entries) ++ ["]"])
    with (("[" :: line0 :: entries) ++ ["]"]).
  rewrite last_last.
  cbn [parse_data].
  rewrite M_bind_unfold, (parse_metadata_object _ _ kv) by assumption.
  rewrite M_bind_unfold.
  rewrite (parse_entries_all (_crypto self) entries xs Hall).
  - unfold mret, M_ret. rewrite check_last_line_closed. cbn [orb].
    assert (Hlast : match entries with
                    | [] => snd (check_and_strip_comma line0)
                    | _ :: _ => false
                    end = false).
    { destruct entries as [|e entries']; [|reflexivity].
      cbn [commas_ok] in Hok.
      destruct (snd (check_and_strip_comma line0));
        [discriminate | reflexivity]. }
    rewrite Hlast. f_equal.
    repeat first [rewrite <- app_assoc | progress cbn [app]]. reflexivity.
  - intros Hne. destruct entries as [|e entries']; [congruence|].
    change (commas_ok (line0 :: e :: entries'))
      with (snd (check_and_strip_comma line0) && commas_ok (e :: entries'))
      in Hok.
    apply andb_prop in Hok. exact Hok.
Qed.

(** X15. A whole exchange that goes well. When every document to sync can be
    encrypted and the answer is a well-formed stream (the two sentinels, a
    metadata object with [new_generation] and [new_transaction_id],
    entries that can be read, commas in the right places), the exchange
    opens the request, announces the length, sends the lines, calls the
    ensure callback if there is one and the answer names a replica, calls
    the document callback once for each entry, in order, and returns the
    new generation and the new transaction id of the answer. *)
Theorem sync_exchange_succeeds (self : LeapSyncTarget)
    (docs : list (any_doc * pyval * pyval)) (source_replica_uid : string)
    (last_known_generation last_known_trans_id : pyval)
    (ensure_callback : bool) (data line0 : string) (entries : list string)
    (kv : list (string * pyval))
    (xs : list (LeapDocument * pyval * pyval * bool))
    (new_generation new_transaction_id : pyval) (tr : list event) :
  forallb (encryptable (_crypto self)) (List.filter synced docs) = true ->
  splitlines data = "[" :: (line0 :: entries) ++ ["]"] ->
  json_loads (fst (check_and_strip_comma line0)) = Some (PDict kv) ->
  Forall2 (fun e x => read_entry (_crypto self) e = Return x) entries xs ->
  commas_ok (line0 :: entries) = true ->
  dict_get kv "new_generation" = Some new_generation ->
  dict_get kv "new_transaction_id" = Some new_transaction_id ->
  let lines :=
    "[" :: metadata_line last_known_generation last_known_trans_id
             ensure_callback
        :: map (wire_line (_crypto self)) (List.filter synced docs)
        ++ [CRLF +:+ "]"] in
  sync_exchange self docs source_replica_uid last_known_generation
    last_known_trans_id ensure_callback (Return data) tr
  = (tr ++ request_preamble self source_replica_uid
        ++ [EvPutHeader "content-length" (py_str (PInt (total_len lines)));
            EvEndHeaders]
        ++ map EvSend lines
        ++ ensure_calls ensure_callback kv
        ++ map callback_of xs,
     Return (new_generation, new_transaction_id)).
Proof.
  intros Henc Hparts Hl Hall Hok Hg Ht. cbv zeta.
  rewrite (sync_exchange_answered self docs source_replica_uid
             last_known_generation last_known_trans_id ensure_callback data
             line0 entries kv xs tr) by assumption.
  cbn [getitem]. rewrite Hg, Ht. reflexivity.
Qed.

(** X16. An answer without the new generation. When the answer is a well-formed
    stream but its metadata object lacks [new_generation] (or has it and
    lacks [new_transaction_id]), the exchange raises the [KeyError] of the
    missing key, and it does so only at the end: the request was sent and
    every document of the answer was handed to the callback before. *)
Theorem sync_exchange_incomplete_answer (self : LeapSyncTarget)
    (docs : list (any_doc * pyval * pyval)) (source_replica_uid : string)
    (last_known_generation last_known_trans_id : pyval)
    (ensure_callback : bool) (data line0 : string) (entries : list string)
    (kv : list (string * pyval))
    (xs : list (LeapDocument * pyval * pyval * bool)) (missing : string)
    (tr : list event) :
  forallb (encryptable (_crypto self)) (List.filter synced docs) = true ->
  splitlines data = "[" :: (line0 :: entries) ++ ["]"] ->
  json_loads (fst (check_and_strip_comma line0)) = Some (PDict kv) ->
  Forall2 (fun e x => read_entry (_crypto self) e = Return x) entries xs ->
  commas_ok (line0 :: entries) = true ->
  (dict_get kv "new_generation" = None /\ missing = "new_generation")
  \/ (is_Some (dict_get kv "new_generation")
      /\ dict_get kv "new_transaction_id" = None
      /\ missing = "new_transaction_id") ->
  let lines :=
    "[" :: metadata_line last_known_generation last_known_trans_id
             ensure_callback
        :: map (wire_line (_crypto self)) (List.filter synced docs)
        ++ [CRLF +:+ "]"] in
  sync_exchange self docs source_replica_uid last_known_generation
    last_known_trans_id ensure_callback (Return data) tr
  = (tr ++ request_preamble self source_replica_uid
        ++ [EvPutHeader "content-length" (py_str (PInt (total_len lines)));
            EvEndHeaders]
        ++ map EvSend lines
        ++ ensure_calls ensure_callback kv
        ++ map callback_of xs,
     Raise (KeyError missing)).
Proof.
  intros Henc Hparts Hl Hall Hok Hmiss. cbv zeta.
  rewrite (sync_exchange_answered self docs source_replica_uid
             last_known_generation last_known_trans_id ensure_callback data
             line0 entries kv xs tr) by assumption.
  cbn [getitem].
  destruct Hmiss as [[Hg ->]|([g Hg] & Ht & ->)].
  - rewrite Hg. reflexivity.
  - rewrite Hg, Ht. reflexivity.
Qed.

(** *** The lines of the body *)

Lemma str_app_assoc (a b c : string) : (a +:+ b) +:+ c = a +:+ (b +:+ c).
Proof.
  induction a as [|x a IH]; [reflexivity|].
  change (String x ((a +:+ b) +:+ c) = String x (a +:+ (b +:+ c))).
  rewrite IH. reflexivity.
Qed.

Lemma str_app_nil_r (a : string) : a +:+ "" = a.
Proof.
  induction a as [|x a IH]; [reflexivity|].
  change (String x (a +:+ "") = String x a). rewrite IH. reflexivity.
Qed.

(** [splitlines] reads a text without line break into the current line,
    and ends the line at a carriage return followed by a line feed. *)
Lemma splitlines_from_text (t : string) :
  no_line_break t = true ->
  forall cur rest,
    splitlines_from cur (t +:+ rest) = splitlines_from (cur +:+ t) rest.
Proof.
  induction t as [|c t IH]; intros Ht cur rest.
  - rewrite str_app_nil_r. reflexivity.
  - cbn [no_line_break] in Ht.
    apply andb_prop in Ht as [Hc Ht]. apply andb_prop in Hc as [Hlf Hcr].
    apply negb_true_iff in Hlf, Hcr.
    change (String c t +:+ rest) with (String c (t +:+ rest)).
    cbn [splitlines_from]. rewrite Hlf, Hcr.
    rewrite IH by assumption. rewrite str_app_assoc. reflexivity.
Qed.

Lemma splitlines_from_crlf (cur rest : string) :
  splitlines_from cur (CRLF +:+ rest) = cur :: splitlines_from "" rest.
Proof. reflexivity. Qed.

Lemma body_lines (ts : list string) :
  forall t,
    no_line_break t = true ->
    forallb no_line_break ts = true ->
    splitlines_from ""
      (t +:+ body_of (map (fun t' => "," +:+ CRLF +:+ t') ts
                        ++ [CRLF +:+ "]"]))
    = with_commas (t :: ts) ++ ["]"].
Proof.
  induction ts as [|t' ts IH]; intros t Ht Hts.
  - cbn [map app body_of fold_right with_commas].
    rewrite splitlines_from_text by assumption.
    rewrite str_app_nil_r. reflexivity.
  - cbn [forallb] in Hts. apply andb_prop in Hts as [Ht' Hts].
    cbn [map app body_of fold_right].
    change (("," +:+ CRLF +:+ t') +:+ ?b) with ("," +:+ CRLF +:+ (t' +:+ b)).
    rewrite <- (str_app_assoc t ","), splitlines_from_text.
    + rewrite splitlines_from_crlf. cbn [String.append].
      change (fold_right String.append "" ?l) with (body_of l).
      rewrite (IH t' Ht' Hts). reflexivity.
    + clear -Ht. induction t as [|c t IH]; [reflexivity|].
      change (String c t +:+ ",") with (String c (t +:+ ",")).
      cbn [no_line_break] in *.
      apply andb_prop in Ht as [Hc Ht]. rewrite Hc, IH by assumption.
      reflexivity.
Qed.

Lemma check_and_strip_comma_added (t : string) :
  check_and_strip_comma (t +:+ ",") = (t, true).
Proof.
  induction t as [|c t IH]; [reflexivity|].
  destruct t as [|c' t'].
  - change (check_and_strip_comma (String c ",") = (String c "", true)).
    cbn [check_and_strip_comma]. reflexivity.
  - change (String c (String c' t') +:+ ",")
      with (String c (String c' t' +:+ ",")).
    change (String c' t' +:+ ",") with (String c' (t' +:+ ",")) in *.
    change (check_and_strip_comma (String c (String c' (t' +:+ ","))))
      with (let (r, b) := check_and_strip_comma (String c' (t' +:+ ",")) in
            (String c r, b)).
    rewrite IH. reflexivity.
Qed.

Lemma with_commas_ok (ts : list string) :
  forall t,
    forallb (fun t => negb (snd (check_and_strip_comma t))) (t :: ts) = true ->
    commas_ok (with_commas (t :: ts)) = true.
Proof.
  induction ts as [|t' ts IH]; intros t Hts.
  - cbn in *. rewrite andb_true_r in Hts. exact Hts.
  - cbn [forallb] in Hts. apply andb_prop in Hts as [Ht Hts].
    change (with_commas (t :: t' :: ts))
      with ((t +:+ ",") :: with_commas (t' :: ts)).
    specialize (IH t' Hts).
    destruct (with_commas (t' :: ts)) as [|w ws] eqn:Hw; [discriminate IH|].
    change (commas_ok ((t +:+ ",") :: w :: ws))
      with (snd (check_and_strip_comma (t +:+ ",")) && commas_ok (w :: ws)).
    rewrite check_and_strip_comma_added, IH. reflexivity.
Qed.

(** X17. What is sent reads as the stream it is meant to be. When the JSON
    texts of the metadata and of the entries have no line break in them
    (the JSON library escapes them), the strings an exchange sends, end to
    end, split into these lines: the opening sentinel, the texts in order,
    each but the last followed by a comma, and the closing sentinel. When
    moreover no text ends in a comma, the data lines keep the comma
    grammar that [_parse_sync_stream] checks. *)
Theorem exchange_body_lines (self : LeapSyncTarget)
    (docs : list (any_doc * pyval * pyval)) (source_replica_uid : string)
    (last_known_generation last_known_trans_id : pyval)
    (ensure_callback : bool) (response : result string) (tr : list event) :
  let texts :=
    metadata_text last_known_generation last_known_trans_id ensure_callback
    :: map (wire_text (_crypto self)) (List.filter synced docs) in
  forallb (encryptable (_crypto self)) (List.filter synced docs) = true ->
  forallb no_line_break texts = true ->
  exists strings,
    sent (fst (sync_exchange self docs source_replica_uid
                 last_known_generation last_known_trans_id ensure_callback
                 response tr))
    = sent tr ++ strings
    /\ splitlines (body_of strings) = "[" :: with_commas texts ++ ["]"]
    /\ (forallb (fun t => negb (snd (check_and_strip_comma t))) texts = true ->
        commas_ok (with_commas texts) = true).
Proof.
  cbv zeta. intros Henc Htexts.
  rewrite sync_exchange_sent, send_request_trace, Henc. cbv zeta. cbn [fst].
  exists ("[" :: metadata_line last_known_generation last_known_trans_id
                   ensure_callback
              :: map (wire_line (_crypto self)) (List.filter synced docs)
              ++ [CRLF +:+ "]"]).
  split; [|split].
  - rewrite !sent_app, sent_sends.
    assert (Hpre : sent (request_preamble self source_replica_uid) = []).
    { unfold request_preamble.
      change (sent (EvEnsureConnection :: ?l)) with (sent l).
      rewrite !sent_app, sent_headers.
      destruct (_trace_hook self); reflexivity. }
    rewrite Hpre. reflexivity.
  - cbn [forallb] in Htexts. apply andb_prop in Htexts as [Hmeta Hdocs].
    unfold splitlines. cbn [body_of fold_right].
    change ("[" +:+ ?b) with (String "["%char b).
    unfold metadata_line.
    change (metadata_text ?a ?b ?c) with
      (json_dumps (PDict [("last_known_generation", a);
                          ("last_known_trans_id", b); ("ensure", PBool c)]))
      in *.
    match goal with
    | |- context [String.append (CRLF +:+ ?m) ?b] =>
        change (String.append (CRLF +:+ m) b) with (CRLF +:+ (m +:+ b))
    end.
    change (splitlines_from "" (String "["%char (CRLF +:+ ?b)))
      with ("[" :: splitlines_from "" b).
    f_equal.
    replace (map (wire_line (_crypto self)) (List.filter synced docs))
      with (map (fun t' => "," +:+ CRLF +:+ t')
              (map (wire_text (_crypto self)) (List.filter synced docs))).
    2:{ rewrite map_map. apply map_ext. intros [[doc gen] trans_id].
        reflexivity. }
    change (fold_right String.append "" ?l) with (body_of l).
    apply body_lines; [exact Hmeta|].
    rewrite forallb_forall in Hdocs |- *. exact Hdocs.
  - apply with_commas_ok.
Qed.

End ExchangeFurther.

(** ** Revisions and credentials *)

Section AccessorProperties.
Context `{RT : PyRuntime}.
Variable base64 : string -> string.
Variable inherited_sign_request :
  pyval -> string -> string -> pyval -> result (list (string * string)).


(** X19. Token credentials. Once [set_token_credentials] has stored an address
    and a token, whatever the credentials were before, a request is signed
    with exactly one header, [Authorization], whose value is [Token]
    followed by the base64 text of [address:token]; the method, the URL and
    the parameters play no part, and the inherited signer is not asked.
    Credentials that are a dictionary without a [token] are left to the
    inherited signer. *)
Theorem token_credentials_sign (address token : pyval) (method url : string)
    (params : pyval) :
  sign_request base64 inherited_sign_request
    (set_token_credentials address token) method url params
  = Return [("Authorization",
             "Token " +:+ base64 (py_str address +:+ ":" +:+ py_str token))]
  /\ forall creds,
       dict_get creds "token" = None ->
       sign_request base64 inherited_sign_request (PDict creds) method url
         params
       = inherited_sign_request (PDict creds) method url params.
Proof.
  split; [reflexivity|].
  intros creds Hc. unfold sign_request. cbn [py_contains].
  rewrite Hc, bind_Return.
  rewrite bool_decide_eq_false_2 by (intros [? ?]; discriminate).
  reflexivity.
Qed.

End AccessorProperties.

(** ** Concrete inputs for the further properties *)

(** The second document of the session comes out of its envelope. *)
Lemma decrypt_doc_json_returns_witness :
  exists d j content ciphertext scheme,
    PStr "doc-2" = PStr d /\ d <> "" /\ DemoSession.envelope_2 = PStr j
    /\ j <> ""
    /\ json_loads j = Some content
    /\ getitem content "_encrypted_json" = Return ciphertext
    /\ getitem content "_encryption_scheme" = Return scheme
    /\ py_eq_str scheme EncryptionSchemes.SYMKEY = true
    /\ is_encrypted_sym DemoCrypto.crypto ciphertext = true
    /\ PStr (SimpleJson.js "{'idx': 2}")
       = decrypt_sym DemoCrypto.crypto ciphertext
           (passphrase_hash DemoCrypto.crypto (PStr d)).
Proof.
  apply (decrypt_doc_json_returns DemoCrypto.crypto (PStr "doc-2")
           DemoSession.envelope_2 (PStr (SimpleJson.js "{'idx': 2}"))).
  vm_compute. reflexivity.
Defined.

(** A body that is JSON, but a list. *)
Lemma decrypt_doc_json_malformed_witness :
  decrypt_doc_json DemoCrypto.crypto (PStr "doc-1") (PStr "[1, 2]")
  = Raise TypeError
  /\ decrypt_doc_json DemoCrypto.crypto (PStr "doc-1") (PStr "{nothing")
     = Raise ValueError
  /\ decrypt_doc_json DemoCrypto.crypto (PStr "doc-1")
       (PStr (SimpleJson.js "{'_encryption_scheme': 'symkey'}"))
     = Raise (KeyError "_encrypted_json")
  /\ decrypt_doc_json DemoCrypto.crypto (PStr "doc-1")
       (PStr (SimpleJson.js "{'_encrypted_json': 'SYM<k>x'}"))
     = Raise (KeyError "_encryption_scheme").
Proof.
  split; [|split; [|split]].
  - apply (proj1 (proj2 (decrypt_doc_json_malformed DemoCrypto.crypto
                           "doc-1" "[1, 2]" ltac:(discriminate)
                           ltac:(discriminate)))
             (PList [PInt 1; PInt 2])).
    + vm_compute. reflexivity.
    + reflexivity.
  - apply (proj1 (decrypt_doc_json_malformed DemoCrypto.crypto
                    "doc-1" "{nothing" ltac:(discriminate)
                    ltac:(discriminate))).
    vm_compute. reflexivity.
  - apply (proj1 (proj2 (proj2
             (decrypt_doc_json_malformed DemoCrypto.crypto "doc-1"
                (SimpleJson.js "{'_encryption_scheme': 'symkey'}")
                ltac:(discriminate) ltac:(vm_compute; discriminate))))
             [("_encryption_scheme", PStr "symkey")]).
    + vm_compute. reflexivity.
    + reflexivity.
  - apply (proj2 (proj2 (proj2
             (decrypt_doc_json_malformed DemoCrypto.crypto "doc-1"
                (SimpleJson.js "{'_encrypted_json': 'SYM<k>x'}")
                ltac:(discriminate) ltac:(vm_compute; discriminate))))
             [("_encrypted_json", PStr "SYM<k>x")] (PStr "SYM<k>x")).
    + vm_compute. reflexivity.
    + reflexivity.
    + reflexivity.
Defined.

(** The exception of an envelope tagged ['pubkey'] is one of the list. *)
Lemma decrypt_doc_json_raises_witness :
  NameError "UnknownEncryptionScheme" = AssertionError
  \/ NameError "UnknownEncryptionScheme" = ValueError
  \/ NameError "UnknownEncryptionScheme" = TypeError
  \/ NameError "UnknownEncryptionScheme" = KeyError "_encrypted_json"
  \/ NameError "UnknownEncryptionScheme" = KeyError "_encryption_scheme"
  \/ NameError "UnknownEncryptionScheme"
     = DocumentNotEncrypted (PStr not_encrypted_msg)
  \/ NameError "UnknownEncryptionScheme" = NameError "UnknownEncryptionScheme".
Proof.
  apply (decrypt_doc_json_raises DemoCrypto.crypto (PStr "doc-1")
           (PStr (SimpleJson.js
                    "{'_encrypted_json': 'x', '_encryption_scheme': 'pubkey'}"))).
  vm_compute. reflexivity.
Defined.

(** A document encrypted under the empty identifier. *)
Lemma encrypt_unchecked_id_witness :
  exists e,
    encrypt_doc_json DemoCrypto.crypto (PStr "")
      (PStr (SimpleJson.js "{'idx': 2}")) = Return e
    /\ decrypt_doc_json DemoCrypto.crypto (PStr "") e = Raise AssertionError.
Proof.
  apply (encrypt_unchecked_id DemoCrypto.crypto (PStr "")
           (PStr (SimpleJson.js "{'idx': 2}"))).
  - reflexivity.
  - reflexivity.
Defined.

(** The envelope of [doc-2], decrypted as [doc-9]: the tagged cipher finds
    the wrong key and gives [None]. *)
Lemma decrypt_under_other_id_witness :
  (e ← encrypt_doc_json DemoCrypto.crypto (PStr "doc-2")
         (PStr (SimpleJson.js "{'idx': 2}"));
   decrypt_doc_json DemoCrypto.crypto (PStr "doc-9") e)
  = Return (decrypt_sym DemoCrypto.crypto
              (encrypt_sym DemoCrypto.crypto
                 (PStr (SimpleJson.js "{'idx': 2}"))
                 (passphrase_hash DemoCrypto.crypto (PStr "doc-2")))
              (passphrase_hash DemoCrypto.crypto (PStr "doc-9")))
  /\ decrypt_sym DemoCrypto.crypto
       (encrypt_sym DemoCrypto.crypto (PStr (SimpleJson.js "{'idx': 2}"))
          (passphrase_hash DemoCrypto.crypto (PStr "doc-2")))
       (passphrase_hash DemoCrypto.crypto (PStr "doc-9")) = PNone.
Proof.
  split; [|vm_compute; reflexivity].
  apply (decrypt_under_other_id DemoCrypto.crypto (PStr "doc-2")
           (PStr (SimpleJson.js "{'idx': 2}")) "doc-9").
  - discriminate.
  - reflexivity.
  - vm_compute. reflexivity.
  - reflexivity.
Defined.

(** An answer with one document, read with an ensure callback. *)
Lemma parse_sync_stream_well_formed_witness :
  _parse_sync_stream DemoCrypto.target DemoCrypto.answer_from_other true []
  = ([EvEnsureCallback (PStr "other")]
       ++ map callback_of
            [(DemoCrypto.demo_doc "d1", PInt 1, PStr "T-1", false)],
     Return (PDict [("new_generation", PInt 4);
                    ("new_transaction_id", PStr "T-4");
                    ("replica_uid", PStr "other")])).
Proof.
  apply (parse_sync_stream_well_formed DemoCrypto.target
           DemoCrypto.answer_from_other true [] _
           (SimpleJson.js
              "{'new_generation': 4, 'new_transaction_id': 'T-4', 'replica_uid': 'other'},")
           [DemoCrypto.demo_entry "d1" "1" ""] _ true).
  - vm_compute. reflexivity.
  - vm_compute. reflexivity.
  - constructor; [vm_compute; reflexivity | constructor].
  - vm_compute. reflexivity.
Defined.

(** The sealed entry of the session reaches the callback in plain text. *)
Lemma parse_entries_symkey_witness :
  parse_entries DemoCrypto.crypto [DemoSession.sealed_entry] true []
  = parse_entries DemoCrypto.crypto [] false
      ([] ++ [EvReturnDoc
                {| leap_base :=
                     {| doc_id := PStr "doc-2"; _rev := PStr "rev-2";
                        _json := PStr (SimpleJson.js "{'idx': 2}");
                        _content := PNone; has_conflicts := false |};
                   _syncable := true |} (PInt 2) (PStr "trans-2")]).
Proof.
  refine (proj1 (parse_entries_symkey DemoCrypto.crypto
                   DemoSession.sealed_entry DemoSession.sealed_entry []
                   false
                   (PDict [("id", PStr "doc-2"); ("rev", PStr "rev-2");
                           ("content", DemoSession.envelope_2);
                           ("gen", PInt 2); ("trans_id", PStr "trans-2")])
                   (PStr "doc-2") (PStr "rev-2") DemoSession.envelope_2
                   (PStr "symkey") (PInt 2) (PStr "trans-2") _ []
                   _ _ _ _ _ _ _ _ _ _)
            (PStr (SimpleJson.js "{'idx': 2}")) _ _);
    vm_compute; reflexivity.
Defined.

(** The same entry under an empty identifier. *)
Lemma parse_entries_symkey_not_str_witness :
  parse_entries DemoCrypto.crypto [DemoSession.nameless_entry] true []
  = ([], Raise AssertionError).
Proof.
  refine (parse_entries_symkey_not_str DemoCrypto.crypto
            DemoSession.nameless_entry DemoSession.nameless_entry [] false
            (PDict [("id", PStr ""); ("rev", PStr "rev-2");
                    ("content", DemoSession.envelope_2);
                    ("gen", PInt 2); ("trans_id", PStr "trans-2")])
            (PStr "") (PStr "rev-2") DemoSession.envelope_2
            (PStr "symkey") _ [] _ _ _ _ _ _ _ _ _).
  1-8: vm_compute; reflexivity.
  right. left. reflexivity.
Defined.

(** A tombstone passes through a cipher that recognises nothing. *)
Lemma parse_entries_not_encrypted_witness :
  parse_entries DemoCrypto.unsure [DemoSession.tombstone_entry] true []
  = parse_entries DemoCrypto.unsure [] false
      ([] ++ [EvReturnDoc
                {| leap_base :=
                     {| doc_id := PStr "doc-3"; _rev := PStr "rev-3";
                        _json := PNone; _content := PNone;
                        has_conflicts := false |};
                   _syncable := true |} (PInt 3) (PStr "trans-3")]).
Proof.
  refine (parse_entries_not_encrypted DemoCrypto.unsure
            DemoSession.tombstone_entry DemoSession.tombstone_entry [] false
            (PDict [("id", PStr "doc-3"); ("rev", PStr "rev-3");
                    ("content", PNone);
                    ("gen", PInt 3); ("trans_id", PStr "trans-3")])
            (PStr "doc-3") (PStr "rev-3") PNone (PInt 3) (PStr "trans-3")
            PNone [] [] _ _ _ _ _ _ _ _).
  1-5: vm_compute; reflexivity.
  - left. split; reflexivity.
  - reflexivity.
  - reflexivity.
Defined.

(** An entry without [gen], and a line that is no JSON. *)
Lemma parse_entries_bad_line_witness :
  parse_entries DemoCrypto.crypto
    [SimpleJson.js "{'id': 'd1', 'rev': 'r1', 'content': null},"; "]"] true []
  = ([], Raise (KeyError "gen"))
  /\ parse_entries DemoCrypto.crypto ["{'id': "] true []
     = ([], Raise ValueError).
Proof.
  split.
  - refine (proj2 (proj2 (proj2 (proj2
              (parse_entries_bad_line DemoCrypto.crypto _ _ ["]"] true [] _))))
              [("id", PStr "d1"); ("rev", PStr "r1"); ("content", PNone)]
              (PStr "d1") (PStr "r1") _ _ _ _ _);
      vm_compute; reflexivity.
  - refine (proj1 (parse_entries_bad_line DemoCrypto.crypto _ _ [] false []
                     _) _);
      vm_compute; reflexivity.
Defined.

(** The note cannot be sent by a target whose cipher recognises nothing;
    the tombstone alone can. *)
Lemma exchange_failed_encryption_witness :
  sync_exchange DemoCrypto.unsure_target DemoCrypto.local_docs "replica-1"
    (PInt 0) (PStr "") false (Return DemoCrypto.empty_answer) []
  = ([] ++ request_preamble DemoCrypto.unsure_target "replica-1",
     Raise (DocumentNotEncrypted (PStr "Failed encrypting document.")))
  /\ forallb is_preamble_event
       (request_preamble DemoCrypto.unsure_target "replica-1") = true.
Proof.
  apply (exchange_failed_encryption DemoCrypto.unsure_target
           DemoCrypto.local_docs "replica-1" (PInt 0) (PStr "") false
           (Return DemoCrypto.empty_answer) []).
  vm_compute. reflexivity.
Defined.

(** The three local documents are synced and one document comes back. *)
Lemma sync_exchange_succeeds_witness :
  let lines :=
    "[" :: metadata_line (PInt 0) (PStr "") true
        :: map (wire_line DemoCrypto.crypto)
             (List.filter synced DemoCrypto.local_docs)
        ++ [CRLF +:+ "]"] in
  sync_exchange DemoCrypto.target DemoCrypto.local_docs "replica-1"
    (PInt 0) (PStr "") true (Return DemoCrypto.answer_from_other) []
  = ([] ++ request_preamble DemoCrypto.target "replica-1"
        ++ [EvPutHeader "content-length" (py_str (PInt (total_len lines)));
            EvEndHeaders]
        ++ map EvSend lines
        ++ ensure_calls true
             [("new_generation", PInt 4); ("new_transaction_id", PStr "T-4");
              ("replica_uid", PStr "other")]
        ++ map callback_of
             [(DemoCrypto.demo_doc "d1", PInt 1, PStr "T-1", false)],
     Return (PInt 4, PStr "T-4")).
Proof.
  apply (sync_exchange_succeeds DemoCrypto.target DemoCrypto.local_docs
           "replica-1" (PInt 0) (PStr "") true DemoCrypto.answer_from_other
           (SimpleJson.js
              "{'new_generation': 4, 'new_transaction_id': 'T-4', 'replica_uid': 'other'},")
           [DemoCrypto.demo_entry "d1" "1" ""]).
  - vm_compute. reflexivity.
  - vm_compute. reflexivity.
  - vm_compute. reflexivity.
  - constructor; [vm_compute; reflexivity | constructor].
  - vm_compute. reflexivity.
  - reflexivity.
  - reflexivity.
Defined.

(** The document of the answer is handed over before the missing key is
    found out. *)
Lemma sync_exchange_incomplete_answer_witness :
  let lines :=
    "[" :: metadata_line (PInt 0) (PStr "") false
        :: map (wire_line DemoCrypto.crypto)
             (List.filter synced DemoCrypto.local_docs)
        ++ [CRLF +:+ "]"] in
  sync_exchange DemoCrypto.target DemoCrypto.local_docs "replica-1"
    (PInt 0) (PStr "") false (Return DemoCrypto.answer_without_generation) []
  = ([] ++ request_preamble DemoCrypto.target "replica-1"
        ++ [EvPutHeader "content-length" (py_str (PInt (total_len lines)));
            EvEndHeaders]
        ++ map EvSend lines
        ++ ensure_calls false [("replica_uid", PStr "other")]
        ++ map callback_of
             [(DemoCrypto.demo_doc "d1", PInt 1, PStr "T-1", false)],
     Raise (KeyError "new_generation")).
Proof.
  apply (sync_exchange_incomplete_answer DemoCrypto.target
           DemoCrypto.local_docs "replica-1" (PInt 0) (PStr "") false
           DemoCrypto.answer_without_generation
           (SimpleJson.js "{'replica_uid': 'other'},")
           [DemoCrypto.demo_entry "d1" "1" ""]).
  - vm_compute. reflexivity.
  - vm_compute. reflexivity.
  - vm_compute. reflexivity.
  - constructor; [vm_compute; reflexivity | constructor].
  - vm_compute. reflexivity.
  - left. split; reflexivity.
Defined.

(** The body sent for the three local documents, line by line. *)
Lemma exchange_body_lines_witness :
  let texts :=
    metadata_text (PInt 0) (PStr "") false
    :: map (wire_text DemoCrypto.crypto)
         (List.filter synced DemoCrypto.local_docs) in
  exists strings,
    sent (fst (sync_exchange DemoCrypto.target DemoCrypto.local_docs
                 "replica-1" (PInt 0) (PStr "") false
                 (Return DemoCrypto.empty_answer) []))
    = sent [] ++ strings
    /\ splitlines (body_of strings) = "[" :: with_commas texts ++ ["]"]
    /\ (forallb (fun t => negb (snd (check_and_strip_comma t))) texts = true ->
        commas_ok (with_commas texts) = true).
Proof.
  apply (exchange_body_lines DemoCrypto.target DemoCrypto.local_docs
           "replica-1" (PInt 0) (PStr "") false
           (Return DemoCrypto.empty_answer) []).
  - vm_compute. reflexivity.
  - vm_compute. reflexivity.
Defined.

(** Credentials of another kind go to the inherited signer. *)
Lemma token_credentials_sign_witness :
  sign_request (fun s => s) (fun _ _ _ _ => Return [("Authorization", "OAuth")])
    (PDict [("oauth", PNone)]) "GET" "/user-db" (PDict [])
  = Return [("Authorization", "OAuth")].
Proof.
  apply (proj2 (token_credentials_sign (fun s => s)
                  (fun _ _ _ _ => Return [("Authorization", "OAuth")])
                  PNone PNone "GET" "/user-db" (PDict []))
           [("oauth", PNone)]).
  reflexivity.
Defined.
